(** * Rate limiter: decision engine, counter stores and gateway headers

    A shallow embedding of the Go rate limiter (service, memory and Redis
    stores, middleware headers, configuration validation) together with
    the properties its specification states about it.

    Conventions of the embedding:
    - Go [int] and [int64] values are [Z]; arithmetic that can overflow is
      written with [wrap_int] (two's complement, 64 bits).
    - [time.Time] is an instant in nanoseconds ([Z]); [time.Duration] is a
      number of nanoseconds. [Time.Sub] saturates as Go's [Time.Sub] does.
    - Go strings are byte strings: [String.length] is [len] and
      [substring 0 8] is the slice [[:8]].
    - A Go map is a [gmap]; a pointer stored in a map and mutated in place
      is a lookup followed by an insert at the same key.
    - A nil pointer or nil error is [None]. *)

From Stdlib Require Import ZArith Lia Ascii String.
From stdpp Require Import base option strings gmap list fin_maps pretty.

Local Open Scope string_scope.
Local Open Scope Z_scope.

(** ** Machine integers *)

Definition int_min : Z := - 2 ^ 63.
Definition int_max : Z := 2 ^ 63 - 1.

(** Two's complement wrap-around of a 64-bit signed integer. *)
Definition wrap_int (z : Z) : Z := (z + 2 ^ 63) mod 2 ^ 64 - 2 ^ 63.

Definition in_int (z : Z) : Prop := int_min <= z <= int_max.

(** ** Instants and durations (package time) *)

Definition Time : Type := Z.
Definition Duration : Type := Z.

Definition Second : Duration := 1000000000.
Definition Minute : Duration := 60 * Second.

(** [t.Add(d)]. *)
Definition Time_Add (t : Time) (d : Duration) : Time := t + d.

(** [t.Sub(u)]: the difference, saturated to the range of a Duration. *)
Definition Time_Sub (t u : Time) : Duration :=
  Z.max int_min (Z.min int_max (t - u)).

(** [t.Before(u)] and [t.After(u)]. *)
Definition Time_Before (t u : Time) : bool := t <? u.
Definition Time_After (t u : Time) : bool := u <? t.

(** [t.Unix()]: whole seconds since the epoch. *)
Definition Time_Unix (t : Time) : Z := t `div` Second.

(** [time.Duration(n) * time.Second] for an [int] number of seconds. *)
Definition seconds (n : Z) : Duration := wrap_int (n * Second).

(** [int(d.Seconds())]: [Seconds] is [float64(d/Second) +
    float64(d%Second)/1e9] and the conversion truncates toward zero. The
    float sum cannot reach the next integer while [|d|] is below
    [float_exact] (2^24 seconds), so there the result is the truncated
    quotient. *)
Definition Seconds_int (d : Duration) : Z := d `quot` Second.

Definition error : Type := string.

(** ** Domain entities (internal/domain/entities.go) *)

(** [type LimiterType string]. *)
Definition LimiterType : Type := string.
Definition IPLimiter : LimiterType := "ip".
Definition TokenLimiter : LimiterType := "token".

Module RateLimitRule.
Record t : Type := mk {
  ID : string;
  Type_ : LimiterType;
  Key : string;
  Limit : Z;
  Window : Z;
  BlockDuration : Z;
  Description : string
}.
End RateLimitRule.

Module RateLimitStatus.
Record t : Type := mk {
  Key : string;
  Type_ : LimiterType;
  Count : Z;
  Limit : Z;
  Window : Z;
  LastReset : Time;
  BlockedUntil : option Time;
  IsBlocked : bool
}.

Definition set_Count (c : Z) (s : t) : t :=
  mk (Key s) (Type_ s) c (Limit s) (Window s) (LastReset s) (BlockedUntil s) (IsBlocked s).
Definition set_Type (ty : LimiterType) (s : t) : t :=
  mk (Key s) ty (Count s) (Limit s) (Window s) (LastReset s) (BlockedUntil s) (IsBlocked s).
Definition set_LastReset (r : Time) (s : t) : t :=
  mk (Key s) (Type_ s) (Count s) (Limit s) (Window s) r (BlockedUntil s) (IsBlocked s).
Definition set_BlockedUntil (b : option Time) (s : t) : t :=
  mk (Key s) (Type_ s) (Count s) (Limit s) (Window s) (LastReset s) b (IsBlocked s).
Definition set_IsBlocked (b : bool) (s : t) : t :=
  mk (Key s) (Type_ s) (Count s) (Limit s) (Window s) (LastReset s) (BlockedUntil s) b.
End RateLimitStatus.

Module RateLimitResult.
Record t : Type := mk {
  Allowed : bool;
  Limit : Z;
  Remaining : Z;
  ResetTime : Time;
  BlockedUntil : option Time;
  LimiterType_ : LimiterType
}.
End RateLimitResult.

Module TokenConfig.
Record t : Type := mk {
  Token : string;
  Limit : Z;
  Description : string
}.
End TokenConfig.

Module RateLimitConfig.
Record t : Type := mk {
  DefaultIPLimit : Z;
  DefaultTokenLimit : Z;
  Window : Z;
  BlockDuration : Z;
  TokenConfigs : gmap string TokenConfig.t
}.
End RateLimitConfig.

(** ** The storage interface (domain.RateLimiterStorage)

    Every operation runs at one instant [now], the reading of
    [time.Now()] its body decides on, and threads the store's state. The
    results are the Go result tuples. [Block] reads the clock a second
    time when it creates a status; both readings are [now]. The readings
    that only measure the latency a store writes to its own logger, and
    that logging, are outside the model. *)

Class RateLimiterStorage (St : Type) : Type := {
  storage_Get : Time -> string -> St -> (option RateLimitStatus.t * option error) * St;
  storage_Increment :
    Time -> string -> Z -> Duration -> St -> (Z * Time * option error) * St;
  storage_IsBlocked :
    Time -> string -> St -> (bool * option Time * option error) * St;
  storage_Block : Time -> string -> Duration -> St -> option error * St;
  storage_Reset : Time -> string -> St -> option error * St
}.

(** ** The memory store (internal/storage/memory.go) *)

Module MemoryStorage.

Record t : Type := mk {
  data : gmap string RateLimitStatus.t;
  blocks : gmap string Time
}.

Definition NewMemoryStorage : t := mk ∅ ∅.

Definition Get (now : Time) (key : string) (m : t)
  : (option RateLimitStatus.t * option error) * t :=
  match data m !! key with
  | None => ((None, None), m)
  | Some status => ((Some status, None), m)
  end.

(** The status found under [key], or the fresh one [Increment] creates. *)
Definition lookup_or_new (now : Time) (key : string) (limit : Z)
    (window : Duration) (m : t) : RateLimitStatus.t :=
  match data m !! key with
  | Some status => status
  | None =>
      RateLimitStatus.mk key "" 0 limit (Seconds_int window) now None false
  end.

Definition Increment (now : Time) (key : string) (limit : Z)
    (window : Duration) (m : t) : (Z * Time * option error) * t :=
  let status := lookup_or_new now key limit window m in
  let timeSinceReset := Time_Sub now (RateLimitStatus.LastReset status) in
  let '(status, blocks') :=
    if window <=? timeSinceReset
    then (RateLimitStatus.set_IsBlocked false
            (RateLimitStatus.set_LastReset now
               (RateLimitStatus.set_Count 0 status)),
          delete key (blocks m))
    else (status, blocks m) in
  let status :=
    RateLimitStatus.set_Count (wrap_int (RateLimitStatus.Count status + 1)) status in
  let status :=
    if limit <? RateLimitStatus.Count status
    then RateLimitStatus.set_IsBlocked true status
    else status in
  ((RateLimitStatus.Count status, RateLimitStatus.LastReset status, None),
   mk (<[key := status]> (data m)) blocks').

(** The tail of [IsBlocked]: the flag and expiry kept in the status. *)
Definition status_blocked (key : string) (m : t)
  : (bool * option Time * option error) * t :=
  match data m !! key with
  | None => ((false, None, None), m)
  | Some status =>
      ((RateLimitStatus.IsBlocked status, RateLimitStatus.BlockedUntil status, None), m)
  end.

Definition IsBlocked (now : Time) (key : string) (m : t)
  : (bool * option Time * option error) * t :=
  match blocks m !! key with
  | Some blockedUntil =>
      if Time_Before now blockedUntil
      then ((true, Some blockedUntil, None), m)
      else status_blocked key (mk (data m) (delete key (blocks m)))
  | None => status_blocked key m
  end.

Definition Block (now : Time) (key : string) (duration : Duration) (m : t)
  : option error * t :=
  let blockedUntil := Time_Add now duration in
  let blocks' := <[key := blockedUntil]> (blocks m) in
  match data m !! key with
  | Some status =>
      let status :=
        RateLimitStatus.set_BlockedUntil (Some blockedUntil)
          (RateLimitStatus.set_IsBlocked true status) in
      (None, mk (<[key := status]> (data m)) blocks')
  | None =>
      let status :=
        RateLimitStatus.mk key "" 0 0 0 now (Some blockedUntil) true in
      (None, mk (<[key := status]> (data m)) blocks')
  end.

Definition Reset (now : Time) (key : string) (m : t) : option error * t :=
  (None, mk (delete key (data m)) (delete key (blocks m))).

(** One tick of the background sweeper. *)
Definition cleanupExpiredEntries (now : Time) (m : t) : t :=
  let blocks' :=
    filter (fun kv : string * Time => negb (Time_After now kv.2) = true) (blocks m) in
  let data' :=
    filter (fun kv : string * RateLimitStatus.t =>
              negb ((0 <? RateLimitStatus.Window kv.2)
                    && (wrap_int (seconds (RateLimitStatus.Window kv.2) * 2)
                          <? Time_Sub now (RateLimitStatus.LastReset kv.2))) = true)
           (data m) in
  mk data' blocks'.

#[global] Instance storage : RateLimiterStorage t := {
  storage_Get := Get;
  storage_Increment := Increment;
  storage_IsBlocked := IsBlocked;
  storage_Block := Block;
  storage_Reset := Reset
}.

(** [Set]: stores a copy of the status under [key]. With a positive TTL it
    also starts a goroutine that sleeps for the TTL and then erases the key;
    the goroutine is returned as the timer [(ttl, key)] it amounts to, and
    [expire] is what it does when it fires. *)
Definition Set_ (now : Time) (key : string) (status : RateLimitStatus.t)
    (ttl : Duration) (m : t) : (option error * option (Duration * string)) * t :=
  ((None, if 0 <? ttl then Some (ttl, key) else None),
   mk (<[key := status]> (data m)) (blocks m)).

Definition expire (key : string) (m : t) : t :=
  mk (delete key (data m)) (delete key (blocks m)).

Definition Health (m : t) : option error := None.

Definition Close (m : t) : option error * t := (None, mk ∅ ∅).

(** [GetStats]: the values under "data_entries", "blocks_entries" and
    "type". *)
Definition GetStats (m : t) : nat * nat * string :=
  (size (data m), size (blocks m), "memory").

End MemoryStorage.

(** ** The Redis store (internal/storage/redis.go)

    The store talks to a server through a client. The client's replies
    and the JSON decoder belong to libraries, so they are parameters:
    [client_Get] is [client.Get(ctx, key).Result()], [client_Set] is
    [client.Set(ctx, key, data, ttl).Err()], and [Unmarshal]/[Marshal]
    are [json.Unmarshal]/[json.Marshal] at type [RateLimitStatus]. *)

Module RedisStorage.

Inductive reply : Type :=
  | Value (s : string)
  | Nil
  | Failure (e : error).

Section Client.
Variable Srv : Type.
Variable client_Get : string -> Srv -> reply.
Variable client_Set : string -> string -> Duration -> Srv -> option error * Srv.
Variable Unmarshal : string -> RateLimitStatus.t + error.
Variable Marshal : RateLimitStatus.t -> string + error.

Definition Get (key : string) (srv : Srv)
  : option RateLimitStatus.t * option error :=
  match client_Get key srv with
  | Nil => (None, None)
  | Failure e => (None, Some ("failed to get key " +:+ key +:+ ": " +:+ e))
  | Value result =>
      match Unmarshal result with
      | inr e =>
          (None, Some ("failed to unmarshal status for key " +:+ key +:+ ": " +:+ e))
      | inl status => (Some status, None)
      end
  end.

Definition Set_ (key : string) (status : RateLimitStatus.t) (ttl : Duration)
    (srv : Srv) : option error * Srv :=
  match Marshal status with
  | inr e =>
      (Some ("failed to marshal status for key " +:+ key +:+ ": " +:+ e), srv)
  | inl data =>
      match client_Set key data ttl srv with
      | (Some e, srv') =>
          (Some ("failed to set key " +:+ key +:+ ": " +:+ e), srv')
      | (None, srv') => (None, srv')
      end
  end.

Definition IsBlocked (now : Time) (key : string) (srv : Srv)
  : (bool * option Time * option error) * Srv :=
  match Get key srv with
  | (_, Some err) => ((false, None, Some err), srv)
  | (None, None) => ((false, None, None), srv)
  | (Some status, None) =>
      ((RateLimitStatus.IsBlocked status, RateLimitStatus.BlockedUntil status, None),
       srv)
  end.

Definition Block (now : Time) (key : string) (duration : Duration) (srv : Srv)
  : option error * Srv :=
  match Get key srv with
  | (_, Some err) => (Some err, srv)
  | (None, None) =>
      let blockedUntil := Time_Add now duration in
      let status :=
        RateLimitStatus.mk key "" 0 0 0 now (Some blockedUntil) true in
      Set_ key status (wrap_int (duration + Minute)) srv
  | (Some status, None) =>
      let blockedUntil := Time_Add now duration in
      let status :=
        RateLimitStatus.set_BlockedUntil (Some blockedUntil)
          (RateLimitStatus.set_IsBlocked true status) in
      Set_ key status (wrap_int (duration + Minute)) srv
  end.

End Client.

Section Deletion.
Variable Srv : Type.

(** [client.Del(ctx, key).Err()]. *)
Variable client_Del : string -> Srv -> option error * Srv.

Definition Reset (key : string) (srv : Srv) : option error * Srv :=
  match client_Del key srv with
  | (Some e, srv') => (Some ("failed to reset key " +:+ key +:+ ": " +:+ e), srv')
  | (None, srv') => (None, srv')
  end.

End Deletion.

(** [BuildKey], the package's builder of storage keys. *)
Definition BuildKey (limiterType : LimiterType) (identifier : string) : string :=
  if decide (limiterType = IPLimiter) then "rate_limit:ip:" +:+ identifier
  else if decide (limiterType = TokenLimiter) then "rate_limit:token:" +:+ identifier
  else "rate_limit:unknown:" +:+ identifier.

End RedisStorage.

(** ** The logging sink (domain.Logger)

    The sink is the list of entries written so far, oldest first. *)

Module Logger.

Inductive Level : Type := Debug | Info | Warn | Error.

Inductive Field : Type :=
  | FString (s : string)
  | FInt (z : Z)
  | FDuration (d : Duration)
  | FTime (t : Time)
  | FOptTime (t : option Time).

Record Entry : Type := mk {
  level : Level;
  msg : string;
  err : option error;
  fields : list (string * Field)
}.

End Logger.

(** ** The storage factory (internal/storage/factory.go) *)

Module StorageFactory.

Record RedisConfig : Type := mkRedisConfig {
  Host : string;
  Port : string;
  Password : string;
  Database : Z
}.

Record StorageConfig : Type := mkStorageConfig {
  Type_ : string;
  RedisConfig_ : option RedisConfig
}.

Definition RedisStorageType : string := "redis".
Definition MemoryStorageType : string := "memory".

Section Factory.

(** [strings.ToLower]. *)
Variable ToLower : string -> string.

(** The stores the factory hands out, with the two constructors of the
    package: [NewRedisStorage], which connects and may fail, and
    [NewMemoryStorage]. *)
Variable Store : Type.
Variable NewRedisStorage : string -> string -> string -> Z -> Store + error.
Variable NewMemoryStorage : Store.

(** The logger may be nil: [None]. *)
Definition info (msg : string) (fields : list (string * Logger.Field))
    (logger : option (list Logger.Entry)) : option (list Logger.Entry) :=
  (fun sink => (sink ++ [Logger.mk Logger.Info msg None fields])%list) <$> logger.

Definition createRedisStorage (config : option RedisConfig)
    (logger : option (list Logger.Entry))
  : (option Store * option error) * option (list Logger.Entry) :=
  match config with
  | None => ((None, Some "Redis config cannot be nil"), logger)
  | Some config =>
      if decide (Host config = "")
      then ((None, Some "Redis host cannot be empty"), logger)
      else if decide (Port config = "")
      then ((None, Some "Redis port cannot be empty"), logger)
      else if (Database config <? 0) || (15 <? Database config)
      then ((None, Some "Redis database must be between 0 and 15"), logger)
      else
        match NewRedisStorage (Host config) (Port config) (Password config)
                (Database config) with
        | inr e => ((None, Some ("failed to create Redis storage: " +:+ e)), logger)
        | inl storage =>
            ((Some storage, None),
             info "Redis storage created successfully"
               [("host", Logger.FString (Host config));
                ("port", Logger.FString (Port config));
                ("database", Logger.FInt (Database config))] logger)
        end
  end.

Definition createMemoryStorage (logger : option (list Logger.Entry))
  : (option Store * option error) * option (list Logger.Entry) :=
  ((Some NewMemoryStorage, None), info "Memory storage created successfully" [] logger).

Definition CreateStorage (config : option StorageConfig)
    (logger : option (list Logger.Entry))
  : (option Store * option error) * option (list Logger.Entry) :=
  match config with
  | None => ((None, Some "storage config cannot be nil"), logger)
  | Some config =>
      if decide (ToLower (Type_ config) = RedisStorageType)
      then createRedisStorage (RedisConfig_ config) logger
      else if decide (ToLower (Type_ config) = MemoryStorageType)
      then createMemoryStorage logger
      else ((None, Some ("unsupported storage type: " +:+ Type_ config)), logger)
  end.

Definition validateRedisConfig (config : option RedisConfig) : option error :=
  match config with
  | None => Some "Redis config cannot be nil"
  | Some config =>
      if decide (Host config = "") then Some "Redis host cannot be empty"
      else if decide (Port config = "") then Some "Redis port cannot be empty"
      else if (Database config <? 0) || (15 <? Database config)
      then Some ("Redis database must be between 0 and 15, got: "
                 +:+ pretty (Database config))
      else None
  end.

Definition ValidateConfig (config : option StorageConfig) : option error :=
  match config with
  | None => Some "storage config cannot be nil"
  | Some config =>
      if decide (ToLower (Type_ config) = RedisStorageType)
      then validateRedisConfig (RedisConfig_ config)
      else if decide (ToLower (Type_ config) = MemoryStorageType)
      then None
      else Some ("unsupported storage type: " +:+ Type_ config)
  end.

Definition BuildStorageConfigFromEnv
    (storageType redisHost redisPort redisPassword : string) (redisDB : Z)
  : StorageConfig :=
  let config := mkStorageConfig (ToLower storageType) None in
  if decide (Type_ config = RedisStorageType)
  then mkStorageConfig (Type_ config)
         (Some (mkRedisConfig redisHost redisPort redisPassword redisDB))
  else config.

End Factory.
End StorageFactory.

(** ** The decision engine (internal/service) *)

Module RateLimiterService.

(** What a call of the engine runs against: the store's state, the number
    of clock readings taken so far, and the logging sink. *)
Record World (St : Type) : Type := mkWorld {
  w_storage : St;
  w_tick : nat;
  w_log : list Logger.Entry
}.
Arguments mkWorld {St} _ _ _.
Arguments w_storage {St} _.
Arguments w_tick {St} _.
Arguments w_log {St} _.

Definition M (St A : Type) : Type := World St -> A * World St.

Definition ret {St A : Type} (a : A) : M St A := fun w => (a, w).

Definition bind {St A B : Type} (m : M St A) (f : A -> M St B) : M St B :=
  fun w => let '(a, w') := m w in f a w'.

#[global] Instance M_ret {St : Type} : MRet (M St) := @ret St.
#[global] Instance M_bind {St : Type} : MBind (M St) :=
  fun A B f m => bind m f.

Definition maskToken (token : string) : string :=
  if decide (token = "") then ""
  else if (String.length token <=? 8)%nat then token +:+ "***"
  else String.substring 0 8 token +:+ "***".

Definition buildStorageKey (key : string) (limiterType : LimiterType) : string :=
  "rate_limit:" +:+ limiterType +:+ ":" +:+ key.

Section Service.
Context {St : Type} `{RateLimiterStorage St}.

(** [strings.TrimSpace], a library function. *)
Variable TrimSpace : string -> string.

(** The successive readings of [time.Now()]. *)
Variable clock : nat -> Time.

(** The frozen configuration held by the service. *)
Variable config : RateLimitConfig.t.

(** [time.Now()]. *)
Definition Now : M St Time :=
  fun w => (clock (w_tick w), mkWorld (w_storage w) (S (w_tick w)) (w_log w)).

(** A call of a store operation: it runs at the next clock reading. An
    operation that does not read the clock ignores the instant. *)
Definition call {A : Type} (op : Time -> St -> A * St) : M St A :=
  fun w =>
    let '(a, st) := op (clock (w_tick w)) (w_storage w) in
    (a, mkWorld st (S (w_tick w)) (w_log w)).

Definition log (l : Logger.Level) (msg : string) (err : option error)
    (fields : list (string * Logger.Field)) : M St unit :=
  fun w =>
    (tt, mkWorld (w_storage w) (w_tick w) (w_log w ++ [Logger.mk l msg err fields])).

Definition detectLimiterType (ip token : string) : LimiterType * string :=
  let token := TrimSpace token in
  if decide (token = "") then (IPLimiter, ip) else (TokenLimiter, token).

Definition GetConfig (key : string) (limiterType : LimiterType) : RateLimitRule.t :=
  let '(limit, description) :=
    if decide (limiterType = IPLimiter)
    then (RateLimitConfig.DefaultIPLimit config, "Default IP limit for " +:+ key)
    else if decide (limiterType = TokenLimiter)
    then match RateLimitConfig.TokenConfigs config !! key with
         | Some tokenConfig =>
             (TokenConfig.Limit tokenConfig, TokenConfig.Description tokenConfig)
         | None =>
             (RateLimitConfig.DefaultTokenLimit config,
              "Default token limit for " +:+ key)
         end
    else (RateLimitConfig.DefaultIPLimit config, "Fallback IP limit for " +:+ key) in
  RateLimitRule.mk (limiterType +:+ ":" +:+ key) limiterType key limit
    (RateLimitConfig.Window config) (RateLimitConfig.BlockDuration config)
    description.

Definition CheckLimit (ip token : string)
  : M St (option RateLimitResult.t * option error) :=
  let '(limiterType, key) := detectLimiterType ip token in
  log Logger.Debug "Rate limit check initiated" None
    [("ip", Logger.FString ip); ("token", Logger.FString (maskToken token));
     ("limiter_type", Logger.FString limiterType); ("key", Logger.FString key)] ;;
  let storageKey := buildStorageKey key limiterType in
  '(isBlocked, blockedUntil, err) ←
     call (fun now => storage_IsBlocked now storageKey);
  match err with
  | Some e =>
      log Logger.Error "Failed to check blocked status" (Some e)
        [("storage_key", Logger.FString storageKey)] ;;
      ret (None, Some ("failed to check blocked status: " +:+ e))
  | None =>
      if isBlocked : bool then
        log Logger.Info "Request blocked" None
          [("storage_key", Logger.FString storageKey);
           ("blocked_until", Logger.FOptTime blockedUntil)] ;;
        let rule := GetConfig key limiterType in
        now ← Now;
        ret (Some (RateLimitResult.mk false (RateLimitRule.Limit rule) 0
                     (Time_Add now (seconds (RateLimitRule.Window rule)))
                     blockedUntil limiterType),
             None)
      else
        let rule := GetConfig key limiterType in
        '(currentCount, resetTime, err) ←
           call (fun now =>
                   storage_Increment now storageKey (RateLimitRule.Limit rule)
                     (seconds (RateLimitRule.Window rule)));
        match err with
        | Some e =>
            log Logger.Error "Failed to increment counter" (Some e)
              [("storage_key", Logger.FString storageKey);
               ("limit", Logger.FInt (RateLimitRule.Limit rule))] ;;
            ret (None, Some ("failed to increment counter: " +:+ e))
        | None =>
            let remaining := wrap_int (RateLimitRule.Limit rule - currentCount) in
            let remaining := if remaining <? 0 then 0 else remaining in
            let allowed := currentCount <=? RateLimitRule.Limit rule in
            if negb allowed then
              let blockDuration := seconds (RateLimitRule.BlockDuration rule) in
              err ← call (fun now => storage_Block now storageKey blockDuration);
              match err with
              | Some e =>
                  log Logger.Error "Failed to block key" (Some e)
                    [("storage_key", Logger.FString storageKey);
                     ("block_duration", Logger.FDuration blockDuration)]
              | None => ret tt
              end ;;
              now ← Now;
              let blockTime := Time_Add now blockDuration in
              log Logger.Info "Rate limit exceeded, key blocked" None
                [("storage_key", Logger.FString storageKey);
                 ("current_count", Logger.FInt currentCount);
                 ("limit", Logger.FInt (RateLimitRule.Limit rule));
                 ("blocked_until", Logger.FTime blockTime)] ;;
              ret (Some (RateLimitResult.mk false (RateLimitRule.Limit rule) 0
                           resetTime (Some blockTime) limiterType),
                   None)
            else
              log Logger.Debug "Request allowed" None
                [("storage_key", Logger.FString storageKey);
                 ("current_count", Logger.FInt currentCount);
                 ("limit", Logger.FInt (RateLimitRule.Limit rule));
                 ("remaining", Logger.FInt remaining)] ;;
              ret (Some (RateLimitResult.mk true (RateLimitRule.Limit rule)
                           remaining resetTime None limiterType),
                   None)
        end
  end.

(** [n] consecutive [CheckLimit] calls for one address and credential: the
    results in call order. *)
Fixpoint CheckLimits (ip token : string) (n : nat)
  : M St (list (option RateLimitResult.t * option error)) :=
  match n with
  | O => ret []
  | S n' =>
      r ← CheckLimit ip token;
      rs ← CheckLimits ip token n';
      ret (r :: rs)
  end.

Definition IsAllowed (key : string) (limiterType : LimiterType)
  : M St (bool * option error) :=
  let storageKey := buildStorageKey key limiterType in
  '(isBlocked, _, err) ← call (fun now => storage_IsBlocked now storageKey);
  match err with
  | Some e => ret (false, Some ("failed to check if key is allowed: " +:+ e))
  | None => ret (negb isBlocked, None)
  end.

Definition GetStatus (key : string) (limiterType : LimiterType)
  : M St (option RateLimitStatus.t * option error) :=
  let storageKey := buildStorageKey key limiterType in
  '(status, err) ← call (fun now => storage_Get now storageKey);
  match err with
  | Some e => ret (None, Some ("failed to get status: " +:+ e))
  | None => ret (RateLimitStatus.set_Type limiterType <$> status, None)
  end.

Definition Reset (key : string) (limiterType : LimiterType) : M St (option error) :=
  let storageKey := buildStorageKey key limiterType in
  err ← call (fun now => storage_Reset now storageKey);
  match err with
  | Some e => ret (Some ("failed to reset key: " +:+ e))
  | None =>
      log Logger.Info "Rate limit reset" None
        [("key", Logger.FString key); ("limiter_type", Logger.FString limiterType);
         ("storage_key", Logger.FString storageKey)] ;;
      ret None
  end.

End Service.
End RateLimiterService.

(** ** Request contexts (package context)

    A context is the chain of values attached with [context.WithValue]. A
    key is a value of a named Go type: keys of different types are
    different keys even when their strings are equal, so a key is the pair
    of its type and its string. All values this code attaches are strings. *)

Module GoContext.

Definition Key : Type := (string * string)%type.
Definition t : Type := list (Key * string).

Definition WithValue (ctx : t) (key : Key) (value : string) : t :=
  (key, value) :: ctx.

(** [ctx.Value(key)]: the value attached last under [key], if any. *)
Fixpoint Value (ctx : t) (key : Key) : option string :=
  match ctx with
  | [] => None
  | (k, v) :: ctx' => if decide (k = key) then Some v else Value ctx' key
  end.

End GoContext.

(** ** The gateway's response headers (internal/middleware) *)

Module RateLimiterMiddleware.

(** [gin.Context.Header]: an empty value removes the header. *)
Definition Header (key value : string) (h : gmap string string)
  : gmap string string :=
  if decide (value = "") then delete key h else <[key := value]> h.

(** [strconv.Itoa] and [strconv.FormatInt(_, 10)]. *)
Definition Itoa (z : Z) : string := pretty z.

Definition setRateLimitHeaders (now : Time) (result : RateLimitResult.t)
    (h : gmap string string) : gmap string string :=
  let h := Header "X-RateLimit-Limit" (Itoa (RateLimitResult.Limit result)) h in
  let h :=
    Header "X-RateLimit-Remaining" (Itoa (RateLimitResult.Remaining result)) h in
  let h :=
    Header "X-RateLimit-Reset"
      (Itoa (Time_Unix (RateLimitResult.ResetTime result))) h in
  let h := Header "X-RateLimit-Type" (RateLimitResult.LimiterType_ result) h in
  if negb (RateLimitResult.Allowed result) then
    match RateLimitResult.BlockedUntil result with
    | Some blockedUntil =>
        let retryAfter := Seconds_int (Time_Sub blockedUntil now) in
        if 0 <? retryAfter then Header "Retry-After" (Itoa retryAfter) h else h
    | None => h
    end
  else h.

Definition maskToken (token : string) : string :=
  if decide (token = "") then ""
  else if (String.length token <=? 8)%nat then token +:+ "***"
  else String.substring 0 8 token +:+ "***".

(** The request as the gateway reads it: [c.GetHeader], and the fields
    [RemoteAddr], [Method], [URL.Path] and [Context()] of [c.Request]. *)
Record Request : Type := mkRequest {
  GetHeader : string -> string;
  RemoteAddr : string;
  Method : string;
  Path : string;
  RequestContext : GoContext.t
}.

(** A JSON value as the gateway builds them with [gin.H]. *)
#[local] Unset Elimination Schemes.
Inductive JSON : Type :=
  | JString (s : string)
  | JInt (z : Z)
  | JObject (fields : gmap string JSON).
#[local] Set Elimination Schemes.

(** The part of [gin.Context] the gateway uses: the request, the response
    headers, the status code and body written with [c.JSON] (none while
    nothing was written), and the abort flag. The Content-Type header gin
    writes together with a body is not part of the model. *)
Record Context : Type := mkContext {
  request : Request;
  header : gmap string string;
  status : option Z;
  body : option JSON;
  aborted : bool
}.

Definition c_Header (key value : string) (c : Context) : Context :=
  mkContext (request c) (Header key value (header c)) (status c) (body c) (aborted c).

Definition c_JSON (code : Z) (obj : JSON) (c : Context) : Context :=
  mkContext (request c) (header c) (Some code) (Some obj) (aborted c).

Definition c_Abort (c : Context) : Context :=
  mkContext (request c) (header c) (status c) (body c) true.

Definition StatusInternalServerError : Z := 500.
Definition StatusTooManyRequests : Z := 429.

(** The member [key] of a JSON object. *)
Definition json_field (key : string) (j : JSON) : option JSON :=
  match j with
  | JObject fields => fields !! key
  | _ => None
  end.

(** [strings.Split(s, ",")[0]]: the part of [s] before its first comma. *)
Fixpoint firstField (s : string) : string :=
  match s with
  | EmptyString => EmptyString
  | String a s' => if Ascii.eqb a "," then EmptyString else String a (firstField s')
  end.

(** The key type the gateway declares inside [enrichContext]. *)
Definition contextKey (name : string) : GoContext.Key :=
  ("middleware.contextKey", name).

Section Gateway.

(** [strings.TrimSpace]. *)
Variable TrimSpace : string -> string.

(** [net.SplitHostPort]: the host, or [None] when it returns an error. *)
Variable SplitHostPort : string -> option string.

(** [uuid.New().String()]. *)
Variable newUUID : string.

Definition extractClientIP (c : Context) : string :=
  let xff := GetHeader (request c) "X-Forwarded-For" in
  let fromXFF :=
    if decide (xff = "") then None
    else let clientIP := TrimSpace (firstField xff) in
         if decide (clientIP = "") then None else Some clientIP in
  match fromXFF with
  | Some clientIP => clientIP
  | None =>
      let xri := GetHeader (request c) "X-Real-IP" in
      if decide (xri = "") then
        match SplitHostPort (RemoteAddr (request c)) with
        | Some host => host
        | None => RemoteAddr (request c)
        end
      else TrimSpace xri
  end.

Definition extractAPIToken (c : Context) : string :=
  let token := GetHeader (request c) "API_KEY" in
  if decide (token = "") then
    let token := GetHeader (request c) "X-Api-Token" in
    if decide (token = "") then
      let token := GetHeader (request c) "Api-Token" in
      if decide (token = "") then "" else TrimSpace token
    else TrimSpace token
  else TrimSpace token.

Definition getRequestID (c : Context) : string * Context :=
  let requestID := GetHeader (request c) "X-Request-ID" in
  if decide (requestID = "") then (newUUID, c_Header "X-Request-ID" newUUID c)
  else (requestID, c).

Definition enrichContext (ctx : GoContext.t) (c : Context) (requestID : string)
  : GoContext.t :=
  let ctx := GoContext.WithValue ctx (contextKey "request_id") requestID in
  let ctx := GoContext.WithValue ctx (contextKey "client_ip") (extractClientIP c) in
  let ctx :=
    GoContext.WithValue ctx (contextKey "user_agent")
      (GetHeader (request c) "User-Agent") in
  let ctx := GoContext.WithValue ctx (contextKey "method") (Method (request c)) in
  let ctx := GoContext.WithValue ctx (contextKey "path") (Path (request c)) in
  ctx.

(** The body of a rejection. *)
Definition rejection (result : RateLimitResult.t) : JSON :=
  let details : gmap string JSON :=
    <["limit" := JInt (RateLimitResult.Limit result)]>
      (<["remaining" := JInt (RateLimitResult.Remaining result)]>
         (<["reset_time" := JInt (Time_Unix (RateLimitResult.ResetTime result))]>
            (<["limiter_type" := JString (RateLimitResult.LimiterType_ result)]> ∅))) in
  let details :=
    match RateLimitResult.BlockedUntil result with
    | Some blockedUntil => <["blocked_until" := JInt (Time_Unix blockedUntil)]> details
    | None => details
    end in
  JObject
    (<["error" := JString "rate_limit_exceeded"]>
       (<["message" :=
            JString "you have reached the maximum number of requests or actions allowed within a certain time frame"]>
          (<["details" := JObject details]> ∅))).

(** [Handle]. The service is behind its interface: [CheckLimit] is
    [m.service.CheckLimit] on the service's state [Sv]. [next] is what
    [c.Next()] runs, the rest of the pipeline. [now] is the clock reading
    of [setRateLimitHeaders]. The result is [None] when the call panics:
    a service that returns neither a decision nor an error makes [Handle]
    dereference nil. The five-second deadline [Handle] puts on the context
    it hands to the service is not part of the model. *)
Definition Handle {Sv : Type}
    (CheckLimit :
       GoContext.t -> string -> string -> Sv
       -> (option RateLimitResult.t * option error) * Sv)
    (next : Context -> Context) (now : Time)
    (c : Context) (sv : Sv) (sink : list Logger.Entry)
  : option (Context * Sv * list Logger.Entry) :=
  let '(requestID, c) := getRequestID c in
  let ctx := enrichContext (RequestContext (request c)) c requestID in
  let clientIP := extractClientIP c in
  let apiToken := extractAPIToken c in
  let sink :=
    (sink ++ [Logger.mk Logger.Debug "Rate limiter middleware initiated" None
                [("client_ip", Logger.FString clientIP);
                 ("api_token", Logger.FString (maskToken apiToken));
                 ("user_agent", Logger.FString (GetHeader (request c) "User-Agent"));
                 ("method", Logger.FString (Method (request c)));
                 ("path", Logger.FString (Path (request c)));
                 ("request_id", Logger.FString requestID)]])%list in
  let '((result, err), sv) := CheckLimit ctx clientIP apiToken sv in
  match err with
  | Some e =>
      let sink :=
        (sink ++ [Logger.mk Logger.Error "Rate limiter service error" (Some e)
                    [("client_ip", Logger.FString clientIP);
                     ("api_token", Logger.FString (maskToken apiToken));
                     ("request_id", Logger.FString requestID)]])%list in
      let c :=
        c_JSON StatusInternalServerError
          (JObject (<["error" := JString "internal server error"]>
                      (<["message" := JString "Unable to process rate limit check"]> ∅)))
          c in
      Some (c_Abort c, sv, sink)
  | None =>
      match result with
      | None => None
      | Some result =>
          let c :=
            mkContext (request c) (setRateLimitHeaders now result (header c))
              (status c) (body c) (aborted c) in
          if negb (RateLimitResult.Allowed result) then
            let sink :=
              (sink ++ [Logger.mk Logger.Info "Request rate limited" None
                          [("client_ip", Logger.FString clientIP);
                           ("api_token", Logger.FString (maskToken apiToken));
                           ("limiter_type",
                            Logger.FString (RateLimitResult.LimiterType_ result));
                           ("limit", Logger.FInt (RateLimitResult.Limit result));
                           ("remaining", Logger.FInt (RateLimitResult.Remaining result));
                           ("blocked_until",
                            Logger.FOptTime (RateLimitResult.BlockedUntil result));
                           ("request_id", Logger.FString requestID)]])%list in
            let c := c_JSON StatusTooManyRequests (rejection result) c in
            Some (c_Abort c, sv, sink)
          else
            let sink :=
              (sink ++ [Logger.mk Logger.Debug "Request allowed by rate limiter" None
                          [("client_ip", Logger.FString clientIP);
                           ("api_token", Logger.FString (maskToken apiToken));
                           ("limiter_type",
                            Logger.FString (RateLimitResult.LimiterType_ result));
                           ("limit", Logger.FInt (RateLimitResult.Limit result));
                           ("remaining", Logger.FInt (RateLimitResult.Remaining result));
                           ("request_id", Logger.FString requestID)]])%list in
            Some (next c, sv, sink)
      end
  end.

End Gateway.

(** [NewRateLimiterMiddleware(service, logger)] where [service] is the
    engine of internal/service over a store [St]. The engine hands the
    request context to its store and reads nothing from it. *)
Definition NewRateLimiterMiddleware {St : Type} `{RateLimiterStorage St}
    (TrimSpace : string -> string) (SplitHostPort : string -> option string)
    (newUUID : string) (clock : nat -> Time) (config : RateLimitConfig.t)
    (next : Context -> Context) (now : Time)
    (c : Context) (w : RateLimiterService.World St) (sink : list Logger.Entry)
  : option (Context * RateLimiterService.World St * list Logger.Entry) :=
  Handle TrimSpace SplitHostPort newUUID
    (fun _ ip token => RateLimiterService.CheckLimit TrimSpace clock config ip token)
    next now c w sink.

End RateLimiterMiddleware.

(** ** The logger's token field (internal/logger) *)

Module StructuredLogger.

(** The ["token"] field [extractContextFields] adds for a token found in
    the context; [None] when it adds no such field. *)
Definition extractContextFields_token (tokenStr : string) : option string :=
  if (0 <? String.length tokenStr)%nat then
    if (8 <? String.length tokenStr)%nat
    then Some (String.substring 0 8 tokenStr +:+ "***")
    else Some (tokenStr +:+ "***")
  else None.

(** The key type of the logger package. *)
Definition contextKey (name : string) : GoContext.Key :=
  ("logger.contextKey", name).

Definition RequestIDKey : GoContext.Key := contextKey "request_id".
Definition IPKey : GoContext.Key := contextKey "ip".
Definition TokenKey : GoContext.Key := contextKey "token".
Definition UserAgentKey : GoContext.Key := contextKey "user_agent".

(** [extractContextFields]; [None] is the nil context. A value found in
    the context becomes a field also when it is the empty string. *)
Definition extractContextFields (ctx : option GoContext.t) : gmap string string :=
  match ctx with
  | None => ∅
  | Some ctx =>
      let fields : gmap string string := ∅ in
      let fields :=
        match GoContext.Value ctx RequestIDKey with
        | Some requestID => <["request_id" := requestID]> fields
        | None => fields
        end in
      let fields :=
        match GoContext.Value ctx IPKey with
        | Some ip => <["ip" := ip]> fields
        | None => fields
        end in
      let fields :=
        match GoContext.Value ctx TokenKey with
        | Some token =>
            match extractContextFields_token token with
            | Some masked => <["token" := masked]> fields
            | None => fields
            end
        | None => fields
        end in
      let fields :=
        match GoContext.Value ctx UserAgentKey with
        | Some userAgent => <["user_agent" := userAgent]> fields
        | None => fields
        end in
      fields
  end.

(** The fields of the logger [WithContext] returns for a logger that has
    the fields [l_fields]: the context's fields win. *)
Definition WithContext (l_fields : gmap string string) (ctx : option GoContext.t)
  : gmap string string :=
  extractContextFields ctx ∪ l_fields.

Definition ContextWithRequestInfo (ctx : GoContext.t)
    (requestID ip token userAgent : string) : GoContext.t :=
  let ctx := GoContext.WithValue ctx RequestIDKey requestID in
  let ctx := GoContext.WithValue ctx IPKey ip in
  let ctx :=
    if decide (token = "") then ctx else GoContext.WithValue ctx TokenKey token in
  let ctx := GoContext.WithValue ctx UserAgentKey userAgent in
  ctx.

Definition GetRequestID (ctx : option GoContext.t) : string :=
  match ctx with
  | None => ""
  | Some ctx =>
      match GoContext.Value ctx RequestIDKey with
      | Some id => id
      | None => ""
      end
  end.

End StructuredLogger.

(** ** Configuration loading (internal/config/config.go) *)

Module Config.

Record t : Type := mk {
  RedisHost : string;
  RedisPort : string;
  RedisPassword : string;
  RedisDB : Z;
  DefaultIPLimit : Z;
  DefaultTokenLimit : Z;
  RateWindow : Z;
  BlockDuration : Z;
  ServerPort : string;
  GinMode : string;
  LogLevel : string;
  LogFormat : string;
  TokenConfigFile : string
}.

Definition validateConfig (config : t) : option error :=
  if DefaultIPLimit config <=? 0
  then Some "DEFAULT_IP_LIMIT must be greater than 0"
  else if DefaultTokenLimit config <=? 0
  then Some "DEFAULT_TOKEN_LIMIT must be greater than 0"
  else if RateWindow config <=? 0
  then Some "RATE_WINDOW must be greater than 0"
  else if BlockDuration config <=? 0
  then Some "BLOCK_DURATION must be greater than 0"
  else if (RedisDB config <? 0) || (15 <? RedisDB config)
  then Some "REDIS_DB must be between 0 and 15"
  else None.

Section Env.

(** [os.Getenv]: the value of a variable, empty when it is unset. *)
Variable Getenv : string -> string.

(** [strconv.Atoi], a library function. *)
Variable Atoi : string -> Z + error.

Definition getEnvWithDefault (key defaultValue : string) : string :=
  let value := Getenv key in
  if decide (value = "") then defaultValue else value.

Definition loadFromEnv : option t * option error :=
  match Atoi (getEnvWithDefault "REDIS_DB" "0") with
  | inr e => (None, Some ("invalid REDIS_DB value: " +:+ e))
  | inl redisDB =>
  match Atoi (getEnvWithDefault "DEFAULT_IP_LIMIT" "10") with
  | inr e => (None, Some ("invalid DEFAULT_IP_LIMIT value: " +:+ e))
  | inl defaultIPLimit =>
  match Atoi (getEnvWithDefault "DEFAULT_TOKEN_LIMIT" "100") with
  | inr e => (None, Some ("invalid DEFAULT_TOKEN_LIMIT value: " +:+ e))
  | inl defaultTokenLimit =>
  match Atoi (getEnvWithDefault "RATE_WINDOW" "60") with
  | inr e => (None, Some ("invalid RATE_WINDOW value: " +:+ e))
  | inl rateWindow =>
  match Atoi (getEnvWithDefault "BLOCK_DURATION" "180") with
  | inr e => (None, Some ("invalid BLOCK_DURATION value: " +:+ e))
  | inl blockDuration =>
      let config :=
        mk (getEnvWithDefault "REDIS_HOST" "localhost")
           (getEnvWithDefault "REDIS_PORT" "6379")
           (getEnvWithDefault "REDIS_PASSWORD" "")
           redisDB defaultIPLimit defaultTokenLimit rateWindow blockDuration
           (getEnvWithDefault "SERVER_PORT" "8080")
           (getEnvWithDefault "GIN_MODE" "debug")
           (getEnvWithDefault "LOG_LEVEL" "info")
           (getEnvWithDefault "LOG_FORMAT" "json")
           (getEnvWithDefault "TOKEN_CONFIG_FILE" "internal/config/tokens.json") in
      match validateConfig config with
      | Some e => (None, Some ("config validation failed: " +:+ e))
      | None => (Some config, None)
      end
  end end end end end.

End Env.

Section Files.

(** The environment after [godotenv.Load], [strconv.Atoi], and the file
    system and JSON decoder behind [LoadTokenConfigs]: whether [os.Stat]
    reports that the file does not exist, [os.ReadFile], and
    [json.Unmarshal] into a [TokensFile], of which only the member
    [Tokens] is used. *)
Variable Getenv : string -> string.
Variable Atoi : string -> Z + error.
Variable IsNotExist : string -> bool.
Variable ReadFile : string -> string + error.
Variable Unmarshal : string -> gmap string TokenConfig.t + error.

(** The order in which [range] visits the entries of a map; Go leaves it
    unspecified. *)
Variable Range : gmap string TokenConfig.t -> list (string * TokenConfig.t).

Definition getTokenConfigFile (config : option t) : string :=
  match config with
  | Some config =>
      if decide (TokenConfigFile config = "")
      then getEnvWithDefault Getenv "TOKEN_CONFIG_FILE" "internal/config/tokens.json"
      else TokenConfigFile config
  | None => getEnvWithDefault Getenv "TOKEN_CONFIG_FILE" "internal/config/tokens.json"
  end.

(** The validation loop of [LoadTokenConfigs] over the entries still to
    visit; [tokens] is the map as the loop has updated it so far. *)
Fixpoint validateTokens (entries : list (string * TokenConfig.t))
    (tokens : gmap string TokenConfig.t) : gmap string TokenConfig.t + error :=
  match entries with
  | [] => inl tokens
  | (token, config) :: entries =>
      if TokenConfig.Limit config <=? 0
      then inr ("invalid token limit for token " +:+ token
                +:+ ": must be greater than 0")
      else
        let tokens :=
          if decide (TokenConfig.Token config = "")
          then <[token := TokenConfig.mk token (TokenConfig.Limit config)
                            (TokenConfig.Description config)]> tokens
          else tokens in
        validateTokens entries tokens
  end.

Definition LoadTokenConfigs (config : option t)
  : option (gmap string TokenConfig.t) * option error :=
  let tokenFile := getTokenConfigFile config in
  if IsNotExist tokenFile then (Some ∅, None)
  else
    match ReadFile tokenFile with
    | inr e => (None, Some ("failed to read token config file: " +:+ e))
    | inl data =>
        match Unmarshal data with
        | inr e => (None, Some ("failed to parse token config file: " +:+ e))
        | inl tokens =>
            match validateTokens (Range tokens) tokens with
            | inr e => (None, Some e)
            | inl tokens => (Some tokens, None)
            end
        end
    end.

(** [LoadConfig]. The two branches that answer [(None, None)] stand for
    callees that return neither a value nor an error; [loadFromEnv] and
    [LoadTokenConfigs] never do. *)
Definition LoadConfig : option RateLimitConfig.t * option error :=
  match loadFromEnv Getenv Atoi with
  | (_, Some e) => (None, Some ("failed to load environment config: " +:+ e))
  | (None, None) => (None, None)
  | (Some config, None) =>
      match LoadTokenConfigs (Some config) with
      | (_, Some e) => (None, Some ("failed to load token configs: " +:+ e))
      | (None, None) => (None, None)
      | (Some tokenConfigs, None) =>
          (Some (RateLimitConfig.mk (DefaultIPLimit config) (DefaultTokenLimit config)
                   (RateWindow config) (BlockDuration config) tokenConfigs),
           None)
      end
  end.

End Files.
End Config.

(** ** Library functions, for running the code on concrete inputs

    [strings.TrimSpace] and [strconv.Atoi] are parameters of the
    embedding. The two definitions below follow their documentation on
    ASCII input and serve to evaluate the code on examples. *)

Module GoLib.

(** The ASCII white space of [strings.TrimSpace]: tab, line feed,
    vertical tab, form feed, carriage return and space. *)
Definition is_space (a : ascii) : bool :=
  let n := nat_of_ascii a in
  ((9 <=? n) && (n <=? 13) || (n =? 32))%nat.

Fixpoint trim_left (s : string) : string :=
  match s with
  | String a s' => if is_space a then trim_left s' else s
  | EmptyString => EmptyString
  end.

Definition TrimSpace (s : string) : string :=
  String.rev (trim_left (String.rev (trim_left s))).

Definition digit_of (a : ascii) : option Z :=
  let n := Z.of_nat (nat_of_ascii a) in
  if (48 <=? n) && (n <=? 57) then Some (n - 48) else None.

Fixpoint digits (s : string) (acc : Z) : option Z :=
  match s with
  | EmptyString => Some acc
  | String a s' =>
      match digit_of a with
      | Some d => digits s' (10 * acc + d)
      | None => None
      end
  end.

(** Base 10, an optional sign, at least one digit, 64-bit range. *)
Definition Atoi (s : string) : Z + error :=
  let '(sign, body) :=
    match s with
    | String "+" r => (1, r)
    | String "-" r => (-1, r)
    | _ => (1, s)
    end in
  if decide (body = "") then inr ("strconv.Atoi: parsing: invalid syntax")
  else match digits body 0 with
       | None => inr ("strconv.Atoi: parsing: invalid syntax")
       | Some n =>
           let v := sign * n in
           if (int_min <=? v) && (v <=? int_max) then inl v
           else inr ("strconv.Atoi: parsing: value out of range")
       end.

(** [strings.ToLower] on ASCII input. *)
Definition lower (a : ascii) : ascii :=
  let n := nat_of_ascii a in
  if ((65 <=? n) && (n <=? 90))%nat then ascii_of_nat (n + 32) else a.

Fixpoint ToLower (s : string) : string :=
  match s with
  | EmptyString => EmptyString
  | String a s' => String (lower a) (ToLower s')
  end.

End GoLib.

(** ** Runs of the memory store *)

(** Consecutive [Increment] calls on one key, one per instant of [ts]:
    the results in call order and the final store. *)
Fixpoint increments (key : string) (limit : Z) (window : Duration)
    (ts : list Time) (m : MemoryStorage.t)
  : list (Z * Time * option error) * MemoryStorage.t :=
  match ts with
  | [] => ([], m)
  | now :: ts' =>
      let '(r, m') := MemoryStorage.Increment now key limit window m in
      let '(rs, m'') := increments key limit window ts' m' in
      (r :: rs, m'')
  end.

(** The first call at [t0] opens a window: the key has no state, or its
    window has elapsed. *)
Definition opens_window (t0 : Time) (key : string) (window : Duration)
    (m : MemoryStorage.t) : Prop :=
  match MemoryStorage.data m !! key with
  | None => True
  | Some status => window <= t0 - RateLimitStatus.LastReset status
  end.

(** A store whose [Block] always fails and which otherwise is the memory
    store: a backend that became unreachable after the increment, as
    [RedisStorage.Block] is when the client returns an error. It exercises
    the engine's handling of a failed block. *)
Module UnreachableBlock.
Definition Block (now : Time) (key : string) (duration : Duration)
    (m : MemoryStorage.t) : option error * MemoryStorage.t :=
  (Some "connection refused", m).

Definition storage : RateLimiterStorage MemoryStorage.t := {|
  storage_Get := MemoryStorage.Get;
  storage_Increment := MemoryStorage.Increment;
  storage_IsBlocked := MemoryStorage.IsBlocked;
  storage_Block := Block;
  storage_Reset := MemoryStorage.Reset
|}.
End UnreachableBlock.

(** The state of a bucket of the memory store after [c] allowed requests
    of a run that started at clock reading [tick0]: no block entry, no
    status before the first request, and afterwards a status that counts
    [c] hits in the window opened at [t0] and is not flagged blocked. Each
    allowed request takes two clock readings. *)
Definition within_budget (storageKey : string) (tick0 : nat) (t0 : Time) (c : nat)
    (w : RateLimiterService.World MemoryStorage.t) : Prop :=
  RateLimiterService.w_tick w = (tick0 + 2 * c)%nat
  /\ MemoryStorage.blocks (RateLimiterService.w_storage w) !! storageKey = None
  /\ match c with
     | O => MemoryStorage.data (RateLimiterService.w_storage w) !! storageKey = None
     | S _ =>
         exists status,
           MemoryStorage.data (RateLimiterService.w_storage w) !! storageKey
           = Some status
           /\ RateLimitStatus.Count status = Z.of_nat c
           /\ RateLimitStatus.LastReset status = t0
           /\ RateLimitStatus.IsBlocked status = false
     end.


(** The allowed flags of a list of [CheckLimit] results. *)
Definition allowed_flags (rs : list (option RateLimitResult.t * option error))
  : list (option bool) :=
  map (fun r => RateLimitResult.Allowed <$> r.1) rs.

(** A store that answers as the memory store for a given number of
    operations and refuses every operation after that: a backend whose
    connection is lost. A refused operation returns the zero results and
    the error, as the Redis store does. *)
Module Outage.

Definition t : Type := nat * MemoryStorage.t.

Definition refused : error := "connection refused".

Definition serve {A : Type} (failure : A)
    (op : MemoryStorage.t -> A * MemoryStorage.t) (s : t) : A * t :=
  match s.1 with
  | O => (failure, s)
  | S n => let '(a, m) := op s.2 in (a, (n, m))
  end.

Definition storage : RateLimiterStorage t := {|
  storage_Get := fun now key => serve (None, Some refused) (MemoryStorage.Get now key);
  storage_Increment := fun now key limit window =>
    serve (0, 0, Some refused) (MemoryStorage.Increment now key limit window);
  storage_IsBlocked := fun now key =>
    serve (false, None, Some refused) (MemoryStorage.IsBlocked now key);
  storage_Block := fun now key duration =>
    serve (Some refused) (MemoryStorage.Block now key duration);
  storage_Reset := fun now key => serve (Some refused) (MemoryStorage.Reset now key)
|}.

End Outage.

(** ** Concrete scenarios

    The data the examples below run the code on. *)

Module Scenario.
Import RateLimiterService.

(** A clock that advances one second per reading. *)
Definition clock (n : nat) : Time := Z.of_nat n * Second.

(** The configuration of the specification's end-to-end scenarios. *)
Definition config : RateLimitConfig.t :=
  RateLimitConfig.mk 10 100 60 180
    (<["premium" := TokenConfig.mk "premium" 1000 "Premium token"]> ∅).

(** One request per window and a ten-second block. *)
Definition strict : RateLimitConfig.t := RateLimitConfig.mk 1 100 60 10 ∅.

Definition world0 : World MemoryStorage.t :=
  mkWorld MemoryStorage.NewMemoryStorage 0 [].

Definition check (cfg : RateLimitConfig.t) (ip token : string)
  : M MemoryStorage.t (option RateLimitResult.t * option error) :=
  CheckLimit GoLib.TrimSpace clock cfg ip token.

Definition checks (cfg : RateLimitConfig.t) (ip token : string) (n : nat)
  : M MemoryStorage.t (list (option RateLimitResult.t * option error)) :=
  CheckLimits GoLib.TrimSpace clock cfg ip token n.

Definition ipKey : string := "rate_limit:ip:10.0.0.1".

(** The store after two requests from 10.0.0.1 under [strict]: the second
    overflows at reading 3 and is blocked at reading 4, until second 14. *)
Definition overflowed : MemoryStorage.t :=
  w_storage (checks strict "10.0.0.1" "" 2 world0).2.

(** The store after the same two requests when the block call fails
    (store [UnreachableBlock]): the overflowing [Increment] has flagged the
    status blocked and no expiry was ever written. *)
Definition flagged : MemoryStorage.t :=
  w_storage
    (@CheckLimits MemoryStorage.t UnreachableBlock.storage GoLib.TrimSpace clock
       strict "10.0.0.1" "" 2 world0).2.

(** A Redis server that answers every GET with one stored status: blocked
    until second 14. *)
Definition storedStatus : RateLimitStatus.t :=
  RateLimitStatus.mk ipKey "" 2 1 60 Second (Some (14 * Second)) true.
Definition client_Get (key : string) (srv : unit) : RedisStorage.reply :=
  RedisStorage.Value "stored".
Definition Unmarshal (data : string) : RateLimitStatus.t + error :=
  inl storedStatus.

(** A request from the peer 10.0.0.1:5000 with the given headers. *)
Definition request (headers : list (string * string))
  : RateLimiterMiddleware.Request :=
  RateLimiterMiddleware.mkRequest
    (fun key => default "" (snd <$> find (fun p => String.eqb p.1 key) headers))
    "10.0.0.1:5000" "GET" "/" [].

(** The gateway's context on entry: nothing written yet. *)
Definition entry (headers : list (string * string))
  : RateLimiterMiddleware.Context :=
  RateLimiterMiddleware.mkContext (request headers) ∅ None None false.

(** [net.SplitHostPort] on the peer addresses of the examples. *)
Definition SplitHostPort (addr : string) : option string :=
  if decide (addr = "10.0.0.1:5000") then Some "10.0.0.1" else None.

Definition newUUID : string := "6f1c2a9e-0000-4000-8000-000000000001".

(** The rest of the pipeline: a handler that answers 200. *)
Definition next (c : RateLimiterMiddleware.Context) : RateLimiterMiddleware.Context :=
  RateLimiterMiddleware.c_JSON 200
    (RateLimiterMiddleware.JObject
       (<["message" := RateLimiterMiddleware.JString "ok"]> ∅)) c.

(** A key-value server that keeps what is set and ignores expiry. *)
Definition kv_Get (key : string) (srv : gmap string string) : RedisStorage.reply :=
  match srv !! key with
  | Some data => RedisStorage.Value data
  | None => RedisStorage.Nil
  end.
Definition kv_Set (key data : string) (ttl : Duration) (srv : gmap string string)
  : option error * gmap string string :=
  (None, <[key := data]> srv).

(** The status [Block] writes for 10.0.0.1 at second 4, for 10 seconds,
    when the key has no status; and a codec that knows this one status. *)
Definition blockedStatus : RateLimitStatus.t :=
  RateLimitStatus.mk ipKey "" 0 0 0 (4 * Second) (Some (14 * Second)) true.

#[local] Instance RateLimitStatus_eq_dec : EqDecision RateLimitStatus.t.
Proof. solve_decision. Defined.

Definition Marshal1 (status : RateLimitStatus.t) : string + error :=
  if decide (status = blockedStatus) then inl "blocked-status"
  else inr "json: unsupported value".
Definition Unmarshal1 (data : string) : RateLimitStatus.t + error :=
  if decide (data = "blocked-status") then inl blockedStatus
  else inr "invalid character".

(** A token file with one entry that leaves its token member empty. *)
Definition tokensFile : gmap string TokenConfig.t :=
  <["premium" := TokenConfig.mk "" 1000 "Premium token"]> ∅.

(** The environment that sets only BLOCK_DURATION, to 0. *)
Definition Getenv (key : string) : string :=
  if decide (key = "BLOCK_DURATION") then "0" else "".

End Scenario.

(** * Properties *)

(** ** Integers and instants *)

Lemma wrap_int_id (z : Z) : in_int z -> wrap_int z = z.
Proof.
  unfold in_int, int_min, int_max, wrap_int. intros Hz.
  rewrite Z.mod_small; lia.
Qed.


Lemma Time_Sub_ge (t u : Time) (d : Duration) :
  d <= int_max -> d <= t - u -> d <= Time_Sub t u.
Proof. unfold Time_Sub, int_min, int_max. lia. Qed.

Lemma Time_Sub_lt (t u : Time) (d : Duration) :
  int_min < d -> t - u < d -> Time_Sub t u < d.
Proof. unfold Time_Sub, int_min, int_max. lia. Qed.

(** ** The memory store: one [Increment] *)

Section MemoryIncrement.
Variables (now : Time) (key : string) (limit : Z) (window : Duration).
Variable m : MemoryStorage.t.

(** On a key without state the call returns count 1 and opens the window
    at [now], whatever the window length. *)
Lemma Increment_fresh :
  MemoryStorage.data m !! key = None ->
  exists status blocks',
    MemoryStorage.Increment now key limit window m
    = ((1, now, None), MemoryStorage.mk (<[key := status]> (MemoryStorage.data m)) blocks')
    /\ RateLimitStatus.Count status = 1
    /\ RateLimitStatus.LastReset status = now
    /\ RateLimitStatus.IsBlocked status = (limit <? 1)
    /\ (blocks' = MemoryStorage.blocks m
        \/ blocks' = delete key (MemoryStorage.blocks m)).
Proof.
  intros Hnone. unfold MemoryStorage.Increment, MemoryStorage.lookup_or_new.
  rewrite Hnone. cbn [RateLimitStatus.LastReset].
  destruct (window <=? Time_Sub now now); cbn;
    change (wrap_int (0 + 1)) with 1;
    destruct (limit <? 1) eqn:E; cbn; eauto 10.
Qed.

(** On a key whose window has elapsed the call reopens the window. *)
Lemma Increment_reopen (status0 : RateLimitStatus.t) :
  MemoryStorage.data m !! key = Some status0 ->
  window <= int_max ->
  window <= now - RateLimitStatus.LastReset status0 ->
  exists status,
    MemoryStorage.Increment now key limit window m
    = ((1, now, None),
       MemoryStorage.mk (<[key := status]> (MemoryStorage.data m))
         (delete key (MemoryStorage.blocks m)))
    /\ RateLimitStatus.Count status = 1
    /\ RateLimitStatus.LastReset status = now
    /\ RateLimitStatus.IsBlocked status = (limit <? 1)
    /\ RateLimitStatus.BlockedUntil status = RateLimitStatus.BlockedUntil status0.
Proof.
  intros Hsome Hmax Helapsed.
  unfold MemoryStorage.Increment, MemoryStorage.lookup_or_new. rewrite Hsome.
  assert ((window <=? Time_Sub now (RateLimitStatus.LastReset status0)) = true) as ->.
  { apply Z.leb_le, Time_Sub_ge; assumption. }
  cbn. change (wrap_int (0 + 1)) with 1.
  destruct (limit <? 1) eqn:E; cbn; eauto 10.
Qed.

(** Inside the window the call adds one to the count and keeps the window
    start. *)
Lemma Increment_same_window (status0 : RateLimitStatus.t) :
  MemoryStorage.data m !! key = Some status0 ->
  int_min < window ->
  now - RateLimitStatus.LastReset status0 < window ->
  RateLimitStatus.Count status0 < int_max ->
  int_min <= RateLimitStatus.Count status0 ->
  exists status,
    MemoryStorage.Increment now key limit window m
    = ((RateLimitStatus.Count status0 + 1, RateLimitStatus.LastReset status0, None),
       MemoryStorage.mk (<[key := status]> (MemoryStorage.data m)) (MemoryStorage.blocks m))
    /\ RateLimitStatus.Count status = RateLimitStatus.Count status0 + 1
    /\ RateLimitStatus.LastReset status = RateLimitStatus.LastReset status0
    /\ RateLimitStatus.IsBlocked status
       = (limit <? RateLimitStatus.Count status0 + 1) || RateLimitStatus.IsBlocked status0
    /\ RateLimitStatus.BlockedUntil status = RateLimitStatus.BlockedUntil status0.
Proof.
  intros Hsome Hmin Hin Hc1 Hc2.
  unfold MemoryStorage.Increment, MemoryStorage.lookup_or_new. rewrite Hsome.
  assert ((window <=? Time_Sub now (RateLimitStatus.LastReset status0)) = false) as ->.
  { apply Z.leb_gt, Time_Sub_lt; assumption. }
  cbn [RateLimitStatus.set_Count RateLimitStatus.Count RateLimitStatus.LastReset].
  rewrite (wrap_int_id (RateLimitStatus.Count status0 + 1))
    by (unfold in_int; lia).
  destruct (limit <? RateLimitStatus.Count status0 + 1) eqn:E; cbn; eauto 10.
Qed.

End MemoryIncrement.

(** ** The memory store: consecutive increments *)

Section MemoryRuns.
Variables (key : string) (limit : Z) (window : Duration).

Lemma increments_app (ts1 ts2 : list Time) (m : MemoryStorage.t) :
  increments key limit window (ts1 ++ ts2) m
  = let '(rs1, m1) := increments key limit window ts1 m in
    let '(rs2, m2) := increments key limit window ts2 m1 in
    ((rs1 ++ rs2)%list, m2).
Proof.
  revert m. induction ts1 as [|t ts1 IH]; intros m; cbn [increments app].
  - destruct (increments key limit window ts2 m); reflexivity.
  - destruct (MemoryStorage.Increment t key limit window m) as [r m'].
    rewrite IH. destruct (increments key limit window ts1 m') as [rs1 m1].
    destruct (increments key limit window ts2 m1) as [rs2 m2]. reflexivity.
Qed.

(** Calls that stay inside the window opened at [t0] count up from the
    count [c] they find. *)
Lemma increments_in_window (t0 : Time) (ts : list Time) :
  int_min < window ->
  Forall (fun t => t - t0 < window) ts ->
  forall (m : MemoryStorage.t) (status0 : RateLimitStatus.t) (c : Z),
    MemoryStorage.data m !! key = Some status0 ->
    RateLimitStatus.LastReset status0 = t0 ->
    RateLimitStatus.Count status0 = c ->
    0 <= c ->
    c + Z.of_nat (length ts) <= int_max ->
    exists m' status,
      increments key limit window ts m
      = (map (fun i => (c + Z.of_nat i, t0, None)) (seq 1 (length ts)), m')
      /\ MemoryStorage.data m' !! key = Some status
      /\ RateLimitStatus.LastReset status = t0
      /\ RateLimitStatus.Count status = c + Z.of_nat (length ts).
Proof.
  intros Hmin Hts. induction Hts as [|t ts Ht Hts IH];
    intros m status0 c Hdata Hreset Hcount Hc Hbound.
  - exists m, status0. cbn. repeat split; try assumption. lia.
  - cbn [increments length] in *.
    destruct (Increment_same_window t key limit window m status0)
      as (status1 & Hinc & Hc1 & Hr1 & _); try assumption; try lia.
    { unfold int_min. lia. }
    rewrite Hinc.
    set (m1 := MemoryStorage.mk _ _).
    destruct (IH m1 status1 (c + 1)) as (m' & status & Hrun & Hd & Hr & Hcnt).
    + subst m1. cbn. apply lookup_insert_eq.
    + congruence.
    + lia.
    + lia.
    + lia.
    + rewrite Hrun. exists m', status. repeat split; try assumption.
      * rewrite Hcount, Hreset. cbn [seq map].
        apply (f_equal (fun rs => (rs, m'))). apply (f_equal2 cons).
        -- reflexivity.
        -- rewrite <- (seq_shift _ 1), map_map. apply map_ext.
           intros i. replace (c + 1 + Z.of_nat i) with (c + Z.of_nat (S i)) by lia.
           reflexivity.
      * lia.
Qed.

End MemoryRuns.

(** The first call of a run opens the window at its own instant. *)
Lemma Increment_opens (t0 : Time) (key : string) (limit : Z) (window : Duration)
    (m : MemoryStorage.t) :
  opens_window t0 key window m ->
  window <= int_max ->
  exists m1 status,
    MemoryStorage.Increment t0 key limit window m = ((1, t0, None), m1)
    /\ MemoryStorage.data m1 !! key = Some status
    /\ RateLimitStatus.Count status = 1
    /\ RateLimitStatus.LastReset status = t0.
Proof.
  unfold opens_window. intros Hopen Hmax.
  destruct (MemoryStorage.data m !! key) as [status0|] eqn:Hdata.
  - destruct (Increment_reopen t0 key limit window m status0 Hdata Hmax Hopen)
      as (status & Hinc & Hc & Hr & _).
    eexists _, status. split; [exact Hinc|]. cbn.
    rewrite lookup_insert_eq. auto.
  - destruct (Increment_fresh t0 key limit window m Hdata)
      as (status & blocks' & Hinc & Hc & Hr & _ & _).
    eexists _, status. split; [exact Hinc|]. cbn.
    rewrite lookup_insert_eq. auto.
Qed.

(** C5: in the memory store, N consecutive [Increment] calls on one key,
    the first opening a window at [t0] and the others made inside
    [t0, t0 + window), return exactly the counts 1, 2, ..., N, each with
    window start [t0]; a call made once the window has elapsed reopens it:
    it returns count 1 and the current instant as the window start. *)
Theorem increments_one_window_then_reopen (key : string) (limit : Z)
    (window : Duration) (t0 : Time) (ts : list Time) (t' : Time)
    (m : MemoryStorage.t) :
  opens_window t0 key window m ->
  0 < window <= int_max ->
  Forall (fun t => t0 <= t < t0 + window) ts ->
  Z.of_nat (S (length ts)) <= int_max ->
  t0 + window <= t' ->
  (increments key limit window (t0 :: ts ++ [t']) m).1
  = (map (fun i => (Z.of_nat i, t0, None)) (seq 1 (S (length ts)))
       ++ [(1, t', None)])%list.
Proof.
  intros Hopen [Hpos Hmax] Hts Hlen Hlater.
  destruct (Increment_opens t0 key limit window m Hopen Hmax)
    as (m1 & status1 & Hinc & Hd1 & Hc1 & Hr1).
  cbn [increments app]. rewrite Hinc, increments_app.
  destruct (increments_in_window key limit window t0 ts) with
    (m := m1) (status0 := status1) (c := 1)
    as (m2 & status2 & Hrun & Hd2 & Hr2 & Hc2); try assumption; try lia.
  { unfold int_min. lia. }
  { eapply Forall_impl; [exact Hts|]. cbn. intros t Ht. lia. }
  rewrite Hrun. cbn [increments].
  destruct (Increment_reopen t' key limit window m2 status2 Hd2 Hmax)
    as (status3 & Hinc3 & _); [lia|].
  rewrite Hinc3. cbn [fst seq map].
  rewrite <- (seq_shift _ 1), map_map.
  rewrite (map_ext (fun i => (1 + Z.of_nat i, t0, None))
                   (fun i => (Z.of_nat (S i), t0, None))); [reflexivity|].
  intros i. replace (1 + Z.of_nat i) with (Z.of_nat (S i)) by lia. reflexivity.
Qed.

Lemma increments_one_window_then_reopen_witness :
  (increments "k" 2 (60 * Second)
     (0 :: [Second; 2 * Second] ++ [60 * Second]) MemoryStorage.NewMemoryStorage).1
  = (map (fun i => (Z.of_nat i, 0, None)) (seq 1 3) ++ [(1, 60 * Second, None)])%list.
Proof.
  apply (increments_one_window_then_reopen "k" 2 (60 * Second) 0
           [Second; 2 * Second] (60 * Second) MemoryStorage.NewMemoryStorage).
  - exact I.
  - unfold int_max, Second. lia.
  - unfold Second. repeat constructor; lia.
  - unfold int_max. cbn. lia.
  - lia.
Defined.


(** ** The decision engine: what one [CheckLimit] call does

    One lemma per path through [CheckLimit], for any store: the result,
    the store state left behind, the clock readings consumed and the
    entries appended to the logging sink. *)

(** One step of symbolic execution of the engine's monad. *)
Ltac run_step :=
  unfold mbind, RateLimiterService.M_bind, RateLimiterService.bind,
    RateLimiterService.log, RateLimiterService.call, RateLimiterService.ret,
    RateLimiterService.Now;
  cbn [RateLimiterService.w_storage RateLimiterService.w_tick
       RateLimiterService.w_log].

Section ServiceRuns.
Import RateLimiterService.
Context {St : Type} `{RateLimiterStorage St}.
Variable TrimSpace : string -> string.
Variable clock : nat -> Time.
Variable config : RateLimitConfig.t.
Variables (ip token : string) (w : World St).
Variables (limiterType : LimiterType) (key : string).
Hypothesis Hdetect : detectLimiterType TrimSpace ip token = (limiterType, key).

Let rule := GetConfig config key limiterType.
Let storageKey := buildStorageKey key limiterType.

Lemma GetConfig_Window : RateLimitRule.Window rule = RateLimitConfig.Window config.
Proof.
  subst rule. unfold GetConfig.
  repeat case_decide; try destruct (_ !! key); reflexivity.
Qed.

Lemma GetConfig_BlockDuration :
  RateLimitRule.BlockDuration rule = RateLimitConfig.BlockDuration config.
Proof.
  subst rule. unfold GetConfig.
  repeat case_decide; try destruct (_ !! key); reflexivity.
Qed.

(** The block check fails: the error is wrapped and returned. *)
Lemma CheckLimit_run_check_error (b : bool) (blockedUntil : option Time)
    (e : error) (st1 : St) :
  storage_IsBlocked (clock (w_tick w)) storageKey (w_storage w)
  = ((b, blockedUntil, Some e), st1) ->
  exists entries,
    CheckLimit TrimSpace clock config ip token w
    = ((None, Some ("failed to check blocked status: " +:+ e)),
       mkWorld st1 (S (w_tick w)) (w_log w ++ entries)).
Proof.
  intros Hblocked. unfold CheckLimit. rewrite Hdetect.
  run_step.
  fold storageKey. rewrite Hblocked. run_step. rewrite <- app_assoc. eauto.
Qed.

(** The key is blocked: a deny decision, and the store is left as the
    block check left it. *)
Lemma CheckLimit_run_blocked (blockedUntil : option Time) (st1 : St) :
  storage_IsBlocked (clock (w_tick w)) storageKey (w_storage w)
  = ((true, blockedUntil, None), st1) ->
  exists entries,
    CheckLimit TrimSpace clock config ip token w
    = ((Some (RateLimitResult.mk false (RateLimitRule.Limit rule) 0
                (Time_Add (clock (S (w_tick w)))
                   (seconds (RateLimitRule.Window rule)))
                blockedUntil limiterType),
        None),
       mkWorld st1 (S (S (w_tick w))) (w_log w ++ entries)).
Proof.
  intros Hblocked. unfold CheckLimit. rewrite Hdetect.
  run_step.
  fold storageKey. rewrite Hblocked.
  run_step.
  rewrite <- app_assoc. eauto.
Qed.

(** The increment fails: the error is wrapped and returned. *)
Lemma CheckLimit_run_increment_error (blockedUntil : option Time) (st1 st2 : St)
    (count : Z) (reset : Time) (e : error) :
  storage_IsBlocked (clock (w_tick w)) storageKey (w_storage w)
  = ((false, blockedUntil, None), st1) ->
  storage_Increment (clock (S (w_tick w))) storageKey (RateLimitRule.Limit rule)
    (seconds (RateLimitRule.Window rule)) st1
  = ((count, reset, Some e), st2) ->
  exists entries,
    CheckLimit TrimSpace clock config ip token w
    = ((None, Some ("failed to increment counter: " +:+ e)),
       mkWorld st2 (S (S (w_tick w))) (w_log w ++ entries)).
Proof.
  intros Hblocked Hinc. unfold CheckLimit. rewrite Hdetect.
  run_step.
  fold storageKey. rewrite Hblocked.
  run_step.
  fold rule. rewrite Hinc.
  run_step.
  rewrite <- app_assoc. eauto.
Qed.

(** The count is within the limit: an allow decision. *)
Lemma CheckLimit_run_allowed (blockedUntil : option Time) (st1 st2 : St)
    (count : Z) (reset : Time) :
  storage_IsBlocked (clock (w_tick w)) storageKey (w_storage w)
  = ((false, blockedUntil, None), st1) ->
  storage_Increment (clock (S (w_tick w))) storageKey (RateLimitRule.Limit rule)
    (seconds (RateLimitRule.Window rule)) st1
  = ((count, reset, None), st2) ->
  count <= RateLimitRule.Limit rule ->
  exists entries,
    CheckLimit TrimSpace clock config ip token w
    = ((Some (RateLimitResult.mk true (RateLimitRule.Limit rule)
                (let remaining := wrap_int (RateLimitRule.Limit rule - count) in
                 if remaining <? 0 then 0 else remaining)
                reset None limiterType),
        None),
       mkWorld st2 (S (S (w_tick w))) (w_log w ++ entries)).
Proof.
  intros Hblocked Hinc Hle. unfold CheckLimit. rewrite Hdetect.
  run_step.
  fold storageKey. rewrite Hblocked.
  run_step.
  fold rule. rewrite Hinc.
  apply Z.leb_le in Hle. rewrite Hle.
  cbn [negb]. run_step.
  rewrite <- app_assoc. eauto.
Qed.

(** The count exceeds the limit: the key is blocked and a deny decision
    returned, whether or not the block succeeds; a failure of the block is
    written to the logging sink. *)
Lemma CheckLimit_run_overflow (blockedUntil : option Time) (st1 st2 st3 : St)
    (count : Z) (reset : Time) (err : option error) :
  storage_IsBlocked (clock (w_tick w)) storageKey (w_storage w)
  = ((false, blockedUntil, None), st1) ->
  storage_Increment (clock (S (w_tick w))) storageKey (RateLimitRule.Limit rule)
    (seconds (RateLimitRule.Window rule)) st1
  = ((count, reset, None), st2) ->
  RateLimitRule.Limit rule < count ->
  storage_Block (clock (S (S (w_tick w)))) storageKey
    (seconds (RateLimitRule.BlockDuration rule)) st2
  = (err, st3) ->
  exists first last,
    CheckLimit TrimSpace clock config ip token w
    = ((Some (RateLimitResult.mk false (RateLimitRule.Limit rule) 0 reset
                (Some (Time_Add (clock (S (S (S (w_tick w)))))
                         (seconds (RateLimitRule.BlockDuration rule))))
                limiterType),
        None),
       mkWorld st3 (S (S (S (S (w_tick w)))))
         (w_log w ++ [first]
            ++ match err with
               | Some e =>
                   [Logger.mk Logger.Error "Failed to block key" (Some e)
                      [("storage_key", Logger.FString storageKey);
                       ("block_duration",
                        Logger.FDuration (seconds (RateLimitRule.BlockDuration rule)))]]
               | None => []
               end
            ++ [last])).
Proof.
  intros Hblocked Hinc Hlt Hblock. unfold CheckLimit. rewrite Hdetect.
  run_step.
  fold storageKey. rewrite Hblocked.
  run_step.
  fold rule. rewrite Hinc.
  apply Z.leb_gt in Hlt. rewrite Hlt.
  cbn [negb]. run_step.
  rewrite Hblock. destruct err as [e|];
    run_step;
    rewrite <- !app_assoc; eauto.
Qed.

End ServiceRuns.

(** ** The decision engine: the specification's claims *)

Section ServiceProperties.
Import RateLimiterService.
Context {St : Type} `{RateLimiterStorage St}.
Variable TrimSpace : string -> string.
Variable clock : nat -> Time.
Variable config : RateLimitConfig.t.

(** C1: when a [CheckLimit] call reaches the increment step (the key is not
    blocked and the increment succeeds), the decision's allowed flag equals
    [count <= limit], for the count the increment returned and the limit of
    the resolved rule. So a call whose count is at most the limit is
    allowed, and the call that gets count [limit + 1] is denied. *)
Theorem CheckLimit_allowed_iff_within_limit (ip token : string) (w : World St)
    (limiterType : LimiterType) (key : string) (blockedUntil : option Time)
    (st1 st2 : St) (count : Z) (reset : Time) :
  detectLimiterType TrimSpace ip token = (limiterType, key) ->
  storage_IsBlocked (clock (w_tick w)) (buildStorageKey key limiterType)
    (w_storage w)
  = ((false, blockedUntil, None), st1) ->
  storage_Increment (clock (S (w_tick w))) (buildStorageKey key limiterType)
    (RateLimitRule.Limit (GetConfig config key limiterType))
    (seconds (RateLimitRule.Window (GetConfig config key limiterType))) st1
  = ((count, reset, None), st2) ->
  exists result,
    (CheckLimit TrimSpace clock config ip token w).1 = (Some result, None)
    /\ RateLimitResult.Allowed result
       = (count <=? RateLimitRule.Limit (GetConfig config key limiterType))
    /\ (count <= RateLimitRule.Limit (GetConfig config key limiterType) ->
        RateLimitResult.Allowed result = true)
    /\ (count = RateLimitRule.Limit (GetConfig config key limiterType) + 1 ->
        RateLimitResult.Allowed result = false).
Proof.
  intros Hdetect Hblocked Hinc.
  destruct (Z.leb_spec count (RateLimitRule.Limit (GetConfig config key limiterType)))
    as [Hle|Hlt].
  - destruct (CheckLimit_run_allowed TrimSpace clock config ip token w limiterType
                key Hdetect blockedUntil st1 st2 count reset Hblocked Hinc Hle)
      as (entries & Hrun).
    rewrite Hrun. eexists. split; [reflexivity|]. cbn.
    repeat split; try reflexivity. intros Heq. lia.
  - destruct (storage_Block (clock (S (S (w_tick w))))
                (buildStorageKey key limiterType)
                (seconds (RateLimitRule.BlockDuration (GetConfig config key limiterType)))
                st2) as [err st3] eqn:Hblock.
    destruct (CheckLimit_run_overflow TrimSpace clock config ip token w limiterType
                key Hdetect blockedUntil st1 st2 st3 count reset err
                Hblocked Hinc Hlt Hblock)
      as (first & last & Hrun).
    rewrite Hrun. eexists. split; [reflexivity|]. cbn.
    repeat split; try reflexivity. intros Hle. lia.
Qed.




(** C4, as the code has it: when the block check reports the key blocked,
    [CheckLimit] returns a deny decision with remaining 0, the expiry the
    store reported (none when the store reported none) and reset time
    [now + window], and leaves the store exactly as the block check left
    it: neither [Increment] nor [Block] runs. *)
Theorem CheckLimit_blocked_denies_without_increment (ip token : string)
    (w : World St) (limiterType : LimiterType) (key : string)
    (blockedUntil : option Time) (st1 : St) :
  detectLimiterType TrimSpace ip token = (limiterType, key) ->
  storage_IsBlocked (clock (w_tick w)) (buildStorageKey key limiterType)
    (w_storage w)
  = ((true, blockedUntil, None), st1) ->
  (CheckLimit TrimSpace clock config ip token w).1
  = (Some (RateLimitResult.mk false
             (RateLimitRule.Limit (GetConfig config key limiterType)) 0
             (Time_Add (clock (S (w_tick w)))
                (seconds (RateLimitConfig.Window config)))
             blockedUntil limiterType),
     None)
  /\ w_storage (CheckLimit TrimSpace clock config ip token w).2 = st1.
Proof.
  intros Hdetect Hblocked.
  destruct (CheckLimit_run_blocked TrimSpace clock config ip token w
              limiterType key Hdetect blockedUntil st1 Hblocked)
    as (entries & ->).
  rewrite GetConfig_Window. split; reflexivity.
Qed.

(** C6: when the count exceeds the limit and the block call fails with
    error [e], [CheckLimit] still returns the deny decision (not allowed,
    remaining 0, blocked-until [now + block duration]) and no error; the
    failure appears in the logging sink as an error entry carrying [e]. *)
Theorem CheckLimit_block_failure_still_denies (ip token : string) (w : World St)
    (limiterType : LimiterType) (key : string) (blockedUntil : option Time)
    (st1 st2 st3 : St) (count : Z) (reset : Time) (e : error) :
  detectLimiterType TrimSpace ip token = (limiterType, key) ->
  storage_IsBlocked (clock (w_tick w)) (buildStorageKey key limiterType)
    (w_storage w)
  = ((false, blockedUntil, None), st1) ->
  storage_Increment (clock (S (w_tick w))) (buildStorageKey key limiterType)
    (RateLimitRule.Limit (GetConfig config key limiterType))
    (seconds (RateLimitRule.Window (GetConfig config key limiterType))) st1
  = ((count, reset, None), st2) ->
  RateLimitRule.Limit (GetConfig config key limiterType) < count ->
  storage_Block (clock (S (S (w_tick w)))) (buildStorageKey key limiterType)
    (seconds (RateLimitRule.BlockDuration (GetConfig config key limiterType))) st2
  = (Some e, st3) ->
  (CheckLimit TrimSpace clock config ip token w).1
  = (Some (RateLimitResult.mk false
             (RateLimitRule.Limit (GetConfig config key limiterType)) 0 reset
             (Some (Time_Add (clock (S (S (S (w_tick w)))))
                      (seconds (RateLimitConfig.BlockDuration config))))
             limiterType),
     None)
  /\ exists first last,
       w_log (CheckLimit TrimSpace clock config ip token w).2
       = (w_log w
          ++ [first;
              Logger.mk Logger.Error "Failed to block key" (Some e)
                [("storage_key", Logger.FString (buildStorageKey key limiterType));
                 ("block_duration",
                  Logger.FDuration (seconds (RateLimitConfig.BlockDuration config)))];
              last])%list.
Proof.
  intros Hdetect Hblocked Hinc Hlt Hblock.
  destruct (CheckLimit_run_overflow TrimSpace clock config ip token w limiterType
              key Hdetect blockedUntil st1 st2 st3 count reset (Some e)
              Hblocked Hinc Hlt Hblock)
    as (first & last & ->).
  rewrite GetConfig_BlockDuration. split; [reflexivity|].
  exists first, last. reflexivity.
Qed.

End ServiceProperties.

(** ** The decision engine on the memory store: concrete runs *)

Lemma CheckLimit_allowed_iff_within_limit_witness :
  exists result,
    (Scenario.check Scenario.config "10.0.0.1" "" Scenario.world0).1
    = (Some result, None)
    /\ RateLimitResult.Allowed result = true.
Proof.
  destruct (CheckLimit_allowed_iff_within_limit GoLib.TrimSpace Scenario.clock
              Scenario.config "10.0.0.1" "" Scenario.world0 IPLimiter "10.0.0.1"
              None MemoryStorage.NewMemoryStorage
              (MemoryStorage.Increment Second Scenario.ipKey 10 (60 * Second)
                 MemoryStorage.NewMemoryStorage).2
              1 Second)
    as (result & Hrun & _ & Hallowed & _).
  - reflexivity.
  - reflexivity.
  - vm_compute. reflexivity.
  - exists result. split; [exact Hrun|]. apply Hallowed. vm_compute. discriminate.
Defined.


(** Scenario C of the specification: once the address 192.168.1.101 is
    blocked, a request from it that carries the credential [premium] is
    allowed under the credential's own limit. *)
Example credential_overrides_blocked_address :
  let w := (Scenario.checks Scenario.config "192.168.1.101" "" 11 Scenario.world0).2 in
  (Scenario.check Scenario.config "192.168.1.101" "" w).1.1
  = Some (RateLimitResult.mk false 10 0 (Time_Add (25 * Second) (60 * Second))
            (Some (202 * Second)) IPLimiter)
  /\ (Scenario.check Scenario.config "192.168.1.101" "premium" w).1.1
     = Some (RateLimitResult.mk true 1000 999 (25 * Second) None TokenLimiter).
Proof. vm_compute. split; reflexivity. Qed.

Lemma CheckLimit_blocked_denies_without_increment_witness :
  (Scenario.check Scenario.strict "10.0.0.1" ""
     (RateLimiterService.mkWorld Scenario.overflowed 0 [])).1
  = (Some (RateLimitResult.mk false 1 0 (Time_Add Second (60 * Second))
             (Some (14 * Second)) IPLimiter),
     None)
  /\ RateLimiterService.w_storage
       (Scenario.check Scenario.strict "10.0.0.1" ""
          (RateLimiterService.mkWorld Scenario.overflowed 0 [])).2
     = Scenario.overflowed.
Proof.
  apply (CheckLimit_blocked_denies_without_increment GoLib.TrimSpace
           Scenario.clock Scenario.strict "10.0.0.1" ""
           (RateLimiterService.mkWorld Scenario.overflowed 0 [])
           IPLimiter "10.0.0.1" (Some (14 * Second)) Scenario.overflowed).
  - reflexivity.
  - vm_compute. reflexivity.
Defined.

(** C4 as stated fails: the store can report a key blocked without an
    expiry. After an overflow whose block call failed, the status is
    flagged blocked and has no blocked-until; the next request is denied
    by the block check, and its decision has no blocked-until. *)
Lemma CheckLimit_blocked_without_expiry :
  (MemoryStorage.IsBlocked (6 * Second) Scenario.ipKey Scenario.flagged).1
  = (true, None, None)
  /\ (@RateLimiterService.CheckLimit MemoryStorage.t UnreachableBlock.storage
        GoLib.TrimSpace Scenario.clock Scenario.strict "10.0.0.1" ""
        (RateLimiterService.mkWorld Scenario.flagged 6 [])).1
     = (Some (RateLimitResult.mk false 1 0 (Time_Add (7 * Second) (60 * Second))
                None IPLimiter),
        None).
Proof. vm_compute. split; reflexivity. Qed.

Lemma CheckLimit_block_failure_still_denies_witness :
  (@RateLimiterService.CheckLimit MemoryStorage.t UnreachableBlock.storage
     GoLib.TrimSpace Scenario.clock Scenario.strict "10.0.0.1" ""
     (RateLimiterService.mkWorld
        (MemoryStorage.Increment 0 Scenario.ipKey 1 (60 * Second)
           MemoryStorage.NewMemoryStorage).2 0 [])).1
  = (Some (RateLimitResult.mk false 1 0 0 (Some (Time_Add (3 * Second) (10 * Second)))
             IPLimiter),
     None).
Proof.
  apply (@CheckLimit_block_failure_still_denies MemoryStorage.t
           UnreachableBlock.storage GoLib.TrimSpace Scenario.clock Scenario.strict
           "10.0.0.1" ""
           (RateLimiterService.mkWorld
              (MemoryStorage.Increment 0 Scenario.ipKey 1 (60 * Second)
                 MemoryStorage.NewMemoryStorage).2 0 [])
           IPLimiter "10.0.0.1" None
           (MemoryStorage.Increment 0 Scenario.ipKey 1 (60 * Second)
              MemoryStorage.NewMemoryStorage).2
           (increments Scenario.ipKey 1 (60 * Second) [0; Second]
              MemoryStorage.NewMemoryStorage).2
           (increments Scenario.ipKey 1 (60 * Second) [0; Second]
              MemoryStorage.NewMemoryStorage).2
           2 0 "connection refused").
  - reflexivity.
  - vm_compute. reflexivity.
  - vm_compute. reflexivity.
  - vm_compute. reflexivity.
  - reflexivity.
Defined.


(** ** Block expiry in the two stores *)

(** While the block-expiry entry lies in the future the key is blocked. *)
Lemma IsBlocked_before_expiry (now : Time) (key : string) (m : MemoryStorage.t)
    (blockedUntil : Time) :
  MemoryStorage.blocks m !! key = Some blockedUntil ->
  now < blockedUntil ->
  MemoryStorage.IsBlocked now key m = ((true, Some blockedUntil, None), m).
Proof.
  intros Hblock Hlt. unfold MemoryStorage.IsBlocked, Time_Before.
  rewrite Hblock. apply Z.ltb_lt in Hlt. rewrite Hlt. reflexivity.
Qed.

(** Once the expiry has passed the entry is deleted and the answer is the
    flag kept in the status. *)
Lemma IsBlocked_after_expiry (now : Time) (key : string) (m : MemoryStorage.t)
    (blockedUntil : Time) :
  MemoryStorage.blocks m !! key = Some blockedUntil ->
  blockedUntil <= now ->
  MemoryStorage.IsBlocked now key m
  = MemoryStorage.status_blocked key
      (MemoryStorage.mk (MemoryStorage.data m) (delete key (MemoryStorage.blocks m))).
Proof.
  intros Hblock Hle. unfold MemoryStorage.IsBlocked, Time_Before.
  rewrite Hblock. apply Z.ltb_ge in Hle. rewrite Hle. reflexivity.
Qed.

(** A key without status is free as soon as its block-expiry has passed. *)
Lemma IsBlocked_after_expiry_no_status (now : Time) (key : string)
    (m : MemoryStorage.t) (blockedUntil : Time) :
  MemoryStorage.blocks m !! key = Some blockedUntil ->
  MemoryStorage.data m !! key = None ->
  blockedUntil <= now ->
  (MemoryStorage.IsBlocked now key m).1 = (false, None, None).
Proof.
  intros Hblock Hdata Hle. rewrite (IsBlocked_after_expiry _ _ _ _ Hblock Hle).
  unfold MemoryStorage.status_blocked. cbn. rewrite Hdata. reflexivity.
Qed.


(** [IsBlocked] never changes the statuses. *)
Lemma IsBlocked_data (now : Time) (key : string) (m : MemoryStorage.t) :
  MemoryStorage.data (MemoryStorage.IsBlocked now key m).2 = MemoryStorage.data m.
Proof.
  unfold MemoryStorage.IsBlocked, MemoryStorage.status_blocked.
  destruct (MemoryStorage.blocks m !! key);
    [destruct (Time_Before now t)|]; cbn;
    destruct (MemoryStorage.data m !! key); reflexivity.
Qed.

(** The Redis store compares no instants: the answer is the stored flag. *)
Lemma RedisStorage_IsBlocked_stored (Srv : Type)
    (client_Get : string -> Srv -> RedisStorage.reply)
    (Unmarshal : string -> RateLimitStatus.t + error)
    (now : Time) (key : string) (srv : Srv) (status : RateLimitStatus.t) :
  RedisStorage.Get Srv client_Get Unmarshal key srv = (Some status, None) ->
  RedisStorage.IsBlocked Srv client_Get Unmarshal now key srv
  = ((RateLimitStatus.IsBlocked status, RateLimitStatus.BlockedUntil status, None),
     srv).
Proof. intros Hget. unfold RedisStorage.IsBlocked. rewrite Hget. reflexivity. Qed.

(** C2, on the code: the claim asks [IsBlocked] to answer false once the
    instant is at or past blocked-until. After the overflow that blocks
    10.0.0.1 until second 14, the memory store still answers true at
    second 20, before and after a sweep, and the Redis store answers true
    at every instant for a status stored as blocked until second 14. *)
Theorem IsBlocked_true_past_expiry :
  MemoryStorage.blocks Scenario.overflowed !! Scenario.ipKey = Some (14 * Second)
  /\ (MemoryStorage.IsBlocked (20 * Second) Scenario.ipKey Scenario.overflowed).1
     = (true, Some (14 * Second), None)
  /\ (MemoryStorage.IsBlocked (20 * Second) Scenario.ipKey
        (MemoryStorage.cleanupExpiredEntries (20 * Second) Scenario.overflowed)).1
     = (true, Some (14 * Second), None)
  /\ forall now : Time,
       (RedisStorage.IsBlocked unit Scenario.client_Get Scenario.Unmarshal
          now Scenario.ipKey tt).1
       = (true, Some (14 * Second), None).
Proof.
  split; [vm_compute; reflexivity|].
  split; [vm_compute; reflexivity|].
  split; [vm_compute; reflexivity|].
  intros now. reflexivity.
Qed.

(** The denied request leaves the statuses of the memory store, and so the
    bucket's counter, unchanged. *)
Lemma CheckLimit_blocked_keeps_counter (TrimSpace : string -> string)
    (clock : nat -> Time) (config : RateLimitConfig.t) (ip token : string)
    (w : RateLimiterService.World MemoryStorage.t)
    (limiterType : LimiterType) (key : string) (blockedUntil : option Time) :
  RateLimiterService.detectLimiterType TrimSpace ip token = (limiterType, key) ->
  (MemoryStorage.IsBlocked (clock (RateLimiterService.w_tick w))
     (RateLimiterService.buildStorageKey key limiterType)
     (RateLimiterService.w_storage w)).1
  = (true, blockedUntil, None) ->
  MemoryStorage.data
    (RateLimiterService.w_storage
       (RateLimiterService.CheckLimit TrimSpace clock config ip token w).2)
  = MemoryStorage.data (RateLimiterService.w_storage w).
Proof.
  intros Hdetect Hblocked.
  destruct (MemoryStorage.IsBlocked (clock (RateLimiterService.w_tick w))
              (RateLimiterService.buildStorageKey key limiterType)
              (RateLimiterService.w_storage w)) as [r st1] eqn:Hrun.
  cbn in Hblocked. subst r.
  destruct (@CheckLimit_run_blocked MemoryStorage.t MemoryStorage.storage
              TrimSpace clock config ip token w
              limiterType key Hdetect blockedUntil st1 Hrun)
    as (entries & ->).
  cbn. rewrite <- (IsBlocked_data (clock (RateLimiterService.w_tick w))
                     (RateLimiterService.buildStorageKey key limiterType)
                     (RateLimiterService.w_storage w)).
  rewrite Hrun. reflexivity.
Qed.

(** ** The gateway's Retry-After header *)

Lemma pretty_N_go_nonempty (x : N) (s : string) :
  s <> "" -> pretty_N_go x s <> "".
Proof.
  revert s. induction (N.lt_wf_0 x) as [x _ IH]. intros s Hs.
  destruct (decide (x = 0%N)) as [->|Hx].
  - rewrite pretty_N_go_0. exact Hs.
  - rewrite pretty_N_go_step by lia. apply IH.
    + apply N.div_lt; lia.
    + discriminate.
Qed.

(** [strconv.Itoa] of a positive number is not the empty string. *)
Lemma Itoa_nonempty (z : Z) : 0 < z -> RateLimiterMiddleware.Itoa z <> "".
Proof.
  destruct z as [|p|p]; try lia. intros _.
  unfold RateLimiterMiddleware.Itoa, pretty, pretty_Z, pretty, pretty_positive,
    pretty, pretty_N.
  rewrite decide_False by discriminate.
  rewrite pretty_N_go_step by lia. apply pretty_N_go_nonempty. discriminate.
Qed.

Lemma Header_lookup_ne (key value key' : string) (h : gmap string string) :
  key <> key' -> RateLimiterMiddleware.Header key value h !! key' = h !! key'.
Proof.
  intros Hne. unfold RateLimiterMiddleware.Header. case_decide.
  - apply lookup_delete_ne. exact Hne.
  - apply lookup_insert_ne. exact Hne.
Qed.

(** The four budget headers leave Retry-After as it was. *)
Lemma budget_headers_keep_retry_after (result : RateLimitResult.t)
    (h : gmap string string) :
  RateLimiterMiddleware.Header "X-RateLimit-Type"
    (RateLimitResult.LimiterType_ result)
    (RateLimiterMiddleware.Header "X-RateLimit-Reset"
       (RateLimiterMiddleware.Itoa (Time_Unix (RateLimitResult.ResetTime result)))
       (RateLimiterMiddleware.Header "X-RateLimit-Remaining"
          (RateLimiterMiddleware.Itoa (RateLimitResult.Remaining result))
          (RateLimiterMiddleware.Header "X-RateLimit-Limit"
             (RateLimiterMiddleware.Itoa (RateLimitResult.Limit result)) h)))
  !! "Retry-After"
  = h !! "Retry-After".
Proof. rewrite !Header_lookup_ne by discriminate. reflexivity. Qed.






(** ** Configuration validation *)

Lemma validateConfig_block_duration_aux (config : Config.t) :
  0 < Config.DefaultIPLimit config ->
  0 < Config.DefaultTokenLimit config ->
  0 < Config.RateWindow config ->
  0 <= Config.RedisDB config <= 15 ->
  (0 < Config.BlockDuration config -> Config.validateConfig config = None)
  /\ (Config.BlockDuration config <= 0 ->
      Config.validateConfig config = Some "BLOCK_DURATION must be greater than 0").
Proof.
  intros Hip Htoken Hwindow Hdb. unfold Config.validateConfig.
  assert ((Config.DefaultIPLimit config <=? 0) = false) as -> by lia.
  assert ((Config.DefaultTokenLimit config <=? 0) = false) as -> by lia.
  assert ((Config.RateWindow config <=? 0) = false) as -> by lia.
  assert ((Config.RedisDB config <? 0) = false) as -> by lia.
  assert ((15 <? Config.RedisDB config) = false) as -> by lia.
  split; intros Hblock.
  - assert ((Config.BlockDuration config <=? 0) = false) as -> by lia. reflexivity.
  - assert ((Config.BlockDuration config <=? 0) = true) as -> by lia. reflexivity.
Qed.

(** C8, as the code has it: with the other settings valid, validation
    accepts a block duration exactly when it is positive; 0 and negative
    values are rejected with the BLOCK_DURATION error. *)
Theorem validateConfig_block_duration (config : Config.t) :
  0 < Config.DefaultIPLimit config ->
  0 < Config.DefaultTokenLimit config ->
  0 < Config.RateWindow config ->
  0 <= Config.RedisDB config <= 15 ->
  (Config.validateConfig config = None <-> 0 < Config.BlockDuration config)
  /\ (Config.BlockDuration config <= 0 ->
      Config.validateConfig config = Some "BLOCK_DURATION must be greater than 0").
Proof.
  intros Hip Htoken Hwindow Hdb.
  destruct (validateConfig_block_duration_aux config Hip Htoken Hwindow Hdb)
    as [Hok Hbad].
  split; [split|exact Hbad].
  - intros Hnone. destruct (Z_lt_le_dec 0 (Config.BlockDuration config)) as [Hp|Hn].
    + exact Hp.
    + rewrite (Hbad Hn) in Hnone. discriminate.
  - exact Hok.
Qed.

Lemma validateConfig_block_duration_witness :
  Config.validateConfig
    (Config.mk "localhost" "6379" "" 0 10 100 60 180 "8080" "debug" "info" "json"
       "internal/config/tokens.json")
  = None.
Proof.
  apply (validateConfig_block_duration
           (Config.mk "localhost" "6379" "" 0 10 100 60 180 "8080" "debug" "info"
              "json" "internal/config/tokens.json")); cbn; lia.
Defined.

(** C8 as stated fails: BLOCK_DURATION=0 is a non-negative integer and
    loading rejects it. *)
Lemma loadFromEnv_rejects_zero_block_duration :
  Config.loadFromEnv Scenario.Getenv GoLib.Atoi
  = (None, Some "config validation failed: BLOCK_DURATION must be greater than 0")
  /\ Config.validateConfig
       (Config.mk "localhost" "6379" "" 0 10 100 60 0 "8080" "debug" "info" "json"
          "internal/config/tokens.json")
     = Some "BLOCK_DURATION must be greater than 0".
Proof. vm_compute. split; reflexivity. Qed.

(** Loading hands every parsed setting to [validateConfig]: the outcome for
    a block duration that parses to [blockDuration] is the validator's. *)
Lemma loadFromEnv_validates (Getenv : string -> string) (Atoi : string -> Z + error)
    (redisDB defaultIPLimit defaultTokenLimit rateWindow blockDuration : Z) :
  Atoi (Config.getEnvWithDefault Getenv "REDIS_DB" "0") = inl redisDB ->
  Atoi (Config.getEnvWithDefault Getenv "DEFAULT_IP_LIMIT" "10") = inl defaultIPLimit ->
  Atoi (Config.getEnvWithDefault Getenv "DEFAULT_TOKEN_LIMIT" "100")
  = inl defaultTokenLimit ->
  Atoi (Config.getEnvWithDefault Getenv "RATE_WINDOW" "60") = inl rateWindow ->
  Atoi (Config.getEnvWithDefault Getenv "BLOCK_DURATION" "180") = inl blockDuration ->
  0 < defaultIPLimit -> 0 < defaultTokenLimit -> 0 < rateWindow ->
  0 <= redisDB <= 15 ->
  (0 < blockDuration ->
   exists config,
     Config.loadFromEnv Getenv Atoi = (Some config, None)
     /\ Config.BlockDuration config = blockDuration)
  /\ (blockDuration <= 0 ->
      Config.loadFromEnv Getenv Atoi
      = (None,
         Some "config validation failed: BLOCK_DURATION must be greater than 0")).
Proof.
  intros Hdb Hip Htoken Hwindow Hblock Pip Ptoken Pwindow Pdb.
  unfold Config.loadFromEnv. rewrite Hdb, Hip, Htoken, Hwindow, Hblock.
  set (config := Config.mk _ _ _ _ _ _ _ _ _ _ _ _ _).
  destruct (validateConfig_block_duration_aux config) as [Hok Hbad];
    try assumption.
  split; intros Hb.
  - rewrite (Hok Hb). exists config. split; reflexivity.
  - rewrite (Hbad Hb). reflexivity.
Qed.

(** ** Credential masking *)

Lemma length_substring_prefix (n : nat) (s : string) :
  (n <= String.length s)%nat -> String.length (String.substring 0 n s) = n.
Proof.
  revert s. induction n as [|n IH]; intros [|a s] Hle; cbn in *;
    try lia; try reflexivity.
  rewrite IH by lia. reflexivity.
Qed.

(** C9: the masking function is a total function of the token alone, the
    same in the gateway and in the engine: the empty token gives the empty
    string; a token of at most 8 bytes gives the whole token followed by
    ["***"]; a longer token gives its first 8 bytes followed by ["***"]. The
    logger's field for a non-empty token is the same string. *)
Theorem maskToken_cases (token : string) :
  RateLimiterMiddleware.maskToken token = RateLimiterService.maskToken token
  /\ (token = "" -> RateLimiterService.maskToken token = "")
  /\ (token <> "" -> (String.length token <= 8)%nat ->
      RateLimiterService.maskToken token = token +:+ "***")
  /\ ((8 < String.length token)%nat ->
      RateLimiterService.maskToken token = String.substring 0 8 token +:+ "***"
      /\ String.length (String.substring 0 8 token) = 8%nat)
  /\ (token <> "" ->
      StructuredLogger.extractContextFields_token token
      = Some (RateLimiterService.maskToken token)).
Proof.
  unfold RateLimiterMiddleware.maskToken, RateLimiterService.maskToken,
    StructuredLogger.extractContextFields_token.
  split; [reflexivity|]. split; [|split; [|split]].
  - intros ->. reflexivity.
  - intros Hne Hlen. rewrite decide_False by exact Hne.
    apply Nat.leb_le in Hlen. rewrite Hlen. reflexivity.
  - intros Hlen. rewrite decide_False by (intros ->; cbn in Hlen; lia).
    assert ((String.length token <=? 8)%nat = false) as ->
      by (apply Nat.leb_gt; exact Hlen).
    split; [reflexivity|]. apply length_substring_prefix. lia.
  - intros Hne. rewrite decide_False by exact Hne.
    assert ((0 <? String.length token)%nat = true) as ->.
    { apply Nat.ltb_lt. destruct token; [contradiction|cbn; lia]. }
    destruct (Nat.leb_spec (String.length token) 8) as [Hle|Hgt].
    + assert ((8 <? String.length token)%nat = false) as ->
        by (apply Nat.ltb_ge; exact Hle).
      reflexivity.
    + assert ((8 <? String.length token)%nat = true) as ->
        by (apply Nat.ltb_lt; exact Hgt).
      reflexivity.
Qed.

Lemma maskToken_cases_witness :
  RateLimiterService.maskToken "" = ""
  /\ RateLimiterService.maskToken "abc123" = "abc123***"
  /\ RateLimiterService.maskToken "premium-token-0001" = "premium-***".
Proof.
  split; [|split].
  - exact (proj1 (proj2 (maskToken_cases "")) eq_refl).
  - exact (proj1 (proj2 (proj2 (maskToken_cases "abc123")))
             ltac:(discriminate) ltac:(cbn; lia)).
  - exact (proj1 (proj1 (proj2 (proj2 (proj2 (maskToken_cases "premium-token-0001"))))
                    ltac:(cbn; lia))).
Defined.

(** ** The decision engine on the memory store: one window of requests *)

Section MemoryWindow.
Import RateLimiterService.
Variable TrimSpace : string -> string.
Variable clock : nat -> Time.
Variable config : RateLimitConfig.t.
Variables (ip token : string) (limiterType : LimiterType) (key : string).
Hypothesis Hdetect : detectLimiterType TrimSpace ip token = (limiterType, key).
Variable tick0 : nat.

Let limit := RateLimitRule.Limit (GetConfig config key limiterType).
Let window := seconds (RateLimitRule.Window (GetConfig config key limiterType)).
Let storageKey := buildStorageKey key limiterType.
Let t0 := clock (S tick0).

Hypothesis Hwindow : int_min < window.
Hypothesis Hlimit : 0 <= limit < int_max.

(** The instants of the increments of the run stay inside the window that
    the first of them opens. *)
Hypothesis Hclock :
  forall c : nat, Z.of_nat c <= limit -> clock (S (tick0 + 2 * c)) - t0 < window.

Lemma within_budget_IsBlocked (c : nat) (w : World MemoryStorage.t) :
  within_budget storageKey tick0 t0 c w ->
  exists blockedUntil,
    MemoryStorage.IsBlocked (clock (w_tick w)) storageKey (w_storage w)
    = ((false, blockedUntil, None), w_storage w).
Proof.
  intros (_ & Hblocks & Hstatus).
  unfold MemoryStorage.IsBlocked, MemoryStorage.status_blocked. rewrite Hblocks.
  destruct c as [|c'].
  - rewrite Hstatus. eauto.
  - destruct Hstatus as (status & -> & _ & _ & ->). eauto.
Qed.

Lemma within_budget_Increment (c : nat) (w : World MemoryStorage.t) :
  within_budget storageKey tick0 t0 c w ->
  Z.of_nat c <= limit ->
  exists st2 status,
    MemoryStorage.Increment (clock (S (w_tick w))) storageKey limit window
      (w_storage w)
    = ((Z.of_nat c + 1, t0, None), st2)
    /\ MemoryStorage.blocks st2 !! storageKey = None
    /\ MemoryStorage.data st2 !! storageKey = Some status
    /\ RateLimitStatus.Count status = Z.of_nat c + 1
    /\ RateLimitStatus.LastReset status = t0
    /\ RateLimitStatus.IsBlocked status = (limit <? Z.of_nat c + 1).
Proof.
  intros (Htick & Hblocks & Hstatus) Hc. rewrite Htick.
  destruct c as [|c'].
  - destruct (Increment_fresh (clock (S (tick0 + 2 * 0))) storageKey limit window
                (w_storage w) Hstatus)
      as (status & blocks' & Hinc & Hcount & Hreset & Hflag & Hblocks').
    replace (tick0 + 2 * 0)%nat with tick0 in * by lia. fold t0 in Hinc, Hreset.
    eexists _, status. split; [exact Hinc|]. cbn.
    rewrite lookup_insert_eq. repeat split; try assumption.
    destruct Hblocks' as [-> | ->];
      [exact Hblocks | apply lookup_delete_eq].
  - destruct Hstatus as (status0 & Hdata & Hcount0 & Hreset0 & Hflag0).
    destruct (Increment_same_window (clock (S (tick0 + 2 * S c'))) storageKey
                limit window (w_storage w) status0 Hdata Hwindow)
      as (status & Hinc & Hcount & Hreset & Hflag & _).
    + rewrite Hreset0. apply Hclock. exact Hc.
    + lia.
    + unfold int_min. lia.
    + rewrite Hcount0, Hreset0 in Hinc.
      eexists _, status. split; [exact Hinc|]. cbn.
      rewrite lookup_insert_eq. repeat split; try congruence.
      rewrite Hflag, Hflag0, Hcount0. apply orb_false_r.
Qed.

(** A request that finds fewer than [limit] hits in the window is allowed. *)
Lemma CheckLimit_allows (c : nat) (w : World MemoryStorage.t) :
  within_budget storageKey tick0 t0 c w ->
  Z.of_nat c < limit ->
  exists result w',
    CheckLimit TrimSpace clock config ip token w = ((Some result, None), w')
    /\ RateLimitResult.Allowed result = true
    /\ within_budget storageKey tick0 t0 (S c) w'.
Proof.
  intros Hbudget Hc.
  destruct (within_budget_IsBlocked c w Hbudget) as (blockedUntil & Hblocked).
  destruct (within_budget_Increment c w Hbudget) as
    (st2 & status & Hinc & Hblocks & Hdata & Hcount & Hreset & Hflag); [lia|].
  destruct (@CheckLimit_run_allowed MemoryStorage.t MemoryStorage.storage
              TrimSpace clock config ip token w limiterType key Hdetect
              blockedUntil (w_storage w) st2 (Z.of_nat c + 1) t0 Hblocked Hinc)
    as (entries & Hrun); [fold limit; lia|].
  eexists _, _. split; [exact Hrun|]. split; [reflexivity|].
  destruct Hbudget as (Htick & _ & _).
  unfold within_budget. cbn. rewrite Htick. split; [lia|]. split; [exact Hblocks|].
  exists status. repeat split; try assumption.
  - rewrite Hcount. lia.
  - rewrite Hflag. apply Z.ltb_ge. lia.
Qed.

(** The request that finds [limit] hits in the window is denied. *)
Lemma CheckLimit_overflows (c : nat) (w : World MemoryStorage.t) :
  within_budget storageKey tick0 t0 c w ->
  Z.of_nat c = limit ->
  exists result w',
    CheckLimit TrimSpace clock config ip token w = ((Some result, None), w')
    /\ RateLimitResult.Allowed result = false.
Proof.
  intros Hbudget Hc.
  destruct (within_budget_IsBlocked c w Hbudget) as (blockedUntil & Hblocked).
  destruct (within_budget_Increment c w Hbudget) as
    (st2 & status & Hinc & _); [lia|].
  destruct (MemoryStorage.Block (clock (S (S (w_tick w)))) storageKey
              (seconds (RateLimitRule.BlockDuration (GetConfig config key limiterType)))
              st2) as [err st3] eqn:Hblock.
  destruct (@CheckLimit_run_overflow MemoryStorage.t MemoryStorage.storage
              TrimSpace clock config ip token w limiterType key Hdetect
              blockedUntil (w_storage w) st2 st3 (Z.of_nat c + 1) t0 err
              Hblocked Hinc)
    as (first & last & Hrun); [fold limit; lia | exact Hblock |].
  eexists _, _. split; [exact Hrun|]. reflexivity.
Qed.

(** Requests are allowed until the window holds [limit] hits; the next one
    is denied. *)
Lemma CheckLimits_until_limit (n c : nat) (w : World MemoryStorage.t) :
  within_budget storageKey tick0 t0 c w ->
  Z.of_nat (c + n) = limit ->
  allowed_flags (CheckLimits TrimSpace clock config ip token (S n) w).1
  = (replicate n (Some true) ++ [Some false])%list.
Proof.
  revert c w. induction n as [|n IH]; intros c w Hbudget Hc.
  - destruct (CheckLimit_overflows c w Hbudget) as (result & w' & Hrun & Hdenied);
      [lia|].
    cbn [CheckLimits]. run_step. rewrite Hrun. cbn. rewrite Hdenied. reflexivity.
  - destruct (CheckLimit_allows c w Hbudget) as (result & w' & Hrun & Hallowed & Hnext);
      [lia|].
    specialize (IH (S c) w' Hnext ltac:(lia)).
    change (CheckLimits TrimSpace clock config ip token (S (S n)) w)
      with ((r ← CheckLimit TrimSpace clock config ip token;
             rs ← CheckLimits TrimSpace clock config ip token (S n);
             ret (r :: rs)) w).
    run_step. rewrite Hrun.
    destruct (CheckLimits TrimSpace clock config ip token (S n) w') as [rs w''].
    cbn in IH |- *. rewrite Hallowed, IH. reflexivity.
Qed.

End MemoryWindow.

(** From a bucket without state, the first [limit] requests of a window
    are allowed and request [limit + 1] is the first one denied. *)
Theorem CheckLimits_first_denied (TrimSpace : string -> string)
    (clock : nat -> Time) (config : RateLimitConfig.t) (ip token : string)
    (limiterType : LimiterType) (key : string)
    (w : RateLimiterService.World MemoryStorage.t) (n : nat) :
  let limit :=
    RateLimitRule.Limit (RateLimiterService.GetConfig config key limiterType) in
  let window :=
    seconds (RateLimitRule.Window (RateLimiterService.GetConfig config key limiterType)) in
  let storageKey := RateLimiterService.buildStorageKey key limiterType in
  let tick0 := RateLimiterService.w_tick w in
  RateLimiterService.detectLimiterType TrimSpace ip token = (limiterType, key) ->
  MemoryStorage.data (RateLimiterService.w_storage w) !! storageKey = None ->
  MemoryStorage.blocks (RateLimiterService.w_storage w) !! storageKey = None ->
  limit = Z.of_nat n ->
  limit < int_max ->
  int_min < window ->
  (forall c : nat,
     (c <= n)%nat ->
     clock (S (tick0 + 2 * c)) - clock (S tick0) < window) ->
  allowed_flags
    (RateLimiterService.CheckLimits TrimSpace clock config ip token (S n) w).1
  = (replicate n (Some true) ++ [Some false])%list.
Proof.
  intros limit window storageKey tick0 Hdetect Hdata Hblocks Hn Hmax Hwindow Hclock.
  apply (CheckLimits_until_limit TrimSpace clock config ip token limiterType key
           Hdetect tick0 Hwindow) with (c := O).
  - fold limit. lia.
  - intros c Hc. apply Hclock. fold limit in Hc. lia.
  - unfold within_budget. repeat split; try assumption. subst tick0. lia.
  - fold limit. lia.
Qed.

Lemma CheckLimits_first_denied_witness :
  allowed_flags (Scenario.checks Scenario.config "192.168.1.101" "" 11 Scenario.world0).1
  = (replicate 10 (Some true) ++ [Some false])%list.
Proof.
  apply (CheckLimits_first_denied GoLib.TrimSpace Scenario.clock Scenario.config
           "192.168.1.101" "" IPLimiter "192.168.1.101" Scenario.world0 10).
  - reflexivity.
  - reflexivity.
  - reflexivity.
  - reflexivity.
  - vm_compute. reflexivity.
  - vm_compute. reflexivity.
  - intros c Hc. cbn [RateLimiterService.w_tick Scenario.world0].
    unfold Scenario.clock.
    change (seconds (RateLimitRule.Window
              (RateLimiterService.GetConfig Scenario.config "192.168.1.101" IPLimiter)))
      with (60 * Second).
    unfold Second. lia.
Defined.

(** ** Further properties of the store and the engine *)

(** After [Reset] the next [Increment] on the key returns count 1 and opens
    a window at its own instant. *)
Theorem Increment_after_Reset (now0 now : Time) (key : string) (limit : Z)
    (window : Duration) (m : MemoryStorage.t) :
  (MemoryStorage.Increment now key limit window
     (MemoryStorage.Reset now0 key m).2).1
  = (1, now, None).
Proof.
  destruct (Increment_fresh now key limit window (MemoryStorage.Reset now0 key m).2)
    as (status & blocks' & Hinc & _).
  - cbn. apply lookup_delete_eq.
  - rewrite Hinc. reflexivity.
Qed.

(** The reset time of a decision made after an increment is the window
    start the store returned, and its remaining budget is [limit - count],
    not below 0. *)
Theorem CheckLimit_reset_time_is_window_start
    {St : Type} `{RateLimiterStorage St} (TrimSpace : string -> string)
    (clock : nat -> Time) (config : RateLimitConfig.t) (ip token : string)
    (w : RateLimiterService.World St) (limiterType : LimiterType) (key : string)
    (blockedUntil : option Time) (st1 st2 : St) (count : Z) (reset : Time) :
  RateLimiterService.detectLimiterType TrimSpace ip token = (limiterType, key) ->
  storage_IsBlocked (clock (RateLimiterService.w_tick w))
    (RateLimiterService.buildStorageKey key limiterType)
    (RateLimiterService.w_storage w)
  = ((false, blockedUntil, None), st1) ->
  storage_Increment (clock (S (RateLimiterService.w_tick w)))
    (RateLimiterService.buildStorageKey key limiterType)
    (RateLimitRule.Limit (RateLimiterService.GetConfig config key limiterType))
    (seconds (RateLimitRule.Window (RateLimiterService.GetConfig config key limiterType)))
    st1
  = ((count, reset, None), st2) ->
  0 <= count <= RateLimitRule.Limit (RateLimiterService.GetConfig config key limiterType) ->
  RateLimitRule.Limit (RateLimiterService.GetConfig config key limiterType) <= int_max ->
  (RateLimiterService.CheckLimit TrimSpace clock config ip token w).1
  = (Some (RateLimitResult.mk true
             (RateLimitRule.Limit (RateLimiterService.GetConfig config key limiterType))
             (RateLimitRule.Limit (RateLimiterService.GetConfig config key limiterType)
              - count)
             reset None limiterType),
     None).
Proof.
  intros Hdetect Hblocked Hinc [Hnn Hle] Hmax.
  destruct (CheckLimit_run_allowed TrimSpace clock config ip token w limiterType
              key Hdetect blockedUntil st1 st2 count reset Hblocked Hinc Hle)
    as (entries & ->).
  cbn [fst]. rewrite wrap_int_id by (unfold in_int, int_min, int_max in *; lia).
  assert ((RateLimitRule.Limit (RateLimiterService.GetConfig config key limiterType)
           - count <? 0) = false) as -> by lia.
  reflexivity.
Qed.

Lemma CheckLimit_reset_time_is_window_start_witness :
  (Scenario.check Scenario.config "192.168.1.100" "" Scenario.world0).1
  = (Some (RateLimitResult.mk true 10 (10 - 1) Second None IPLimiter), None).
Proof.
  apply (CheckLimit_reset_time_is_window_start GoLib.TrimSpace Scenario.clock
           Scenario.config "192.168.1.100" "" Scenario.world0 IPLimiter
           "192.168.1.100" None MemoryStorage.NewMemoryStorage
           (MemoryStorage.Increment Second "rate_limit:ip:192.168.1.100" 10
              (60 * Second) MemoryStorage.NewMemoryStorage).2
           1 Second).
  - reflexivity.
  - reflexivity.
  - vm_compute. reflexivity.
  - vm_compute. split; discriminate.
  - vm_compute. discriminate.
Defined.

Lemma CheckLimit_blocked_keeps_counter_witness :
  MemoryStorage.data
    (RateLimiterService.w_storage
       (Scenario.check Scenario.strict "10.0.0.1" ""
          (RateLimiterService.mkWorld Scenario.overflowed 0 [])).2)
  = MemoryStorage.data Scenario.overflowed.
Proof.
  apply (CheckLimit_blocked_keeps_counter GoLib.TrimSpace Scenario.clock
           Scenario.strict "10.0.0.1" ""
           (RateLimiterService.mkWorld Scenario.overflowed 0 [])
           IPLimiter "10.0.0.1" (Some (14 * Second))).
  - reflexivity.
  - vm_compute. reflexivity.
Defined.

Lemma loadFromEnv_validates_witness :
  Config.loadFromEnv Scenario.Getenv GoLib.Atoi
  = (None, Some "config validation failed: BLOCK_DURATION must be greater than 0").
Proof.
  apply (proj2 (loadFromEnv_validates Scenario.Getenv GoLib.Atoi 0 10 100 60 0
                  eq_refl eq_refl eq_refl eq_refl eq_refl
                  ltac:(lia) ltac:(lia) ltac:(lia) ltac:(lia))).
  lia.
Defined.

(** * Further properties of the code *)

(** ** The memory store: reset, set, increment and block *)

(** [Get] and [IsBlocked] look only at the entries of their key. *)
Lemma Get_local (now : Time) (key : string) (m1 m2 : MemoryStorage.t) :
  MemoryStorage.data m1 !! key = MemoryStorage.data m2 !! key ->
  (MemoryStorage.Get now key m1).1 = (MemoryStorage.Get now key m2).1.
Proof.
  intros Hdata. unfold MemoryStorage.Get. rewrite Hdata.
  destruct (MemoryStorage.data m2 !! key); reflexivity.
Qed.

Lemma IsBlocked_local (now : Time) (key : string) (m1 m2 : MemoryStorage.t) :
  MemoryStorage.data m1 !! key = MemoryStorage.data m2 !! key ->
  MemoryStorage.blocks m1 !! key = MemoryStorage.blocks m2 !! key ->
  (MemoryStorage.IsBlocked now key m1).1 = (MemoryStorage.IsBlocked now key m2).1.
Proof.
  intros Hdata Hblocks. unfold MemoryStorage.IsBlocked, MemoryStorage.status_blocked.
  rewrite Hblocks. cbn.
  destruct (MemoryStorage.blocks m2 !! key) as [blockedUntil|];
    [destruct (Time_Before now blockedUntil)|]; cbn; rewrite ?Hdata;
    try reflexivity; destruct (MemoryStorage.data m2 !! key); reflexivity.
Qed.

(** [Reset] removes the counter and the block of its key, at once and for
    every later instant, and leaves every other key as it was. *)
Theorem Reset_clears_only_its_key (now now' : Time) (key key' : string)
    (m : MemoryStorage.t) :
  (MemoryStorage.Reset now key m).1 = None
  /\ (MemoryStorage.Get now' key (MemoryStorage.Reset now key m).2).1 = (None, None)
  /\ (MemoryStorage.IsBlocked now' key (MemoryStorage.Reset now key m).2).1
     = (false, None, None)
  /\ (key' <> key ->
      (MemoryStorage.Get now' key' (MemoryStorage.Reset now key m).2).1
      = (MemoryStorage.Get now' key' m).1
      /\ (MemoryStorage.IsBlocked now' key' (MemoryStorage.Reset now key m).2).1
         = (MemoryStorage.IsBlocked now' key' m).1).
Proof.
  split; [reflexivity|]. split; [|split].
  - unfold MemoryStorage.Get. cbn. rewrite lookup_delete_eq. reflexivity.
  - unfold MemoryStorage.IsBlocked, MemoryStorage.status_blocked. cbn.
    rewrite !lookup_delete_eq. reflexivity.
  - intros Hne. split.
    + apply Get_local. cbn. apply lookup_delete_ne. congruence.
    + apply IsBlocked_local; cbn; apply lookup_delete_ne; congruence.
Qed.

Lemma Reset_clears_only_its_key_witness :
  (MemoryStorage.IsBlocked (5 * Second) Scenario.ipKey
     (MemoryStorage.Reset (5 * Second) "rate_limit:ip:10.0.0.2" Scenario.overflowed).2).1
  = (MemoryStorage.IsBlocked (5 * Second) Scenario.ipKey Scenario.overflowed).1.
Proof.
  apply (Reset_clears_only_its_key (5 * Second) (5 * Second)
           "rate_limit:ip:10.0.0.2" Scenario.ipKey Scenario.overflowed).
  vm_compute. discriminate.
Defined.

(** [Set] then [Get] returns the status that was set; [Set] never touches
    the block entries; it starts a timer exactly when the TTL is positive,
    and when that timer fires the key has neither counter nor block,
    whatever was written to the key in between. *)
Theorem Set_then_Get (now now' : Time) (key : string) (status : RateLimitStatus.t)
    (ttl : Duration) (m m' : MemoryStorage.t) :
  (MemoryStorage.Get now' key (MemoryStorage.Set_ now key status ttl m).2).1
  = (Some status, None)
  /\ MemoryStorage.blocks (MemoryStorage.Set_ now key status ttl m).2
     = MemoryStorage.blocks m
  /\ (MemoryStorage.Set_ now key status ttl m).1
     = (None, if 0 <? ttl then Some (ttl, key) else None)
  /\ (MemoryStorage.Get now' key (MemoryStorage.expire key m')).1 = (None, None)
  /\ (MemoryStorage.IsBlocked now' key (MemoryStorage.expire key m')).1
     = (false, None, None).
Proof.
  repeat split.
  - unfold MemoryStorage.Get. cbn. rewrite lookup_insert_eq. reflexivity.
  - unfold MemoryStorage.Get. cbn. rewrite lookup_delete_eq. reflexivity.
  - unfold MemoryStorage.IsBlocked, MemoryStorage.status_blocked. cbn.
    rewrite !lookup_delete_eq. reflexivity.
Qed.

(** [Increment] never fails. It returns the count and window start it
    stores; a stored count above the limit is flagged blocked; it adds no
    block entry (an overflow is flagged without an expiry); and it leaves
    every other key as it was. *)
Theorem Increment_stores_what_it_returns (now : Time) (key key' : string)
    (limit : Z) (window : Duration) (m : MemoryStorage.t) :
  exists count start status,
    (MemoryStorage.Increment now key limit window m).1 = (count, start, None)
    /\ MemoryStorage.data (MemoryStorage.Increment now key limit window m).2 !! key
       = Some status
    /\ RateLimitStatus.Count status = count
    /\ RateLimitStatus.LastReset status = start
    /\ (limit < count -> RateLimitStatus.IsBlocked status = true)
    /\ (MemoryStorage.blocks (MemoryStorage.Increment now key limit window m).2 !! key
        = None
        \/ MemoryStorage.blocks (MemoryStorage.Increment now key limit window m).2 !! key
           = MemoryStorage.blocks m !! key)
    /\ (key' <> key ->
        MemoryStorage.data (MemoryStorage.Increment now key limit window m).2 !! key'
        = MemoryStorage.data m !! key'
        /\ MemoryStorage.blocks (MemoryStorage.Increment now key limit window m).2 !! key'
           = MemoryStorage.blocks m !! key').
Proof.
  unfold MemoryStorage.Increment.
  set (status0 := MemoryStorage.lookup_or_new now key limit window m).
  destruct (window <=? Time_Sub now (RateLimitStatus.LastReset status0)) eqn:Helapsed;
    cbn [fst snd MemoryStorage.data MemoryStorage.blocks].
  - set (status1 := RateLimitStatus.set_Count _ _).
    destruct (limit <? RateLimitStatus.Count status1) eqn:Hover;
      eexists _, _, _; (split; [reflexivity|]); rewrite lookup_insert_eq;
      (split; [reflexivity|]); (split; [reflexivity|]); (split; [reflexivity|]);
      (split; [intros Hlt; try reflexivity; apply Z.ltb_ge in Hover; cbn in *; lia|]);
      (split; [left; apply lookup_delete_eq|]);
      intros Hne; (split; [apply lookup_insert_ne | apply lookup_delete_ne]);
      congruence.
  - set (status1 := RateLimitStatus.set_Count _ _).
    destruct (limit <? RateLimitStatus.Count status1) eqn:Hover;
      eexists _, _, _; (split; [reflexivity|]); rewrite lookup_insert_eq;
      (split; [reflexivity|]); (split; [reflexivity|]); (split; [reflexivity|]);
      (split; [intros Hlt; try reflexivity; apply Z.ltb_ge in Hover; cbn in *; lia|]);
      (split; [right; reflexivity|]);
      intros Hne; (split; [apply lookup_insert_ne; congruence | reflexivity]).
Qed.

Lemma Increment_stores_what_it_returns_witness :
  MemoryStorage.data
    (MemoryStorage.Increment (5 * Second) "rate_limit:ip:10.0.0.2" 1 (60 * Second)
       Scenario.overflowed).2 !! Scenario.ipKey
  = MemoryStorage.data Scenario.overflowed !! Scenario.ipKey.
Proof.
  destruct (Increment_stores_what_it_returns (5 * Second) "rate_limit:ip:10.0.0.2"
              Scenario.ipKey 1 (60 * Second) Scenario.overflowed)
    as (count & start & status & _ & _ & _ & _ & _ & _ & Hframe).
  apply Hframe. vm_compute. discriminate.
Defined.

(** [Block] never fails. It writes the expiry [now + duration] to the
    block entries and to the status, flags the status blocked, keeps the
    count of a status that exists (a new status counts 0), and leaves
    every other key as it was. *)
Theorem Block_marks_its_key (now : Time) (key key' : string) (duration : Duration)
    (m : MemoryStorage.t) :
  (MemoryStorage.Block now key duration m).1 = None
  /\ MemoryStorage.blocks (MemoryStorage.Block now key duration m).2 !! key
     = Some (Time_Add now duration)
  /\ (exists status,
        MemoryStorage.data (MemoryStorage.Block now key duration m).2 !! key
        = Some status
        /\ RateLimitStatus.IsBlocked status = true
        /\ RateLimitStatus.BlockedUntil status = Some (Time_Add now duration)
        /\ RateLimitStatus.Count status
           = match MemoryStorage.data m !! key with
             | Some status0 => RateLimitStatus.Count status0
             | None => 0
             end)
  /\ (key' <> key ->
      MemoryStorage.data (MemoryStorage.Block now key duration m).2 !! key'
      = MemoryStorage.data m !! key'
      /\ MemoryStorage.blocks (MemoryStorage.Block now key duration m).2 !! key'
         = MemoryStorage.blocks m !! key').
Proof.
  unfold MemoryStorage.Block.
  destruct (MemoryStorage.data m !! key) as [status0|] eqn:Hdata; cbn;
    rewrite !lookup_insert_eq; (split; [reflexivity|]); (split; [reflexivity|]);
    (split; [eexists; split; [reflexivity|]; repeat split|]);
    intros Hne; split; apply lookup_insert_ne; congruence.
Qed.

Lemma Block_marks_its_key_witness :
  MemoryStorage.blocks
    (MemoryStorage.Block (5 * Second) "rate_limit:ip:10.0.0.2" (10 * Second)
       Scenario.overflowed).2 !! Scenario.ipKey
  = MemoryStorage.blocks Scenario.overflowed !! Scenario.ipKey.
Proof.
  apply (Block_marks_its_key (5 * Second) "rate_limit:ip:10.0.0.2" Scenario.ipKey
           (10 * Second) Scenario.overflowed).
  vm_compute. discriminate.
Defined.

(** ** The memory store: the sweeper *)

(** A status flagged blocked makes [IsBlocked] answer true at every
    instant, with or without a block entry. *)
Lemma IsBlocked_flagged (now : Time) (key : string) (m : MemoryStorage.t)
    (status : RateLimitStatus.t) :
  MemoryStorage.data m !! key = Some status ->
  RateLimitStatus.IsBlocked status = true ->
  (MemoryStorage.IsBlocked now key m).1.1.1 = true.
Proof.
  intros Hdata Hflag. unfold MemoryStorage.IsBlocked, MemoryStorage.status_blocked.
  destruct (MemoryStorage.blocks m !! key) as [blockedUntil|];
    [destruct (Time_Before now blockedUntil)|]; cbn; rewrite ?Hdata; cbn;
    try reflexivity; exact Hflag.
Qed.

Lemma cleanup_blocks_lookup (now : Time) (m : MemoryStorage.t) (key : string)
    (blockedUntil : Time) :
  MemoryStorage.blocks (MemoryStorage.cleanupExpiredEntries now m) !! key
  = Some blockedUntil
  <-> MemoryStorage.blocks m !! key = Some blockedUntil /\ now <= blockedUntil.
Proof.
  unfold MemoryStorage.cleanupExpiredEntries. cbn [MemoryStorage.blocks].
  rewrite map_lookup_filter_Some. cbn. unfold Time_After.
  rewrite negb_true_iff, Z.ltb_ge. reflexivity.
Qed.

Lemma cleanup_data_lookup (now : Time) (m : MemoryStorage.t) (key : string)
    (status : RateLimitStatus.t) :
  MemoryStorage.data (MemoryStorage.cleanupExpiredEntries now m) !! key = Some status
  <-> MemoryStorage.data m !! key = Some status
      /\ (RateLimitStatus.Window status <= 0
          \/ Time_Sub now (RateLimitStatus.LastReset status)
             <= wrap_int (seconds (RateLimitStatus.Window status) * 2)).
Proof.
  unfold MemoryStorage.cleanupExpiredEntries. cbn [MemoryStorage.data].
  rewrite map_lookup_filter_Some. cbn.
  rewrite negb_true_iff, andb_false_iff, Z.ltb_ge, Z.ltb_ge. reflexivity.
Qed.

(** One sweep keeps exactly the block entries whose expiry is not before
    the sweep, and exactly the statuses that have no positive window or
    whose window started at most two window lengths ago; it changes none of
    the entries it keeps. *)
Theorem cleanupExpiredEntries_keeps (now : Time) (m : MemoryStorage.t)
    (key : string) :
  (forall blockedUntil : Time,
     MemoryStorage.blocks (MemoryStorage.cleanupExpiredEntries now m) !! key
     = Some blockedUntil
     <-> MemoryStorage.blocks m !! key = Some blockedUntil /\ now <= blockedUntil)
  /\ (forall status : RateLimitStatus.t,
        MemoryStorage.data (MemoryStorage.cleanupExpiredEntries now m) !! key
        = Some status
        <-> MemoryStorage.data m !! key = Some status
            /\ (RateLimitStatus.Window status <= 0
                \/ Time_Sub now (RateLimitStatus.LastReset status)
                   <= wrap_int (seconds (RateLimitStatus.Window status) * 2))).
Proof.
  split.
  - intros blockedUntil. apply cleanup_blocks_lookup.
  - intros status. apply cleanup_data_lookup.
Qed.

(** The way a block ends in the memory store: a sweep that comes after the
    block-expiry and more than two window lengths after the window start
    removes the status with its blocked flag, and the key is free from then
    on. *)
Theorem cleanupExpiredEntries_frees_key (now now' : Time) (m : MemoryStorage.t)
    (key : string) (status : RateLimitStatus.t) :
  MemoryStorage.data m !! key = Some status ->
  0 < RateLimitStatus.Window status ->
  RateLimitStatus.Window status * Second * 2 <= int_max ->
  RateLimitStatus.Window status * Second * 2
  < now - RateLimitStatus.LastReset status ->
  (forall blockedUntil : Time,
     MemoryStorage.blocks m !! key = Some blockedUntil -> blockedUntil < now) ->
  (MemoryStorage.IsBlocked now' key (MemoryStorage.cleanupExpiredEntries now m)).1
  = (false, None, None)
  /\ (MemoryStorage.Get now' key (MemoryStorage.cleanupExpiredEntries now m)).1
     = (None, None).
Proof.
  intros Hdata Hwindow Hrange Hold Hexpired.
  assert (MemoryStorage.data (MemoryStorage.cleanupExpiredEntries now m) !! key = None)
    as Hgone.
  { destruct (MemoryStorage.data (MemoryStorage.cleanupExpiredEntries now m) !! key)
      as [status'|] eqn:Hkept; [|reflexivity].
    apply cleanup_data_lookup in Hkept as [Hsame [Hzero|Hyoung]].
    - rewrite Hdata in Hsame. injection Hsame as <-. lia.
    - rewrite Hdata in Hsame. injection Hsame as <-.
      unfold seconds in Hyoung.
      rewrite (wrap_int_id (RateLimitStatus.Window status * Second)) in Hyoung
        by (unfold in_int, int_min, int_max, Second in *; lia).
      rewrite wrap_int_id in Hyoung
        by (unfold in_int, int_min, int_max, Second in *; lia).
      unfold Time_Sub, int_min, int_max in *. lia. }
  assert (MemoryStorage.blocks (MemoryStorage.cleanupExpiredEntries now m) !! key = None)
    as Hfree.
  { destruct (MemoryStorage.blocks (MemoryStorage.cleanupExpiredEntries now m) !! key)
      as [blockedUntil|] eqn:Hkept; [|reflexivity].
    apply cleanup_blocks_lookup in Hkept as [Hsame Hle].
    specialize (Hexpired blockedUntil Hsame). lia. }
  split.
  - unfold MemoryStorage.IsBlocked, MemoryStorage.status_blocked.
    rewrite Hfree, Hgone. reflexivity.
  - unfold MemoryStorage.Get. rewrite Hgone. reflexivity.
Qed.

Lemma cleanupExpiredEntries_frees_key_witness :
  (MemoryStorage.IsBlocked (122 * Second) Scenario.ipKey
     (MemoryStorage.cleanupExpiredEntries (122 * Second) Scenario.overflowed)).1
  = (false, None, None).
Proof.
  apply (cleanupExpiredEntries_frees_key (122 * Second) (122 * Second)
           Scenario.overflowed Scenario.ipKey
           (RateLimitStatus.mk Scenario.ipKey "" 2 1 60 Second (Some (14 * Second)) true)).
  - vm_compute. reflexivity.
  - vm_compute. reflexivity.
  - vm_compute. discriminate.
  - vm_compute. reflexivity.
  - intros blockedUntil Hblock. vm_compute in Hblock. injection Hblock as <-.
    vm_compute. reflexivity.
Defined.

(** Sweeps, one per instant of [ts], oldest first. *)
Lemma sweeps_keep_windowless_flag (key : string) (ts : list Time) :
  forall m : MemoryStorage.t,
    (exists status,
       MemoryStorage.data m !! key = Some status
       /\ RateLimitStatus.Window status = 0
       /\ RateLimitStatus.IsBlocked status = true) ->
    exists status,
      MemoryStorage.data
        (fold_left (fun m' t => MemoryStorage.cleanupExpiredEntries t m') ts m) !! key
      = Some status
      /\ RateLimitStatus.Window status = 0
      /\ RateLimitStatus.IsBlocked status = true.
Proof.
  induction ts as [|t ts IH]; intros m Hm; cbn [fold_left]; [exact Hm|].
  apply IH. destruct Hm as (status & Hdata & Hzero & Hflag).
  exists status. split; [|split; assumption].
  apply cleanup_data_lookup. split; [exact Hdata|]. left. lia.
Qed.

(** A key blocked while it has no status gets a status without window, which
    no sweep removes: [IsBlocked] answers true at every instant after any
    number of sweeps, until [Reset] or an [Increment] whose window has
    elapsed. *)
Theorem Block_without_status_survives_sweeps (now0 now : Time) (key : string)
    (duration : Duration) (m : MemoryStorage.t) (ts : list Time) :
  MemoryStorage.data m !! key = None ->
  (MemoryStorage.IsBlocked now key
     (fold_left (fun m' t => MemoryStorage.cleanupExpiredEntries t m') ts
        (MemoryStorage.Block now0 key duration m).2)).1.1.1
  = true.
Proof.
  intros Hnone.
  destruct (sweeps_keep_windowless_flag key ts (MemoryStorage.Block now0 key duration m).2)
    as (status & Hdata & _ & Hflag).
  - unfold MemoryStorage.Block. rewrite Hnone. cbn. rewrite lookup_insert_eq.
    eexists. split; [reflexivity|]. split; reflexivity.
  - exact (IsBlocked_flagged now key _ status Hdata Hflag).
Qed.

Lemma Block_without_status_survives_sweeps_witness :
  (MemoryStorage.IsBlocked (3600 * Second) "k"
     (fold_left (fun m' t => MemoryStorage.cleanupExpiredEntries t m')
        [60 * Second; 120 * Second; 180 * Second]
        (MemoryStorage.Block 0 "k" (10 * Second) MemoryStorage.NewMemoryStorage).2)).1.1.1
  = true.
Proof.
  apply (Block_without_status_survives_sweeps 0 (3600 * Second) "k" (10 * Second)
           MemoryStorage.NewMemoryStorage [60 * Second; 120 * Second; 180 * Second]).
  reflexivity.
Defined.

(** ** The decision engine: bucket keys *)

Lemma append_inj_r (p a b : string) : p +:+ a = p +:+ b -> a = b.
Proof.
  induction p as [|c p IH]; cbn; intros Heq; [exact Heq|].
  injection Heq as Heq. exact (IH Heq).
Qed.

(** The engine's storage keys: for the kinds ip and token they are the keys
    the storage package builds; two identities of one kind never share a
    key; and an address never shares a key with a credential. *)
Theorem buildStorageKey_separates_buckets (key key' : string)
    (limiterType : LimiterType) :
  RateLimiterService.buildStorageKey key IPLimiter = RedisStorage.BuildKey IPLimiter key
  /\ RateLimiterService.buildStorageKey key TokenLimiter
     = RedisStorage.BuildKey TokenLimiter key
  /\ (RateLimiterService.buildStorageKey key limiterType
      = RateLimiterService.buildStorageKey key' limiterType ->
      key = key')
  /\ RateLimiterService.buildStorageKey key IPLimiter
     <> RateLimiterService.buildStorageKey key' TokenLimiter.
Proof.
  split; [reflexivity|]. split; [reflexivity|]. split.
  - unfold RateLimiterService.buildStorageKey. intros Heq.
    apply append_inj_r in Heq. apply append_inj_r in Heq.
    apply append_inj_r in Heq. exact Heq.
  - unfold RateLimiterService.buildStorageKey, IPLimiter, TokenLimiter. cbn.
    intros Heq. discriminate Heq.
Qed.

Lemma buildStorageKey_separates_buckets_witness : "10.0.0.1" = "10.0.0.1".
Proof.
  apply (buildStorageKey_separates_buckets "10.0.0.1" "10.0.0.1" IPLimiter).
  reflexivity.
Defined.

(** ** The decision engine: the shape of every outcome *)

Section ServiceOutcomes.
Import RateLimiterService.
Context {St : Type} `{RateLimiterStorage St}.
Variable TrimSpace : string -> string.
Variable clock : nat -> Time.
Variable config : RateLimitConfig.t.

(** [CheckLimit] returns either a decision and no error or an error and no
    decision. A decision has the limit of the resolved rule and the kind
    selected for the request, a remaining budget that is never negative and
    is 0 when the request is denied, and no blocked-until when the request
    is allowed. *)
Theorem CheckLimit_outcome_shape (ip token : string) (w : World St) :
  match (CheckLimit TrimSpace clock config ip token w).1 with
  | (Some result, None) =>
      RateLimitResult.Limit result
      = RateLimitRule.Limit
          (GetConfig config (detectLimiterType TrimSpace ip token).2
             (detectLimiterType TrimSpace ip token).1)
      /\ RateLimitResult.LimiterType_ result = (detectLimiterType TrimSpace ip token).1
      /\ 0 <= RateLimitResult.Remaining result
      /\ (RateLimitResult.Allowed result = false ->
          RateLimitResult.Remaining result = 0)
      /\ (RateLimitResult.Allowed result = true ->
          RateLimitResult.BlockedUntil result = None)
  | (None, Some _) => True
  | _ => False
  end.
Proof.
  destruct (detectLimiterType TrimSpace ip token) as [limiterType key] eqn:Hdetect.
  cbn [fst snd].
  destruct (storage_IsBlocked (clock (w_tick w)) (buildStorageKey key limiterType)
              (w_storage w)) as [[[b blockedUntil] [e|]] st1] eqn:Hblocked.
  { destruct (CheckLimit_run_check_error TrimSpace clock config ip token w
                limiterType key Hdetect b blockedUntil e st1 Hblocked)
      as (entries & ->). exact I. }
  destruct b.
  { destruct (CheckLimit_run_blocked TrimSpace clock config ip token w
                limiterType key Hdetect blockedUntil st1 Hblocked)
      as (entries & ->). cbn.
    repeat split; try reflexivity; try lia; try (intros; discriminate). }
  destruct (storage_Increment (clock (S (w_tick w)))
              (buildStorageKey key limiterType)
              (RateLimitRule.Limit (GetConfig config key limiterType))
              (seconds (RateLimitRule.Window (GetConfig config key limiterType)))
              st1) as [[[count reset] [e|]] st2] eqn:Hinc.
  { destruct (CheckLimit_run_increment_error TrimSpace clock config ip token w
                limiterType key Hdetect blockedUntil st1 st2 count reset e
                Hblocked Hinc) as (entries & ->). exact I. }
  destruct (Z.leb_spec count (RateLimitRule.Limit (GetConfig config key limiterType)))
    as [Hle|Hlt].
  - destruct (CheckLimit_run_allowed TrimSpace clock config ip token w limiterType
                key Hdetect blockedUntil st1 st2 count reset Hblocked Hinc Hle)
      as (entries & ->). cbn.
    repeat split; try reflexivity; try (intros; discriminate).
    destruct (wrap_int _ <? 0) eqn:Hneg; [lia|]. apply Z.ltb_ge in Hneg. exact Hneg.
  - destruct (storage_Block (clock (S (S (w_tick w))))
                (buildStorageKey key limiterType)
                (seconds (RateLimitRule.BlockDuration (GetConfig config key limiterType)))
                st2) as [err' st3] eqn:Hblock.
    destruct (CheckLimit_run_overflow TrimSpace clock config ip token w limiterType
                key Hdetect blockedUntil st1 st2 st3 count reset err'
                Hblocked Hinc Hlt Hblock)
      as (first & last & ->). cbn.
    repeat split; try reflexivity; try lia; try (intros; discriminate).
Qed.

(** A store error at the block check or at the increment comes back as the
    engine's error, wrapped; the engine then makes no further store call:
    after a failed block check the store is as that check left it (no
    increment), and after a failed increment it is as the increment left
    it (no block). *)
Theorem CheckLimit_store_error_surfaces (ip token : string) (w : World St)
    (limiterType : LimiterType) (key : string) :
  detectLimiterType TrimSpace ip token = (limiterType, key) ->
  (forall (b : bool) (blockedUntil : option Time) (e : error) (st1 : St),
     storage_IsBlocked (clock (w_tick w)) (buildStorageKey key limiterType)
       (w_storage w)
     = ((b, blockedUntil, Some e), st1) ->
     (CheckLimit TrimSpace clock config ip token w).1
     = (None, Some ("failed to check blocked status: " +:+ e))
     /\ w_storage (CheckLimit TrimSpace clock config ip token w).2 = st1
     /\ w_tick (CheckLimit TrimSpace clock config ip token w).2 = S (w_tick w))
  /\ (forall (blockedUntil : option Time) (st1 st2 : St) (count : Z) (reset : Time)
            (e : error),
        storage_IsBlocked (clock (w_tick w)) (buildStorageKey key limiterType)
          (w_storage w)
        = ((false, blockedUntil, None), st1) ->
        storage_Increment (clock (S (w_tick w))) (buildStorageKey key limiterType)
          (RateLimitRule.Limit (GetConfig config key limiterType))
          (seconds (RateLimitRule.Window (GetConfig config key limiterType))) st1
        = ((count, reset, Some e), st2) ->
        (CheckLimit TrimSpace clock config ip token w).1
        = (None, Some ("failed to increment counter: " +:+ e))
        /\ w_storage (CheckLimit TrimSpace clock config ip token w).2 = st2
        /\ w_tick (CheckLimit TrimSpace clock config ip token w).2
           = S (S (w_tick w))).
Proof.
  intros Hdetect. split.
  - intros b blockedUntil e st1 Hblocked.
    destruct (CheckLimit_run_check_error TrimSpace clock config ip token w
                limiterType key Hdetect b blockedUntil e st1 Hblocked)
      as (entries & ->). repeat split.
  - intros blockedUntil st1 st2 count reset e Hblocked Hinc.
    destruct (CheckLimit_run_increment_error TrimSpace clock config ip token w
                limiterType key Hdetect blockedUntil st1 st2 count reset e
                Hblocked Hinc) as (entries & ->). repeat split.
Qed.

End ServiceOutcomes.

Lemma CheckLimit_store_error_surfaces_witness :
  (@RateLimiterService.CheckLimit Outage.t Outage.storage GoLib.TrimSpace
     Scenario.clock Scenario.config "10.0.0.1" ""
     (RateLimiterService.mkWorld (O, MemoryStorage.NewMemoryStorage) 0 [])).1
  = (None, Some "failed to check blocked status: connection refused")
  /\ (@RateLimiterService.CheckLimit Outage.t Outage.storage GoLib.TrimSpace
        Scenario.clock Scenario.config "10.0.0.1" ""
        (RateLimiterService.mkWorld (1%nat, MemoryStorage.NewMemoryStorage) 0 [])).1
     = (None, Some "failed to increment counter: connection refused").
Proof.
  split.
  - apply (proj1 (@CheckLimit_store_error_surfaces Outage.t Outage.storage
                    GoLib.TrimSpace Scenario.clock Scenario.config "10.0.0.1" ""
                    (RateLimiterService.mkWorld (O, MemoryStorage.NewMemoryStorage) 0 [])
                    IPLimiter "10.0.0.1" eq_refl)
             false None Outage.refused (O, MemoryStorage.NewMemoryStorage)).
    reflexivity.
  - apply (proj2 (@CheckLimit_store_error_surfaces Outage.t Outage.storage
                    GoLib.TrimSpace Scenario.clock Scenario.config "10.0.0.1" ""
                    (RateLimiterService.mkWorld (1%nat, MemoryStorage.NewMemoryStorage)
                       0 [])
                    IPLimiter "10.0.0.1" eq_refl)
             None (O, MemoryStorage.NewMemoryStorage) (O, MemoryStorage.NewMemoryStorage)
             0 0 Outage.refused).
    + reflexivity.
    + reflexivity.
Defined.

(** ** The decision engine on the memory store: reset, status, quarantine *)

Section MemoryAdmin.
Import RateLimiterService.
Variable TrimSpace : string -> string.
Variable clock : nat -> Time.
Variable config : RateLimitConfig.t.
Variables (ip token : string) (limiterType : LimiterType) (key : string).
Hypothesis Hdetect : detectLimiterType TrimSpace ip token = (limiterType, key).

Let limit := RateLimitRule.Limit (GetConfig config key limiterType).
Let window := seconds (RateLimitRule.Window (GetConfig config key limiterType)).
Let storageKey := buildStorageKey key limiterType.

(** Scenario D of the specification, for any state of the store: after the
    engine's [Reset] of an identity, the identity is allowed again, and its
    next request is allowed as the first hit of a new window. *)
Theorem Reset_recovers_admission (w : World MemoryStorage.t) :
  0 < limit <= int_max ->
  (Reset clock key limiterType w).1 = None
  /\ (IsAllowed clock key limiterType (Reset clock key limiterType w).2).1
     = (true, None)
  /\ (CheckLimit TrimSpace clock config ip token (Reset clock key limiterType w).2).1
     = (Some (RateLimitResult.mk true limit (limit - 1) (clock (S (S (w_tick w))))
                None limiterType),
        None).
Proof.
  intros [Hpos Hmax].
  unfold Reset. run_step. cbn [storage_Reset MemoryStorage.storage MemoryStorage.Reset].
  run_step. fold storageKey.
  set (m1 := MemoryStorage.mk _ _).
  assert (MemoryStorage.data m1 !! storageKey = None) as Hdata
    by (subst m1; cbn; apply lookup_delete_eq).
  assert (MemoryStorage.blocks m1 !! storageKey = None) as Hblocks
    by (subst m1; cbn; apply lookup_delete_eq).
  assert (forall now, MemoryStorage.IsBlocked now storageKey m1
                      = ((false, None, None), m1)) as Hfree.
  { intros now. unfold MemoryStorage.IsBlocked, MemoryStorage.status_blocked.
    rewrite Hblocks, Hdata. reflexivity. }
  split; [reflexivity|]. split.
  - unfold IsAllowed. run_step. fold storageKey.
    cbn [storage_IsBlocked MemoryStorage.storage]. rewrite Hfree. reflexivity.
  - set (w1 := mkWorld m1 _ _). cbn [snd].
    destruct (Increment_fresh (clock (S (w_tick w1))) storageKey limit window m1 Hdata)
      as (status & blocks' & Hinc & _).
    destruct (@CheckLimit_run_allowed MemoryStorage.t MemoryStorage.storage
                TrimSpace clock config ip token w1 limiterType key Hdetect
                None m1 _ 1 (clock (S (w_tick w1))) (Hfree _) Hinc)
      as (entries & ->); [fold limit; lia|].
    cbn [fst]. fold limit.
    rewrite wrap_int_id by (unfold in_int, int_min, int_max in *; lia).
    assert ((limit - 1 <? 0) = false) as -> by lia.
    reflexivity.
Qed.



End MemoryAdmin.

Lemma Reset_recovers_admission_witness :
  (Scenario.check Scenario.strict "10.0.0.1" ""
     (RateLimiterService.Reset Scenario.clock "10.0.0.1" IPLimiter
        (RateLimiterService.mkWorld Scenario.overflowed 20 [])).2).1
  = (Some (RateLimitResult.mk true 1 (1 - 1) (22 * Second) None IPLimiter), None).
Proof.
  apply (Reset_recovers_admission GoLib.TrimSpace Scenario.clock Scenario.strict
           "10.0.0.1" "" IPLimiter "10.0.0.1" eq_refl
           (RateLimiterService.mkWorld Scenario.overflowed 20 [])).
  vm_compute. split; [reflexivity|discriminate].
Defined.


Section MemoryStatus.
Import RateLimiterService.
Variable TrimSpace : string -> string.
Variable clock : nat -> Time.
Variable config : RateLimitConfig.t.
Variables (ip token : string) (limiterType : LimiterType) (key : string).
Hypothesis Hdetect : detectLimiterType TrimSpace ip token = (limiterType, key).
Variable tick0 : nat.

Let limit := RateLimitRule.Limit (GetConfig config key limiterType).
Let window := seconds (RateLimitRule.Window (GetConfig config key limiterType)).
Let storageKey := buildStorageKey key limiterType.
Let t0 := clock (S tick0).

Hypothesis Hwindow : int_min < window.
Hypothesis Hlimit : 0 <= limit < int_max.
Hypothesis Hclock :
  forall c : nat, Z.of_nat c <= limit -> clock (S (tick0 + 2 * c)) - t0 < window.

(** Requests within the limit are all allowed and keep the bucket within
    its budget. *)
Lemma CheckLimits_within_budget (n c : nat) (w : World MemoryStorage.t) :
  within_budget storageKey tick0 t0 c w ->
  Z.of_nat (c + n) <= limit ->
  allowed_flags (CheckLimits TrimSpace clock config ip token n w).1
  = replicate n (Some true)
  /\ within_budget storageKey tick0 t0 (c + n)
       (CheckLimits TrimSpace clock config ip token n w).2.
Proof.
  revert c w. induction n as [|n IH]; intros c w Hbudget Hc.
  - cbn. replace (c + 0)%nat with c by lia. split; [reflexivity|exact Hbudget].
  - destruct (CheckLimit_allows TrimSpace clock config ip token limiterType key
                Hdetect tick0 Hwindow Hlimit Hclock c w Hbudget)
      as (result & w' & Hrun & Hallowed & Hnext); [fold limit; lia|].
    destruct (IH (S c) w' Hnext ltac:(lia)) as [Hflags Hfinal].
    cbn [CheckLimits]. run_step. rewrite Hrun.
    destruct (CheckLimits TrimSpace clock config ip token n w') as [rs w''].
    cbn in *. rewrite Hallowed, Hflags.
    replace (c + S n)%nat with (S (c + n)) by lia. split; [reflexivity|exact Hfinal].
Qed.

(** Scenario E of the specification: after [n] requests of one window, all
    within the limit, [GetStatus] reports the count [n], the window start,
    the kind asked for and no block. *)
Theorem GetStatus_counts_requests (n : nat) (w : World MemoryStorage.t) :
  within_budget storageKey tick0 t0 0 w ->
  (0 < n)%nat ->
  Z.of_nat n <= limit ->
  exists status,
    (GetStatus clock key limiterType
       (CheckLimits TrimSpace clock config ip token n w).2).1
    = (Some status, None)
    /\ RateLimitStatus.Type_ status = limiterType
    /\ RateLimitStatus.Count status = Z.of_nat n
    /\ RateLimitStatus.LastReset status = t0
    /\ RateLimitStatus.IsBlocked status = false.
Proof.
  intros Hbudget Hn Hle.
  destruct (CheckLimits_within_budget n 0 w Hbudget Hle) as [_ (_ & _ & Hstatus)].
  cbn [Nat.add] in Hstatus. destruct n as [|n']; [lia|].
  destruct Hstatus as (status & Hdata & Hcount & Hreset & Hflag).
  unfold GetStatus. run_step. fold storageKey.
  cbn [storage_Get MemoryStorage.storage]. unfold MemoryStorage.Get.
  rewrite Hdata. cbn.
  eexists. split; [reflexivity|]. cbn. auto.
Qed.

End MemoryStatus.

Lemma GetStatus_counts_requests_witness :
  exists status,
    (RateLimiterService.GetStatus Scenario.clock "192.168.1.100" IPLimiter
       (Scenario.checks Scenario.config "192.168.1.100" "" 5 Scenario.world0).2).1
    = (Some status, None)
    /\ RateLimitStatus.Type_ status = IPLimiter
    /\ RateLimitStatus.Count status = 5
    /\ RateLimitStatus.LastReset status = Second
    /\ RateLimitStatus.IsBlocked status = false.
Proof.
  apply (GetStatus_counts_requests GoLib.TrimSpace Scenario.clock Scenario.config
           "192.168.1.100" "" IPLimiter "192.168.1.100" eq_refl 0).
  - vm_compute. reflexivity.
  - vm_compute. split; [discriminate|reflexivity].
  - intros c Hc.
    change (seconds (RateLimitRule.Window
              (RateLimiterService.GetConfig Scenario.config "192.168.1.100" IPLimiter)))
      with (60 * Second).
    change (RateLimitRule.Limit
              (RateLimiterService.GetConfig Scenario.config "192.168.1.100" IPLimiter))
      with 10 in Hc.
    unfold Scenario.clock, Second. lia.
  - unfold within_budget. cbn. repeat split.
  - lia.
  - vm_compute. discriminate.
Defined.

(** ** The gateway: who the request is *)

Section GatewayIdentity.
Import RateLimiterMiddleware.
Variable TrimSpace : string -> string.
Variable SplitHostPort : string -> option string.

(** The credential is the trimmed value of the first of the headers
    API_KEY, X-Api-Token, Api-Token that is not empty, and empty when all
    three are. The choice is made before trimming: a first header that is
    not empty but blank gives the empty credential, whatever the aliases
    carry, and the request is then limited by its address. *)
Theorem extractAPIToken_precedence (c : Context) (ip : string) :
  let h := GetHeader (request c) in
  (h "API_KEY" <> "" -> extractAPIToken TrimSpace c = TrimSpace (h "API_KEY"))
  /\ (h "API_KEY" = "" -> h "X-Api-Token" <> "" ->
      extractAPIToken TrimSpace c = TrimSpace (h "X-Api-Token"))
  /\ (h "API_KEY" = "" -> h "X-Api-Token" = "" -> h "Api-Token" <> "" ->
      extractAPIToken TrimSpace c = TrimSpace (h "Api-Token"))
  /\ (h "API_KEY" = "" -> h "X-Api-Token" = "" -> h "Api-Token" = "" ->
      extractAPIToken TrimSpace c = "")
  /\ (h "API_KEY" <> "" -> TrimSpace (h "API_KEY") = "" -> TrimSpace "" = "" ->
      RateLimiterService.detectLimiterType TrimSpace ip (extractAPIToken TrimSpace c)
      = (IPLimiter, ip)).
Proof.
  cbn zeta. unfold extractAPIToken.
  split; [|split; [|split; [|split]]].
  - intros Hkey. rewrite decide_False by exact Hkey. reflexivity.
  - intros Hkey Halias. rewrite decide_True by exact Hkey.
    rewrite decide_False by exact Halias. reflexivity.
  - intros Hkey Halias Hlegacy. rewrite decide_True by exact Hkey.
    rewrite decide_True by exact Halias. rewrite decide_False by exact Hlegacy.
    reflexivity.
  - intros Hkey Halias Hlegacy. rewrite decide_True by exact Hkey.
    rewrite decide_True by exact Halias. rewrite decide_True by exact Hlegacy.
    reflexivity.
  - intros Hkey Hblank Hempty. rewrite decide_False by exact Hkey.
    unfold RateLimiterService.detectLimiterType. rewrite Hblank, Hempty.
    rewrite decide_True by reflexivity. reflexivity.
Qed.

(** The address is the trimmed first entry of X-Forwarded-For when that
    entry is not blank, whatever X-Real-IP and the peer address are; else
    the trimmed X-Real-IP when that header is not empty; else the host of
    the peer address, or the peer address as it is when it has no
    host:port form. *)
Theorem extractClientIP_precedence (c : Context) :
  let h := GetHeader (request c) in
  (h "X-Forwarded-For" <> "" ->
   TrimSpace (firstField (h "X-Forwarded-For")) <> "" ->
   extractClientIP TrimSpace SplitHostPort c
   = TrimSpace (firstField (h "X-Forwarded-For")))
  /\ (h "X-Forwarded-For" = ""
      \/ TrimSpace (firstField (h "X-Forwarded-For")) = "" ->
      (h "X-Real-IP" <> "" ->
       extractClientIP TrimSpace SplitHostPort c = TrimSpace (h "X-Real-IP"))
      /\ (h "X-Real-IP" = "" ->
          extractClientIP TrimSpace SplitHostPort c
          = match SplitHostPort (RemoteAddr (request c)) with
            | Some host => host
            | None => RemoteAddr (request c)
            end)).
Proof.
  cbn zeta. unfold extractClientIP. split.
  - intros Hxff Hfirst. rewrite decide_False by exact Hxff.
    rewrite decide_False by exact Hfirst. reflexivity.
  - intros Hnone.
    assert ((if decide (GetHeader (request c) "X-Forwarded-For" = "") then None
             else if decide (TrimSpace (firstField (GetHeader (request c)
                                                      "X-Forwarded-For")) = "")
                  then None
                  else Some (TrimSpace (firstField (GetHeader (request c)
                                                      "X-Forwarded-For"))))
            = None) as ->.
    { destruct Hnone as [Hxff|Hblank].
      - rewrite decide_True by exact Hxff. reflexivity.
      - case_decide; [reflexivity|]. rewrite decide_True by exact Hblank. reflexivity. }
    split; intros Hxri.
    + rewrite decide_False by exact Hxri. reflexivity.
    + rewrite decide_True by exact Hxri. reflexivity.
Qed.

End GatewayIdentity.

(** ** The gateway: what it answers *)

Lemma Itoa_not_empty (z : Z) : 0 <= z -> RateLimiterMiddleware.Itoa z <> "".
Proof.
  intros Hz. destruct (decide (z = 0)) as [->|Hne].
  - discriminate.
  - apply Itoa_nonempty. lia.
Qed.

(** The remaining-budget header is the decimal of the decision's remaining
    budget. *)
Lemma setRateLimitHeaders_remaining (now : Time) (result : RateLimitResult.t)
    (h : gmap string string) :
  0 <= RateLimitResult.Remaining result ->
  RateLimiterMiddleware.setRateLimitHeaders now result h !! "X-RateLimit-Remaining"
  = Some (RateLimiterMiddleware.Itoa (RateLimitResult.Remaining result)).
Proof.
  intros Hrem. unfold RateLimiterMiddleware.setRateLimitHeaders.
  assert (RateLimiterMiddleware.Header "X-RateLimit-Type"
            (RateLimitResult.LimiterType_ result)
            (RateLimiterMiddleware.Header "X-RateLimit-Reset"
               (RateLimiterMiddleware.Itoa (Time_Unix (RateLimitResult.ResetTime result)))
               (RateLimiterMiddleware.Header "X-RateLimit-Remaining"
                  (RateLimiterMiddleware.Itoa (RateLimitResult.Remaining result))
                  (RateLimiterMiddleware.Header "X-RateLimit-Limit"
                     (RateLimiterMiddleware.Itoa (RateLimitResult.Limit result)) h)))
          !! "X-RateLimit-Remaining"
          = Some (RateLimiterMiddleware.Itoa (RateLimitResult.Remaining result)))
    as Hbudget.
  { rewrite !Header_lookup_ne by discriminate.
    unfold RateLimiterMiddleware.Header at 1.
    rewrite decide_False by (apply Itoa_not_empty; exact Hrem).
    apply lookup_insert_eq. }
  cbn zeta.
  destruct (negb (RateLimitResult.Allowed result)); [|exact Hbudget].
  destruct (RateLimitResult.BlockedUntil result) as [blockedUntil|]; [|exact Hbudget].
  destruct (0 <? Seconds_int (Time_Sub blockedUntil now)); [|exact Hbudget].
  rewrite Header_lookup_ne by discriminate. exact Hbudget.
Qed.

Section GatewayHandle.
Import RateLimiterMiddleware.
Context {Sv : Type}.
Variable TrimSpace : string -> string.
Variable SplitHostPort : string -> option string.
Variable newUUID : string.
Variable CheckLimit :
  GoContext.t -> string -> string -> Sv
  -> (option RateLimitResult.t * option error) * Sv.
Variable now : Time.

(** What [Handle] does before it calls the service leaves the request as
    it was. *)
Lemma getRequestID_request (c : Context) :
  request (getRequestID newUUID c).2 = request c.
Proof. unfold getRequestID. case_decide; reflexivity. Qed.

(** [Handle] in terms of the answer of its one call to the service. *)
Lemma Handle_after_call (next : Context -> Context) (c : Context) (sv sv' : Sv)
    (sink : list Logger.Entry) (result : option RateLimitResult.t)
    (err : option error) :
  CheckLimit
    (enrichContext TrimSpace SplitHostPort (RequestContext (request c)) c
       (getRequestID newUUID c).1)
    (extractClientIP TrimSpace SplitHostPort c) (extractAPIToken TrimSpace c) sv
  = ((result, err), sv') ->
  exists (first : Logger.Entry) (fields : list (string * Logger.Field)),
    Handle TrimSpace SplitHostPort newUUID CheckLimit next now c sv sink
    = match err, result with
      | Some e, _ =>
          Some (mkContext (request c) (header (getRequestID newUUID c).2)
                  (Some 500)
                  (Some (JObject
                           (<["error" := JString "internal server error"]>
                              (<["message" :=
                                   JString "Unable to process rate limit check"]> ∅))))
                  true,
                sv',
                (sink ++ [first; Logger.mk Logger.Error "Rate limiter service error"
                                   (Some e) fields])%list)
      | None, None => None
      | None, Some result =>
          let headers :=
            setRateLimitHeaders now result (header (getRequestID newUUID c).2) in
          if RateLimitResult.Allowed result then
            Some (next (mkContext (request c) headers (status c) (body c) (aborted c)),
                  sv',
                  (sink ++ [first; Logger.mk Logger.Debug
                                     "Request allowed by rate limiter" None
                                     (fields
                                      ++ [("limiter_type",
                                           Logger.FString
                                             (RateLimitResult.LimiterType_ result));
                                          ("limit",
                                           Logger.FInt (RateLimitResult.Limit result));
                                          ("remaining",
                                           Logger.FInt (RateLimitResult.Remaining result));
                                          ("request_id",
                                           Logger.FString (getRequestID newUUID c).1)])])%list)
          else
            Some (mkContext (request c) headers (Some 429) (Some (rejection result)) true,
                  sv',
                  (sink ++ [first; Logger.mk Logger.Info "Request rate limited" None
                                     (fields
                                      ++ [("limiter_type",
                                           Logger.FString
                                             (RateLimitResult.LimiterType_ result));
                                          ("limit",
                                           Logger.FInt (RateLimitResult.Limit result));
                                          ("remaining",
                                           Logger.FInt (RateLimitResult.Remaining result));
                                          ("blocked_until",
                                           Logger.FOptTime
                                             (RateLimitResult.BlockedUntil result));
                                          ("request_id",
                                           Logger.FString (getRequestID newUUID c).1)])])%list)
      end.
Proof.
  intros Hcall. unfold Handle.
  assert (status (getRequestID newUUID c).2 = status c
          /\ body (getRequestID newUUID c).2 = body c
          /\ aborted (getRequestID newUUID c).2 = aborted c) as (Hstatus & Hbody & Habort)
    by (unfold getRequestID; case_decide; repeat split; reflexivity).
  destruct (getRequestID newUUID c) as [requestID c1] eqn:Hid.
  assert (request c1 = request c) as Hreq.
  { pose proof (getRequestID_request c) as Hr. rewrite Hid in Hr. exact Hr. }
  cbn [fst snd] in Hcall, Hstatus, Hbody, Habort |- *.
  assert (enrichContext TrimSpace SplitHostPort (RequestContext (request c1)) c1 requestID
          = enrichContext TrimSpace SplitHostPort (RequestContext (request c)) c requestID)
    as -> by (unfold enrichContext, extractClientIP; rewrite Hreq; reflexivity).
  assert (extractClientIP TrimSpace SplitHostPort c1
          = extractClientIP TrimSpace SplitHostPort c) as ->
    by (unfold extractClientIP; rewrite Hreq; reflexivity).
  assert (extractAPIToken TrimSpace c1 = extractAPIToken TrimSpace c) as ->
    by (unfold extractAPIToken; rewrite Hreq; reflexivity).
  rewrite Hcall.
  exists (Logger.mk Logger.Debug "Rate limiter middleware initiated" None
            [("client_ip", Logger.FString (extractClientIP TrimSpace SplitHostPort c));
             ("api_token", Logger.FString (maskToken (extractAPIToken TrimSpace c)));
             ("user_agent", Logger.FString (GetHeader (request c1) "User-Agent"));
             ("method", Logger.FString (Method (request c1)));
             ("path", Logger.FString (Path (request c1)));
             ("request_id", Logger.FString requestID)]).
  destruct err as [e|].
  - eexists. unfold c_Abort, c_JSON. cbn [request header status body].
    rewrite Hreq, <- app_assoc. reflexivity.
  - exists [("client_ip", Logger.FString (extractClientIP TrimSpace SplitHostPort c));
            ("api_token", Logger.FString (maskToken (extractAPIToken TrimSpace c)))].
    destruct result as [result|]; [|reflexivity].
    cbn zeta. destruct (RateLimitResult.Allowed result); cbn [negb].
    + rewrite Hreq, Hstatus, Hbody, Habort, <- app_assoc. reflexivity.
    + unfold c_Abort, c_JSON. cbn [request header status body].
      rewrite Hreq, <- app_assoc. reflexivity.
Qed.

(** When the service returns an error, [Handle] answers 500 with a fixed
    body that does not carry the error, aborts the pipeline (the next
    handler never runs: the outcome is the same for every next handler),
    writes no budget header, and logs the error. *)
Theorem Handle_service_error (next : Context -> Context) (c : Context) (sv sv' : Sv)
    (sink : list Logger.Entry) (result : option RateLimitResult.t) (e : error) :
  CheckLimit
    (enrichContext TrimSpace SplitHostPort (RequestContext (request c)) c
       (getRequestID newUUID c).1)
    (extractClientIP TrimSpace SplitHostPort c) (extractAPIToken TrimSpace c) sv
  = ((result, Some e), sv') ->
  exists (first : Logger.Entry) (fields : list (string * Logger.Field)),
    Handle TrimSpace SplitHostPort newUUID CheckLimit next now c sv sink
    = Some (mkContext (request c) (header (getRequestID newUUID c).2)
              (Some 500)
              (Some (JObject
                       (<["error" := JString "internal server error"]>
                          (<["message" := JString "Unable to process rate limit check"]>
                             ∅))))
              true,
            sv',
            (sink ++ [first; Logger.mk Logger.Error "Rate limiter service error"
                               (Some e) fields])%list).
Proof.
  intros Hcall.
  destruct (Handle_after_call next c sv sv' sink result (Some e) Hcall)
    as (first & fields & Hrun).
  exists first, fields. exact Hrun.
Qed.

(** When the service denies the request, [Handle] answers 429 and aborts
    the pipeline (the outcome is the same for every next handler). The
    response has the budget headers of the decision. The body names the
    error rate_limit_exceeded and its details give the decision's limit,
    remaining budget, reset time in Unix seconds and kind, and the block's
    expiry in Unix seconds exactly when the decision has one. *)
Theorem Handle_denied (next : Context -> Context) (c : Context) (sv sv' : Sv)
    (sink : list Logger.Entry) (result : RateLimitResult.t) :
  CheckLimit
    (enrichContext TrimSpace SplitHostPort (RequestContext (request c)) c
       (getRequestID newUUID c).1)
    (extractClientIP TrimSpace SplitHostPort c) (extractAPIToken TrimSpace c) sv
  = ((Some result, None), sv') ->
  RateLimitResult.Allowed result = false ->
  (exists entries : list Logger.Entry,
     Handle TrimSpace SplitHostPort newUUID CheckLimit next now c sv sink
     = Some (mkContext (request c)
               (setRateLimitHeaders now result (header (getRequestID newUUID c).2))
               (Some 429) (Some (rejection result)) true,
             sv', (sink ++ entries)%list))
  /\ json_field "error" (rejection result) = Some (JString "rate_limit_exceeded")
  /\ (forall key : string,
        json_field "details" (rejection result) ≫= json_field key
        = if decide (key = "blocked_until")
          then JInt ∘ Time_Unix <$> RateLimitResult.BlockedUntil result
          else if decide (key = "limit")
          then Some (JInt (RateLimitResult.Limit result))
          else if decide (key = "remaining")
          then Some (JInt (RateLimitResult.Remaining result))
          else if decide (key = "reset_time")
          then Some (JInt (Time_Unix (RateLimitResult.ResetTime result)))
          else if decide (key = "limiter_type")
          then Some (JString (RateLimitResult.LimiterType_ result))
          else None).
Proof.
  intros Hcall Hdenied. split; [|split].
  - destruct (Handle_after_call next c sv sv' sink (Some result) None Hcall)
      as (first & fields & Hrun).
    cbn zeta in Hrun. rewrite Hdenied in Hrun. eexists. exact Hrun.
  - reflexivity.
  - intros key. unfold rejection. cbn zeta.
    cbn [json_field]. rewrite lookup_insert_ne by discriminate.
    rewrite lookup_insert_ne by discriminate. rewrite lookup_insert_eq.
    cbn [mbind option_bind json_field].
    destruct (RateLimitResult.BlockedUntil result) as [blockedUntil|]; cbn [fmap option_fmap option_map].
    + repeat case_decide; subst;
        repeat first [ rewrite lookup_insert_eq | rewrite lookup_insert_ne by congruence ];
        try reflexivity; try congruence.
    + repeat case_decide; subst;
        repeat first [ rewrite lookup_insert_eq | rewrite lookup_insert_ne by congruence ];
        try reflexivity; try congruence.
Qed.

End GatewayHandle.

Lemma Handle_service_error_witness :
  exists (first : Logger.Entry) (fields : list (string * Logger.Field)),
    RateLimiterMiddleware.Handle GoLib.TrimSpace Scenario.SplitHostPort Scenario.newUUID
      (fun _ ip token =>
         @RateLimiterService.CheckLimit Outage.t Outage.storage GoLib.TrimSpace
           Scenario.clock Scenario.config ip token)
      Scenario.next 0 (Scenario.entry [])
      (RateLimiterService.mkWorld (0%nat, MemoryStorage.NewMemoryStorage) 0 []) []
    = Some (RateLimiterMiddleware.mkContext (Scenario.request [])
              (<["X-Request-ID" := Scenario.newUUID]> ∅)
              (Some 500)
              (Some (RateLimiterMiddleware.JObject
                       (<["error" := RateLimiterMiddleware.JString "internal server error"]>
                          (<["message" :=
                               RateLimiterMiddleware.JString
                                 "Unable to process rate limit check"]> ∅))))
              true,
            (@RateLimiterService.CheckLimit Outage.t Outage.storage GoLib.TrimSpace
               Scenario.clock Scenario.config "10.0.0.1" EmptyString
               (RateLimiterService.mkWorld (0%nat, MemoryStorage.NewMemoryStorage) 0 [])).2,
            ([] ++ [first;
                    Logger.mk Logger.Error "Rate limiter service error"
                      (Some "failed to check blocked status: connection refused")
                      fields])%list).
Proof.
  apply (Handle_service_error GoLib.TrimSpace Scenario.SplitHostPort Scenario.newUUID
           (fun _ ip token =>
              @RateLimiterService.CheckLimit Outage.t Outage.storage GoLib.TrimSpace
                Scenario.clock Scenario.config ip token)
           0 Scenario.next (Scenario.entry []) _ _ [] None).
  reflexivity.
Defined.

Lemma Handle_denied_witness :
  RateLimiterMiddleware.status
    <$> (fst ∘ fst
           <$> RateLimiterMiddleware.Handle GoLib.TrimSpace Scenario.SplitHostPort
                 Scenario.newUUID
                 (fun _ ip token =>
                    RateLimiterService.CheckLimit GoLib.TrimSpace Scenario.clock
                      Scenario.strict ip token)
                 Scenario.next (5 * Second) (Scenario.entry [])
                 (RateLimiterService.mkWorld Scenario.overflowed 4 []) [])
  = Some (Some 429).
Proof.
  assert (RateLimiterService.CheckLimit GoLib.TrimSpace Scenario.clock Scenario.strict
            (RateLimiterMiddleware.extractClientIP GoLib.TrimSpace
               Scenario.SplitHostPort (Scenario.entry []))
            (RateLimiterMiddleware.extractAPIToken GoLib.TrimSpace (Scenario.entry []))
            (RateLimiterService.mkWorld Scenario.overflowed 4 [])
          = ((Some (RateLimitResult.mk false 1 0 (65 * Second) (Some (14 * Second))
                      IPLimiter),
              None),
             (RateLimiterService.CheckLimit GoLib.TrimSpace Scenario.clock
                Scenario.strict "10.0.0.1" EmptyString
                (RateLimiterService.mkWorld Scenario.overflowed 4 [])).2)) as Hcall
    by (vm_compute; reflexivity).
  destruct (Handle_denied GoLib.TrimSpace Scenario.SplitHostPort
              Scenario.newUUID
              (fun _ ip token =>
                 RateLimiterService.CheckLimit GoLib.TrimSpace Scenario.clock
                   Scenario.strict ip token)
              (5 * Second) Scenario.next (Scenario.entry [])
              (RateLimiterService.mkWorld Scenario.overflowed 4 []) _ [] _
              Hcall eq_refl)
    as ((entries & ->) & _).
  reflexivity.
Defined.

Section GatewayOverEngine.
Import RateLimiterService RateLimiterMiddleware.
Context {St : Type} `{RateLimiterStorage St}.
Variable TrimSpace : string -> string.
Variable SplitHostPort : string -> option string.
Variable newUUID : string.
Variable clock : nat -> Time.
Variable config : RateLimitConfig.t.

(** The engine answers with an error and no decision, or with a decision
    and no error; a decision's remaining budget is not negative, it is 0
    when the request is denied, and an allowed decision has no expiry. *)
Lemma CheckLimit_decision_budget (ip token : string) (w : World St) :
  (exists e, (CheckLimit TrimSpace clock config ip token w).1 = (None, Some e))
  \/ (exists result,
        (CheckLimit TrimSpace clock config ip token w).1 = (Some result, None)
        /\ 0 <= RateLimitResult.Remaining result
        /\ (RateLimitResult.Allowed result = false ->
            RateLimitResult.Remaining result = 0)
        /\ (RateLimitResult.Allowed result = true ->
            RateLimitResult.BlockedUntil result = None)).
Proof.
  destruct (detectLimiterType TrimSpace ip token) as [limiterType key] eqn:Hdetect.
  destruct (storage_IsBlocked (clock (w_tick w)) (buildStorageKey key limiterType)
              (w_storage w)) as [[[b blockedUntil] [e|]] st1] eqn:Hblocked.
  { destruct (CheckLimit_run_check_error TrimSpace clock config ip token w
                limiterType key Hdetect b blockedUntil e st1 Hblocked)
      as (entries & ->). left. eexists. reflexivity. }
  destruct b.
  { destruct (CheckLimit_run_blocked TrimSpace clock config ip token w
                limiterType key Hdetect blockedUntil st1 Hblocked)
      as (entries & ->). right. eexists. split; [reflexivity|]. cbn.
    repeat split; try reflexivity; try lia; try (intros; discriminate). }
  destruct (storage_Increment (clock (S (w_tick w)))
              (buildStorageKey key limiterType)
              (RateLimitRule.Limit (GetConfig config key limiterType))
              (seconds (RateLimitRule.Window (GetConfig config key limiterType)))
              st1) as [[[count reset] [e|]] st2] eqn:Hinc.
  { destruct (CheckLimit_run_increment_error TrimSpace clock config ip token w
                limiterType key Hdetect blockedUntil st1 st2 count reset e
                Hblocked Hinc) as (entries & ->). left. eexists. reflexivity. }
  destruct (Z.leb_spec count (RateLimitRule.Limit (GetConfig config key limiterType)))
    as [Hle|Hlt].
  - destruct (CheckLimit_run_allowed TrimSpace clock config ip token w limiterType
                key Hdetect blockedUntil st1 st2 count reset Hblocked Hinc Hle)
      as (entries & ->). right. eexists. split; [reflexivity|]. cbn.
    repeat split; try reflexivity; try (intros; discriminate).
    destruct (wrap_int _ <? 0) eqn:Hneg; [lia|]. apply Z.ltb_ge in Hneg. exact Hneg.
  - destruct (storage_Block (clock (S (S (w_tick w))))
                (buildStorageKey key limiterType)
                (seconds (RateLimitRule.BlockDuration (GetConfig config key limiterType)))
                st2) as [err' st3] eqn:Hblock.
    destruct (CheckLimit_run_overflow TrimSpace clock config ip token w limiterType
                key Hdetect blockedUntil st1 st2 st3 count reset err'
                Hblocked Hinc Hlt Hblock)
      as (first & last & ->). right. eexists. split; [reflexivity|]. cbn.
    repeat split; try reflexivity; try lia; try (intros; discriminate).
Qed.

Lemma getRequestID_header_ne (c : Context) (key : string) :
  key <> "X-Request-ID" ->
  header (getRequestID newUUID c).2 !! key = header c !! key.
Proof.
  intros Hne. unfold getRequestID. case_decide; [|reflexivity].
  cbn [snd c_Header header]. apply Header_lookup_ne. congruence.
Qed.

(** The gateway over the engine, for any store and any request, returns
    (it never dereferences a missing decision) and does one of three
    things. It answers 500 and aborts, with the remaining-budget header
    as it was. Or it answers 429 and aborts, with the remaining-budget
    header 0. Or it runs the next handler, on a context whose request,
    status, body and abort flag are untouched, whose remaining-budget
    header is the decimal of a number that is not negative and whose
    Retry-After header is as it was. The engine's state afterwards is the
    one its check left. *)
Theorem NewRateLimiterMiddleware_responds (next : Context -> Context) (now : Time)
    (c : Context) (w : World St) (sink : list Logger.Entry) :
  exists (c' : Context) (sink' : list Logger.Entry),
    NewRateLimiterMiddleware TrimSpace SplitHostPort newUUID clock config next now
      c w sink
    = Some (c',
            (CheckLimit TrimSpace clock config
               (extractClientIP TrimSpace SplitHostPort c)
               (extractAPIToken TrimSpace c) w).2,
            sink')
    /\ ((status c' = Some 500 /\ aborted c' = true
         /\ header c' !! "X-RateLimit-Remaining" = header c !! "X-RateLimit-Remaining")
        \/ (status c' = Some 429 /\ aborted c' = true
            /\ header c' !! "X-RateLimit-Remaining" = Some "0")
        \/ (exists (c0 : Context) (remaining : Z),
              c' = next c0
              /\ request c0 = request c /\ status c0 = status c
              /\ body c0 = body c /\ aborted c0 = aborted c
              /\ 0 <= remaining
              /\ header c0 !! "X-RateLimit-Remaining" = Some (Itoa remaining)
              /\ header c0 !! "Retry-After" = header c !! "Retry-After")).
Proof.
  unfold NewRateLimiterMiddleware.
  destruct (CheckLimit TrimSpace clock config
              (extractClientIP TrimSpace SplitHostPort c)
              (extractAPIToken TrimSpace c) w) as [[result err] w'] eqn:Hcall.
  destruct (Handle_after_call TrimSpace SplitHostPort newUUID
              (fun _ ip token => CheckLimit TrimSpace clock config ip token)
              now next c w w' sink result err Hcall) as (first & fields & ->).
  destruct (CheckLimit_decision_budget
              (extractClientIP TrimSpace SplitHostPort c)
              (extractAPIToken TrimSpace c) w)
    as [(e & Hshape)|(decision & Hshape & Hrem & Hdenied & Hallowed)];
    rewrite Hcall in Hshape; cbn [fst] in Hshape; injection Hshape as -> ->.
  - eexists _, _. split; [reflexivity|]. left. cbn [status aborted header].
    repeat split. apply getRequestID_header_ne. discriminate.
  - cbn zeta. destruct (RateLimitResult.Allowed decision) eqn:Hflag.
    + eexists _, _. split; [reflexivity|]. right. right.
      eexists _, (RateLimitResult.Remaining decision).
      split; [reflexivity|]. cbn [request status body aborted header].
      repeat split; try assumption.
      * apply setRateLimitHeaders_remaining. exact Hrem.
      * unfold setRateLimitHeaders. rewrite Hflag. cbn [negb].
        rewrite budget_headers_keep_retry_after.
        apply getRequestID_header_ne. discriminate.
    + eexists _, _. split; [reflexivity|]. right. left.
      cbn [status aborted header]. repeat split.
      rewrite setRateLimitHeaders_remaining by exact Hrem.
      rewrite (Hdenied eq_refl). reflexivity.
Qed.

End GatewayOverEngine.

Lemma extractAPIToken_precedence_witness :
  RateLimiterService.detectLimiterType GoLib.TrimSpace "10.0.0.1"
    (RateLimiterMiddleware.extractAPIToken GoLib.TrimSpace
       (Scenario.entry [("API_KEY", "  "); ("X-Api-Token", "premium")]))
  = (IPLimiter, "10.0.0.1")
  /\ RateLimiterMiddleware.extractAPIToken GoLib.TrimSpace
       (Scenario.entry [("X-Api-Token", " premium ")])
     = "premium".
Proof.
  split.
  - exact (proj2 (proj2 (proj2 (proj2
             (extractAPIToken_precedence GoLib.TrimSpace
                (Scenario.entry [("API_KEY", "  "); ("X-Api-Token", "premium")])
                "10.0.0.1"))))
             ltac:(discriminate) eq_refl eq_refl).
  - exact (proj1 (proj2
             (extractAPIToken_precedence GoLib.TrimSpace
                (Scenario.entry [("X-Api-Token", " premium ")]) "10.0.0.1"))
             eq_refl ltac:(discriminate)).
Defined.

Lemma extractClientIP_precedence_witness :
  RateLimiterMiddleware.extractClientIP GoLib.TrimSpace Scenario.SplitHostPort
    (Scenario.entry [("X-Forwarded-For", " 203.0.113.7 , 10.1.1.1");
                     ("X-Real-IP", "198.51.100.2")])
  = "203.0.113.7"
  /\ RateLimiterMiddleware.extractClientIP GoLib.TrimSpace Scenario.SplitHostPort
       (Scenario.entry [("X-Forwarded-For", " ,10.1.1.1")])
     = "10.0.0.1".
Proof.
  split.
  - exact (proj1
             (extractClientIP_precedence GoLib.TrimSpace Scenario.SplitHostPort
                (Scenario.entry [("X-Forwarded-For", " 203.0.113.7 , 10.1.1.1");
                                 ("X-Real-IP", "198.51.100.2")]))
             ltac:(discriminate) ltac:(discriminate)).
  - exact (proj2 (proj2
             (extractClientIP_precedence GoLib.TrimSpace Scenario.SplitHostPort
                (Scenario.entry [("X-Forwarded-For", " ,10.1.1.1")]))
             (or_intror eq_refl)) eq_refl).
Defined.

(** ** The logger and the request context *)

Section LoggerContext.
Import StructuredLogger.

(** The values the gateway attaches to the request context are attached
    under keys of the gateway's own key type, and the logger looks under
    keys of its own: the logger derived from the enriched context has the
    fields of the logger derived from the context before enrichment, and
    finds the same request id (none, unless the context had one). *)
Theorem enrichContext_invisible_to_logger
    (TrimSpace : string -> string) (SplitHostPort : string -> option string)
    (ctx : GoContext.t) (c : RateLimiterMiddleware.Context) (requestID : string)
    (l_fields : gmap string string) :
  let enriched :=
    RateLimiterMiddleware.enrichContext TrimSpace SplitHostPort ctx c requestID in
  extractContextFields (Some enriched) = extractContextFields (Some ctx)
  /\ WithContext l_fields (Some enriched) = WithContext l_fields (Some ctx)
  /\ GetRequestID (Some enriched) = GetRequestID (Some ctx)
  /\ GetRequestID (Some (RateLimiterMiddleware.enrichContext TrimSpace SplitHostPort
                           [] c requestID)) = "".
Proof.
  cbn zeta.
  assert (forall name : string,
            GoContext.Value
              (RateLimiterMiddleware.enrichContext TrimSpace SplitHostPort ctx c requestID)
              (contextKey name)
            = GoContext.Value ctx (contextKey name)) as Hvalue.
  { intros name. unfold RateLimiterMiddleware.enrichContext, GoContext.WithValue.
    cbn [GoContext.Value].
    repeat (rewrite decide_False by (unfold RateLimiterMiddleware.contextKey, contextKey;
                                     intros [= Htype _]; discriminate Htype)).
    reflexivity. }
  assert (extractContextFields
            (Some (RateLimiterMiddleware.enrichContext TrimSpace SplitHostPort ctx c
                     requestID))
          = extractContextFields (Some ctx)) as Hfields.
  { unfold extractContextFields, RequestIDKey, IPKey, TokenKey, UserAgentKey.
    rewrite !Hvalue. reflexivity. }
  split; [exact Hfields|]. split; [|split].
  - unfold WithContext. rewrite Hfields. reflexivity.
  - unfold GetRequestID, RequestIDKey. rewrite Hvalue. reflexivity.
  - unfold GetRequestID, RequestIDKey, RateLimiterMiddleware.enrichContext,
      GoContext.WithValue.
    cbn [GoContext.Value].
    repeat (rewrite decide_False by (unfold RateLimiterMiddleware.contextKey, contextKey;
                                     intros [= Htype _]; discriminate Htype)).
    reflexivity.
Qed.

End LoggerContext.

Lemma length_string_app (s1 s2 : string) :
  String.length (s1 +:+ s2) = (String.length s1 + String.length s2)%nat.
Proof.
  induction s1 as [|a s1 IH]; [reflexivity|].
  change (S (String.length (s1 +:+ s2)) = S (String.length s1 + String.length s2)).
  rewrite IH. reflexivity.
Qed.

Section LoggerRequestInfo.
Import StructuredLogger.

Lemma extractContextFields_token_mask (token : string) :
  token <> "" ->
  extractContextFields_token token = Some (RateLimiterService.maskToken token).
Proof.
  intros Hne. unfold extractContextFields_token, RateLimiterService.maskToken.
  rewrite decide_False by exact Hne.
  assert ((0 <? String.length token)%nat = true) as ->.
  { apply Nat.ltb_lt. destruct token; [contradiction|cbn; lia]. }
  destruct (Nat.leb_spec (String.length token) 8) as [Hle|Hgt].
  - assert ((8 <? String.length token)%nat = false) as ->
      by (apply Nat.ltb_ge; exact Hle).
    reflexivity.
  - assert ((8 <? String.length token)%nat = true) as ->
      by (apply Nat.ltb_lt; exact Hgt).
    reflexivity.
Qed.

(** The lookups of the logger's keys in a context built by
    [ContextWithRequestInfo]. *)
Lemma ContextWithRequestInfo_values (ctx : GoContext.t)
    (requestID ip token userAgent : string) :
  let ctx' := ContextWithRequestInfo ctx requestID ip token userAgent in
  GoContext.Value ctx' RequestIDKey = Some requestID
  /\ GoContext.Value ctx' IPKey = Some ip
  /\ GoContext.Value ctx' UserAgentKey = Some userAgent
  /\ GoContext.Value ctx' TokenKey
     = if decide (token = "") then GoContext.Value ctx TokenKey else Some token.
Proof.
  cbn zeta. unfold ContextWithRequestInfo, GoContext.WithValue.
  case_decide; cbn [GoContext.Value];
    repeat first [ rewrite decide_True by reflexivity
                 | rewrite decide_False by discriminate ];
    repeat split; reflexivity.
Qed.

(** The logger derived from a context built by [ContextWithRequestInfo]
    finds the request id, and has the fields request_id, ip and user_agent
    with the values given (also when they are empty). When the token is
    not empty its token field is the masked token, which differs from the
    token unless the token has exactly 11 bytes; with an empty token it is
    the field of a token attached to the context earlier, if there was
    one. It has no other field. *)
Theorem ContextWithRequestInfo_fields (ctx : GoContext.t)
    (requestID ip token userAgent : string) :
  let ctx' := ContextWithRequestInfo ctx requestID ip token userAgent in
  let fields := extractContextFields (Some ctx') in
  GetRequestID (Some ctx') = requestID
  /\ fields !! "request_id" = Some requestID
  /\ fields !! "ip" = Some ip
  /\ fields !! "user_agent" = Some userAgent
  /\ (token <> "" ->
      fields !! "token" = Some (RateLimiterService.maskToken token)
      /\ (String.length token <> 11%nat ->
          RateLimiterService.maskToken token <> token))
  /\ (token = "" -> fields !! "token" = extractContextFields (Some ctx) !! "token")
  /\ (forall key : string,
        key <> "request_id" -> key <> "ip" -> key <> "token" -> key <> "user_agent" ->
        fields !! key = None).
Proof.
  cbn zeta.
  destruct (ContextWithRequestInfo_values ctx requestID ip token userAgent)
    as (Hid & Hip & Hua & Htok).
  cbn zeta in Hid, Hip, Hua, Htok.
  unfold GetRequestID, extractContextFields. rewrite Hid, Hip, Hua, Htok.
  split; [reflexivity|].
  assert (forall (o : option string) (key : string) (m : gmap string string),
            key <> "token" ->
            match o with
            | Some t => match extractContextFields_token t with
                        | Some masked => <["token" := masked]> m
                        | None => m
                        end
            | None => m
            end !! key = m !! key) as Hskip.
  { intros [t|] key m Hne; [|reflexivity].
    destruct (extractContextFields_token t); [|reflexivity].
    apply lookup_insert_ne. congruence. }
  split; [|split; [|split; [|split; [|split]]]].
  - rewrite lookup_insert_ne by discriminate. rewrite Hskip by discriminate.
    rewrite lookup_insert_ne by discriminate. apply lookup_insert_eq.
  - rewrite lookup_insert_ne by discriminate. rewrite Hskip by discriminate.
    apply lookup_insert_eq.
  - apply lookup_insert_eq.
  - intros Hne. rewrite decide_False by exact Hne.
    rewrite extractContextFields_token_mask by exact Hne. split.
    + rewrite lookup_insert_ne by discriminate. apply lookup_insert_eq.
    + intros Hlen Heq. apply (f_equal String.length) in Heq.
      unfold RateLimiterService.maskToken in Heq.
      rewrite decide_False in Heq by exact Hne.
      destruct (Nat.leb_spec (String.length token) 8) as [Hle|Hgt].
      * rewrite length_string_app in Heq. cbn in Heq. lia.
      * rewrite length_string_app, length_substring_prefix in Heq by lia. cbn in Heq. lia.
  - intros ->. rewrite decide_True by reflexivity.
    rewrite lookup_insert_ne by discriminate.
    destruct (GoContext.Value ctx TokenKey) as [t|].
    + destruct (extractContextFields_token t) as [masked|].
      * rewrite lookup_insert_eq.
        destruct (GoContext.Value ctx UserAgentKey);
          [rewrite lookup_insert_ne by discriminate|]; rewrite lookup_insert_eq;
          reflexivity.
      * rewrite lookup_insert_ne by discriminate.
        rewrite lookup_insert_ne by discriminate. rewrite lookup_empty.
        destruct (GoContext.Value ctx UserAgentKey);
          [rewrite lookup_insert_ne by discriminate|];
          (destruct (GoContext.Value ctx IPKey);
           [rewrite lookup_insert_ne by discriminate|]);
          (destruct (GoContext.Value ctx RequestIDKey);
           [rewrite lookup_insert_ne by discriminate|]);
          rewrite lookup_empty; reflexivity.
    + rewrite lookup_insert_ne by discriminate.
      rewrite lookup_insert_ne by discriminate. rewrite lookup_empty.
      destruct (GoContext.Value ctx UserAgentKey);
        [rewrite lookup_insert_ne by discriminate|];
        (destruct (GoContext.Value ctx IPKey);
         [rewrite lookup_insert_ne by discriminate|]);
        (destruct (GoContext.Value ctx RequestIDKey);
         [rewrite lookup_insert_ne by discriminate|]);
        rewrite lookup_empty; reflexivity.
  - intros key Hk1 Hk2 Hk3 Hk4.
    rewrite lookup_insert_ne by congruence. rewrite Hskip by exact Hk3.
    rewrite lookup_insert_ne by congruence. rewrite lookup_insert_ne by congruence.
    apply lookup_empty.
Qed.

End LoggerRequestInfo.

Lemma ContextWithRequestInfo_fields_witness :
  StructuredLogger.extractContextFields
    (Some (StructuredLogger.ContextWithRequestInfo [] "r-1" "10.0.0.1"
             "premium-token-0001" "curl")) !! "token"
  = Some "premium-***".
Proof.
  exact (proj1 (proj1 (proj2 (proj2 (proj2 (proj2
           (ContextWithRequestInfo_fields [] "r-1" "10.0.0.1"
              "premium-token-0001" "curl")))))
           ltac:(discriminate))).
Defined.

(** ** The storage factory *)

Section FactoryValidation.
Import StorageFactory.
Variable ToLower : string -> string.
Variable Store : Type.
Variable NewRedisStorage : string -> string -> string -> Z -> Store + error.
Variable NewMemoryStorage : Store.

(** [ValidateConfig] predicts [CreateStorage]. A configuration it rejects
    is rejected by [CreateStorage] before any store is constructed, with no
    log entry and with the same error, except that for a database out of
    range [CreateStorage]'s message lacks the number. A configuration it
    accepts gives the memory store, or whatever [NewRedisStorage] gives for
    the configured host, port, password and database: that store, or its
    error wrapped. *)
Theorem CreateStorage_follows_ValidateConfig (config : option StorageConfig)
    (logger : option (list Logger.Entry)) :
  (forall e : error,
     ValidateConfig ToLower config = Some e ->
     exists e' : error,
       CreateStorage ToLower Store NewRedisStorage NewMemoryStorage config logger
       = ((None, Some e'), logger)
       /\ (e' = e
           \/ exists (cfg : StorageConfig) (rc : RedisConfig),
                config = Some cfg /\ RedisConfig_ cfg = Some rc
                /\ (Database rc < 0 \/ 15 < Database rc)
                /\ e' = "Redis database must be between 0 and 15"
                /\ e = e' +:+ ", got: " +:+ pretty (Database rc)))
  /\ (ValidateConfig ToLower config = None ->
      exists cfg : StorageConfig,
        config = Some cfg
        /\ ((ToLower (Type_ cfg) = "memory"
             /\ (CreateStorage ToLower Store NewRedisStorage NewMemoryStorage
                   config logger).1
                = (Some NewMemoryStorage, None))
            \/ exists rc : RedisConfig,
                 ToLower (Type_ cfg) = "redis" /\ RedisConfig_ cfg = Some rc
                 /\ 0 <= Database rc <= 15 /\ Host rc <> "" /\ Port rc <> ""
                 /\ (CreateStorage ToLower Store NewRedisStorage NewMemoryStorage
                       config logger).1
                    = match NewRedisStorage (Host rc) (Port rc) (Password rc)
                              (Database rc) with
                      | inl storage => (Some storage, None)
                      | inr e => (None, Some ("failed to create Redis storage: " +:+ e))
                      end)).
Proof.
  destruct config as [cfg|]; cbn [ValidateConfig CreateStorage].
  2:{ split; [|discriminate]. intros e [= <-]. eexists. split; [reflexivity|].
      left. reflexivity. }
  destruct (decide (ToLower (Type_ cfg) = RedisStorageType)) as [Hredis|Hnot].
  - unfold validateRedisConfig, createRedisStorage.
    destruct (RedisConfig_ cfg) as [rc|] eqn:Hrc.
    2:{ split; [|discriminate]. intros e [= <-]. eexists. split; [reflexivity|].
        left. reflexivity. }
    destruct (decide (Host rc = "")) as [Hhost|Hhost].
    { split; [|discriminate]. intros e [= <-]. eexists. split; [reflexivity|].
      left. reflexivity. }
    destruct (decide (Port rc = "")) as [Hport|Hport].
    { split; [|discriminate]. intros e [= <-]. eexists. split; [reflexivity|].
      left. reflexivity. }
    destruct ((Database rc <? 0) || (15 <? Database rc)) eqn:Hdb.
    { split; [|discriminate]. intros e [= <-]. eexists. split; [reflexivity|].
      right. exists cfg, rc. repeat split; try reflexivity; try assumption.
      apply orb_true_iff in Hdb. destruct Hdb as [Hlo|Hhi].
      - left. apply Z.ltb_lt. exact Hlo.
      - right. apply Z.ltb_lt. exact Hhi. }
    split; [discriminate|]. intros _. exists cfg. split; [reflexivity|]. right.
    exists rc. apply orb_false_iff in Hdb. destruct Hdb as [Hlo Hhi].
    apply Z.ltb_ge in Hlo. apply Z.ltb_ge in Hhi.
    repeat split; try assumption.
    destruct (NewRedisStorage _ _ _ _); reflexivity.
  - destruct (decide (ToLower (Type_ cfg) = MemoryStorageType)) as [Hmem|Hnomem].
    + split; [discriminate|]. intros _. exists cfg. split; [reflexivity|]. left.
      split; [exact Hmem|reflexivity].
    + split; [|discriminate]. intros e [= <-]. eexists. split; [reflexivity|].
      left. reflexivity.
Qed.

End FactoryValidation.

Lemma CreateStorage_follows_ValidateConfig_witness :
  StorageFactory.CreateStorage GoLib.ToLower MemoryStorage.t
    (fun _ _ _ _ => inr "dial tcp: connection refused")
    MemoryStorage.NewMemoryStorage
    (Some (StorageFactory.mkStorageConfig "Redis"
             (Some (StorageFactory.mkRedisConfig "localhost" "6379" "" 16))))
    (Some [])
  = ((None, Some "Redis database must be between 0 and 15"), Some []).
Proof.
  destruct (proj1 (CreateStorage_follows_ValidateConfig GoLib.ToLower MemoryStorage.t
                     (fun _ _ _ _ => inr "dial tcp: connection refused")
                     MemoryStorage.NewMemoryStorage
                     (Some (StorageFactory.mkStorageConfig "Redis"
                              (Some (StorageFactory.mkRedisConfig "localhost" "6379"
                                       "" 16))))
                     (Some []))
              "Redis database must be between 0 and 15, got: 16" eq_refl)
    as (e' & Hrun & _).
  rewrite Hrun. vm_compute in Hrun. injection Hrun as <-. reflexivity.
Defined.

(** ** Loading the configuration *)

Section LoadedRules.
Import Config.
Variable Getenv : string -> string.
Variable Atoi : string -> Z + error.
Variable IsNotExist : string -> bool.
Variable ReadFile : string -> string + error.
Variable Unmarshal : string -> gmap string TokenConfig.t + error.
Variable Range : gmap string TokenConfig.t -> list (string * TokenConfig.t).

(** [range] visits every entry of the map. *)
Hypothesis Range_visits :
  forall (tokens : gmap string TokenConfig.t) (token : string)
         (config : TokenConfig.t),
    tokens !! token = Some config -> (token, config) ∈ Range tokens.

(** A configuration [loadFromEnv] returns has passed [validateConfig]. *)
Lemma loadFromEnv_valid (config : Config.t) :
  loadFromEnv Getenv Atoi = (Some config, None) -> validateConfig config = None.
Proof.
  unfold loadFromEnv.
  repeat match goal with
         | |- context [match Atoi ?s with _ => _ end] => destruct (Atoi s)
         end; try discriminate.
  match goal with
  | |- context [validateConfig ?c] => destruct (validateConfig c) eqn:Hvalid
  end; [discriminate|].
  intros [= <-]. exact Hvalid.
Qed.

Lemma validateConfig_positive (config : Config.t) :
  validateConfig config = None ->
  0 < DefaultIPLimit config /\ 0 < DefaultTokenLimit config
  /\ 0 < RateWindow config /\ 0 < BlockDuration config.
Proof.
  unfold validateConfig.
  destruct (Z.leb_spec (DefaultIPLimit config) 0); [discriminate|].
  destruct (Z.leb_spec (DefaultTokenLimit config) 0); [discriminate|].
  destruct (Z.leb_spec (RateWindow config) 0); [discriminate|].
  destruct (Z.leb_spec (BlockDuration config) 0); [discriminate|].
  intros _. repeat split; assumption.
Qed.

(** The loop passes only over positive limits. *)
Lemma validateTokens_checked (entries : list (string * TokenConfig.t))
    (tokens tokens' : gmap string TokenConfig.t) :
  validateTokens entries tokens = inl tokens' ->
  forall (token : string) (config : TokenConfig.t),
    (token, config) ∈ entries -> 0 < TokenConfig.Limit config.
Proof.
  revert tokens. induction entries as [|[token0 config0] entries IH];
    intros tokens Hrun token config Hin.
  - apply elem_of_nil in Hin. contradiction.
  - cbn [validateTokens] in Hrun.
    destruct (Z.leb_spec (TokenConfig.Limit config0) 0) as [|Hpos]; [discriminate|].
    apply elem_of_cons in Hin. destruct Hin as [[= -> ->]|Hin]; [exact Hpos|].
    exact (IH _ Hrun token config Hin).
Qed.

(** An entry of the map the loop returns is an entry of the map it
    started from, or one it wrote, with a positive limit. *)
Lemma validateTokens_entries (entries : list (string * TokenConfig.t))
    (tokens tokens' : gmap string TokenConfig.t) :
  validateTokens entries tokens = inl tokens' ->
  forall (token : string) (config : TokenConfig.t),
    tokens' !! token = Some config ->
    tokens !! token = Some config \/ 0 < TokenConfig.Limit config.
Proof.
  revert tokens. induction entries as [|[token0 config0] entries IH];
    intros tokens Hrun token config Hlookup.
  - cbn in Hrun. injection Hrun as <-. left. exact Hlookup.
  - cbn [validateTokens] in Hrun.
    destruct (Z.leb_spec (TokenConfig.Limit config0) 0) as [|Hpos]; [discriminate|].
    destruct (IH _ Hrun token config Hlookup) as [Hin|Hdone]; [|right; exact Hdone].
    destruct (decide (TokenConfig.Token config0 = "")) as [Hempty|Hfull];
      [|left; exact Hin].
    destruct (decide (token0 = token)) as [->|Hne].
    + rewrite lookup_insert_eq in Hin. injection Hin as <-. right. exact Hpos.
    + rewrite lookup_insert_ne in Hin by exact Hne. left. exact Hin.
Qed.

(** Every rule the engine resolves from a configuration that [LoadConfig]
    returned has a positive limit, a positive window and a positive block
    duration, whatever the identity and its kind: the defaults have passed
    [validateConfig] and every token entry has passed the loop of
    [LoadTokenConfigs]. *)
Theorem LoadConfig_rules_positive (config : RateLimitConfig.t)
    (key : string) (limiterType : LimiterType) :
  LoadConfig Getenv Atoi IsNotExist ReadFile Unmarshal Range = (Some config, None) ->
  0 < RateLimitRule.Limit (RateLimiterService.GetConfig config key limiterType)
  /\ 0 < RateLimitRule.Window (RateLimiterService.GetConfig config key limiterType)
  /\ 0 < RateLimitRule.BlockDuration
           (RateLimiterService.GetConfig config key limiterType).
Proof.
  unfold LoadConfig.
  destruct (loadFromEnv Getenv Atoi) as [[env|] [e|]] eqn:Henv; try discriminate.
  destruct (validateConfig_positive env (loadFromEnv_valid env Henv))
    as (Hip & Htoken & Hwindow & Hblock).
  destruct (LoadTokenConfigs Getenv IsNotExist ReadFile Unmarshal Range (Some env))
    as [[tokenConfigs|] [e|]] eqn:Htokens; try discriminate.
  intros [= <-].
  assert (forall (token : string) (tc : TokenConfig.t),
            tokenConfigs !! token = Some tc -> 0 < TokenConfig.Limit tc) as Hentries.
  { intros token tc Hlookup. unfold LoadTokenConfigs in Htokens.
    destruct (IsNotExist _).
    { injection Htokens as <-. rewrite lookup_empty in Hlookup. discriminate. }
    destruct (ReadFile _) as [data|]; [|discriminate].
    destruct (Unmarshal data) as [tokens|]; [|discriminate].
    destruct (validateTokens (Range tokens) tokens) as [tokens'|] eqn:Hloop;
      [|discriminate].
    injection Htokens as <-.
    destruct (validateTokens_entries _ _ _ Hloop token tc Hlookup) as [Hold|Hpos];
      [|exact Hpos].
    exact (validateTokens_checked _ _ _ Hloop token tc (Range_visits _ _ _ Hold)). }
  unfold RateLimiterService.GetConfig. cbn [RateLimitConfig.DefaultIPLimit
    RateLimitConfig.DefaultTokenLimit RateLimitConfig.Window
    RateLimitConfig.BlockDuration RateLimitConfig.TokenConfigs].
  repeat case_decide;
    try (destruct (tokenConfigs !! key) as [tc|] eqn:Hlookup);
    cbn [RateLimitRule.Limit RateLimitRule.Window RateLimitRule.BlockDuration];
    repeat split; try assumption.
  exact (Hentries key tc Hlookup).
Qed.

End LoadedRules.

Lemma LoadConfig_rules_positive_witness :
  Config.LoadConfig (fun _ => "") GoLib.Atoi (fun _ => false) (fun _ => inl "{}")
    (fun _ => inl Scenario.tokensFile) map_to_list
  = (Some Scenario.config, None)
  /\ 0 < RateLimitRule.Limit
           (RateLimiterService.GetConfig Scenario.config "premium" TokenLimiter).
Proof.
  assert (Config.LoadConfig (fun _ => "") GoLib.Atoi (fun _ => false)
            (fun _ => inl "{}") (fun _ => inl Scenario.tokensFile) map_to_list
          = (Some Scenario.config, None)) as Hload by (vm_compute; reflexivity).
  split; [exact Hload|].
  exact (proj1 (LoadConfig_rules_positive (fun _ => "") GoLib.Atoi (fun _ => false)
                  (fun _ => inl "{}") (fun _ => inl Scenario.tokensFile) map_to_list
                  (fun tokens token config Hlookup =>
                     proj2 (elem_of_map_to_list tokens token config) Hlookup)
                  Scenario.config "premium" TokenLimiter Hload)).
Defined.

(** ** The Redis store: blocking *)

Section RedisBlocking.
Import RedisStorage.
Variable Srv : Type.
Variable client_Get : string -> Srv -> reply.
Variable client_Set : string -> string -> Duration -> Srv -> option error * Srv.
Variable Unmarshal : string -> RateLimitStatus.t + error.
Variable Marshal : RateLimitStatus.t -> string + error.

(** Decoding gives back what was encoded, and the server returns for a key
    what was last set under it. *)
Hypothesis codec_round_trip :
  forall (status : RateLimitStatus.t) (data : string),
    Marshal status = inl data -> Unmarshal data = inl status.
Hypothesis server_keeps :
  forall (key data : string) (ttl : Duration) (srv srv' : Srv),
    client_Set key data ttl srv = (None, srv') ->
    client_Get key srv' = Value data.

(** What [Block] stores when it succeeds. *)
Lemma RedisStorage_Block_stores (now : Time) (key : string) (duration : Duration)
    (srv srv' : Srv) :
  Block Srv client_Get client_Set Unmarshal Marshal now key duration srv
  = (None, srv') ->
  exists status : RateLimitStatus.t,
    Get Srv client_Get Unmarshal key srv' = (Some status, None)
    /\ RateLimitStatus.IsBlocked status = true
    /\ RateLimitStatus.BlockedUntil status = Some (Time_Add now duration)
    /\ forall old : RateLimitStatus.t,
         Get Srv client_Get Unmarshal key srv = (Some old, None) ->
         RateLimitStatus.Count status = RateLimitStatus.Count old
         /\ RateLimitStatus.LastReset status = RateLimitStatus.LastReset old.
Proof.
  intros Hblock.
  assert (forall status : RateLimitStatus.t,
            Set_ Srv client_Set Marshal key status (wrap_int (duration + Minute)) srv
            = (None, srv') ->
            Get Srv client_Get Unmarshal key srv' = (Some status, None)) as Hset.
  { intros status. unfold Set_, Get.
    destruct (Marshal status) as [data|] eqn:Hdata; [|discriminate].
    destruct (client_Set key data _ srv) as [[e|] srv1] eqn:Hwrite; [discriminate|].
    intros [= <-]. rewrite (server_keeps _ _ _ _ _ Hwrite).
    rewrite (codec_round_trip _ _ Hdata). reflexivity. }
  unfold Block in Hblock.
  destruct (Get Srv client_Get Unmarshal key srv) as [[old|] [e|]] eqn:Hget;
    try discriminate.
  - eexists. split; [exact (Hset _ Hblock)|].
    split; [destruct old; reflexivity|]. split; [destruct old; reflexivity|].
    intros old' [= <-]. destruct old. split; reflexivity.
  - eexists. split; [exact (Hset _ Hblock)|].
    split; [reflexivity|]. split; [reflexivity|]. intros old' Hnone. discriminate.
Qed.

(** On a server that returns what was last set, and with a codec that
    decodes what it encoded: after a [Block] that succeeded, [IsBlocked]
    on the same key answers true with the expiry now + duration, and it
    does so at every instant at which it is asked, also past the expiry
    (it does not look at the clock). The status read back keeps the
    counter and the window start the key had. A [Block] whose read fails
    returns that error and leaves the server as it was. *)
Theorem RedisStorage_Block_then_IsBlocked (now : Time) (key : string)
    (duration : Duration) (srv : Srv) :
  (forall srv' : Srv,
     Block Srv client_Get client_Set Unmarshal Marshal now key duration srv
     = (None, srv') ->
     (forall later : Time,
        IsBlocked Srv client_Get Unmarshal later key srv'
        = ((true, Some (Time_Add now duration), None), srv'))
     /\ exists status : RateLimitStatus.t,
          Get Srv client_Get Unmarshal key srv' = (Some status, None)
          /\ forall old : RateLimitStatus.t,
               Get Srv client_Get Unmarshal key srv = (Some old, None) ->
               RateLimitStatus.Count status = RateLimitStatus.Count old
               /\ RateLimitStatus.LastReset status = RateLimitStatus.LastReset old)
  /\ (forall (status : option RateLimitStatus.t) (e : error),
        Get Srv client_Get Unmarshal key srv = (status, Some e) ->
        Block Srv client_Get client_Set Unmarshal Marshal now key duration srv
        = (Some e, srv)).
Proof.
  split.
  - intros srv' Hblock.
    destruct (RedisStorage_Block_stores now key duration srv srv' Hblock)
      as (status & Hget & Hflag & Huntil & Hold).
    split.
    + intros later. unfold IsBlocked. rewrite Hget, Hflag, Huntil. reflexivity.
    + exists status. split; [exact Hget|exact Hold].
  - intros status e Hget. unfold Block. rewrite Hget. destruct status; reflexivity.
Qed.

End RedisBlocking.

Lemma RedisStorage_Block_then_IsBlocked_witness :
  RedisStorage.IsBlocked (gmap string string) Scenario.kv_Get Scenario.Unmarshal1
    (3600 * Second) Scenario.ipKey
    (<[Scenario.ipKey := "blocked-status"]> ∅)
  = ((true, Some (14 * Second), None), <[Scenario.ipKey := "blocked-status"]> ∅).
Proof.
  assert (forall (status : RateLimitStatus.t) (data : string),
            Scenario.Marshal1 status = inl data ->
            Scenario.Unmarshal1 data = inl status) as Hcodec.
  { intros status data. unfold Scenario.Marshal1, Scenario.Unmarshal1.
    case_decide as Hstatus; [|discriminate]. intros [= <-]. rewrite Hstatus.
    reflexivity. }
  assert (forall (key data : string) (ttl : Duration) (srv srv' : gmap string string),
            Scenario.kv_Set key data ttl srv = (None, srv') ->
            Scenario.kv_Get key srv' = RedisStorage.Value data) as Hserver.
  { intros key data ttl srv srv' [= <-]. unfold Scenario.kv_Get.
    rewrite lookup_insert_eq. reflexivity. }
  exact (proj1 (proj1 (RedisStorage_Block_then_IsBlocked (gmap string string)
                         Scenario.kv_Get Scenario.kv_Set Scenario.Unmarshal1
                         Scenario.Marshal1 Hcodec Hserver
                         (4 * Second) Scenario.ipKey (10 * Second) ∅)
                  (<[Scenario.ipKey := "blocked-status"]> ∅) eq_refl)
           (3600 * Second)).
Defined.

(** ** Loading the token file *)

Section LoadedTokens.
Import Config.
Variable Getenv : string -> string.
Variable IsNotExist : string -> bool.
Variable ReadFile : string -> string + error.
Variable Unmarshal : string -> gmap string TokenConfig.t + error.
Variable Range : gmap string TokenConfig.t -> list (string * TokenConfig.t).

(** [range] visits every entry of the map and nothing else. *)
Hypothesis Range_visits :
  forall (tokens : gmap string TokenConfig.t) (token : string)
         (config : TokenConfig.t),
    tokens !! token = Some config -> (token, config) ∈ Range tokens.
Hypothesis Range_entries :
  forall (tokens : gmap string TokenConfig.t) (token : string)
         (config : TokenConfig.t),
    (token, config) ∈ Range tokens -> tokens !! token = Some config.

(** The entry the loop leaves under [token] for the file's entry
    [config]. *)
Let filled (token : string) (config : TokenConfig.t) : TokenConfig.t :=
  if decide (TokenConfig.Token config = "")
  then TokenConfig.mk token (TokenConfig.Limit config) (TokenConfig.Description config)
  else config.

(** The loop only fills entries in. *)
Lemma validateTokens_fills (tokens0 : gmap string TokenConfig.t)
    (entries : list (string * TokenConfig.t))
    (tokens tokens' : gmap string TokenConfig.t) :
  (forall token config, (token, config) ∈ entries -> tokens0 !! token = Some config) ->
  (forall token,
     tokens !! token = tokens0 !! token
     \/ tokens !! token = filled token <$> tokens0 !! token) ->
  validateTokens entries tokens = inl tokens' ->
  (forall token,
     tokens' !! token = tokens0 !! token
     \/ tokens' !! token = filled token <$> tokens0 !! token)
  /\ (forall token config,
        tokens0 !! token = Some config ->
        tokens !! token = Some (filled token config)
        \/ (token, config) ∈ entries ->
        tokens' !! token = Some (filled token config)).
Proof.
  revert tokens. induction entries as [|[token0 config0] entries IH];
    intros tokens Hsub Hinv Hrun.
  - cbn in Hrun. injection Hrun as <-. split; [exact Hinv|].
    intros token config Hfile [Hdone|Hin]; [exact Hdone|].
    apply elem_of_nil in Hin. contradiction.
  - cbn [validateTokens] in Hrun.
    destruct (Z.leb_spec (TokenConfig.Limit config0) 0) as [|Hpos]; [discriminate|].
    pose proof (Hsub token0 config0 ltac:(apply elem_of_cons; left; reflexivity))
      as Hfile0.
    assert (forall token config, (token, config) ∈ entries ->
                                 tokens0 !! token = Some config) as Hsub'.
    { intros token config Hin. apply Hsub. apply elem_of_cons. right. exact Hin. }
    destruct (decide (TokenConfig.Token config0 = "")) as [Hempty|Hfull].
    + assert (filled token0 config0
              = TokenConfig.mk token0 (TokenConfig.Limit config0)
                  (TokenConfig.Description config0)) as Hfilled
        by (unfold filled; rewrite decide_True by exact Hempty; reflexivity).
      destruct (IH (<[token0 := TokenConfig.mk token0 (TokenConfig.Limit config0)
                                  (TokenConfig.Description config0)]> tokens)
                  Hsub') as [Hinv' Hdone']; [|exact Hrun|].
      { intros token. destruct (decide (token0 = token)) as [<-|Hne].
        - right. rewrite lookup_insert_eq, Hfile0, <- Hfilled. reflexivity.
        - rewrite lookup_insert_ne by exact Hne. apply Hinv. }
      split; [exact Hinv'|].
      intros token config Hfile [Hdone|Hin].
      * apply (Hdone' token config Hfile). left.
        destruct (decide (token0 = token)) as [<-|Hne].
        -- rewrite lookup_insert_eq. rewrite Hfile0 in Hfile. injection Hfile as <-.
           rewrite Hfilled. reflexivity.
        -- rewrite lookup_insert_ne by exact Hne. exact Hdone.
      * apply elem_of_cons in Hin. destruct Hin as [[= -> ->]|Hin].
        -- apply (Hdone' token0 config0 Hfile). left.
           rewrite lookup_insert_eq, Hfilled. reflexivity.
        -- apply (Hdone' token config Hfile). right. exact Hin.
    + destruct (IH tokens Hsub' Hinv Hrun) as [Hinv' Hdone'].
      split; [exact Hinv'|].
      intros token config Hfile [Hdone|Hin].
      * apply (Hdone' token config Hfile). left. exact Hdone.
      * apply elem_of_cons in Hin. destruct Hin as [[= -> ->]|Hin].
        -- apply (Hdone' token0 config0 Hfile). left.
           assert (filled token0 config0 = config0) as Hsame
             by (unfold filled; rewrite decide_False by exact Hfull; reflexivity).
           rewrite Hsame.
           destruct (Hinv token0) as [Hraw|Hfill]; [rewrite Hraw; exact Hfile0|].
           rewrite Hfill, Hfile0. cbn. rewrite Hsame. reflexivity.
        -- apply (Hdone' token config Hfile). right. exact Hin.
Qed.

(** The loop fails on an entry it visits, and names it. *)
Lemma validateTokens_error (entries : list (string * TokenConfig.t))
    (tokens : gmap string TokenConfig.t) (e : error) :
  validateTokens entries tokens = inr e ->
  exists token config,
    (token, config) ∈ entries /\ TokenConfig.Limit config <= 0
    /\ e = "invalid token limit for token " +:+ token +:+ ": must be greater than 0".
Proof.
  revert tokens. induction entries as [|[token0 config0] entries IH];
    intros tokens Hrun; [discriminate|].
  cbn [validateTokens] in Hrun.
  destruct (Z.leb_spec (TokenConfig.Limit config0) 0) as [Hbad|Hpos].
  - injection Hrun as <-. exists token0, config0.
    split; [apply elem_of_cons; left; reflexivity|]. split; [exact Hbad|reflexivity].
  - destruct (IH _ Hrun) as (token & config & Hin & Hbad & He).
    exists token, config. split; [apply elem_of_cons; right; exact Hin|].
    split; assumption.
Qed.

(** [LoadTokenConfigs] on a file that exists, can be read and parses. It
    succeeds exactly when every entry of the file has a positive limit.
    The map it then returns has the file's keys, and under each key the
    file's entry, with the key as token when the entry's token member is
    empty: the result does not depend on the order in which the entries are
    visited. When it fails, the error names a token of the file whose limit
    is not positive. When the file does not exist it returns the empty map
    and no error. *)
Theorem LoadTokenConfigs_outcome (config : option Config.t) (data : string)
    (tokens : gmap string TokenConfig.t) :
  (IsNotExist (getTokenConfigFile Getenv config) = true ->
   LoadTokenConfigs Getenv IsNotExist ReadFile Unmarshal Range config = (Some ∅, None))
  /\ (IsNotExist (getTokenConfigFile Getenv config) = false ->
      ReadFile (getTokenConfigFile Getenv config) = inl data ->
      Unmarshal data = inl tokens ->
      match LoadTokenConfigs Getenv IsNotExist ReadFile Unmarshal Range config with
      | (Some tokens', None) =>
          (forall token tc, tokens !! token = Some tc -> 0 < TokenConfig.Limit tc)
          /\ forall token,
               tokens' !! token
               = (fun tc =>
                    if decide (TokenConfig.Token tc = "")
                    then TokenConfig.mk token (TokenConfig.Limit tc)
                           (TokenConfig.Description tc)
                    else tc) <$> tokens !! token
      | (None, Some e) =>
          exists token tc,
            tokens !! token = Some tc /\ TokenConfig.Limit tc <= 0
            /\ e = "invalid token limit for token " +:+ token
                   +:+ ": must be greater than 0"
      | _ => False
      end).
Proof.
  unfold LoadTokenConfigs. split.
  - intros ->. reflexivity.
  - intros -> -> ->.
    destruct (validateTokens (Range tokens) tokens) as [tokens'|e] eqn:Hloop.
    + split.
      * intros token tc Hfile.
        exact (validateTokens_checked _ _ _ Hloop token tc (Range_visits _ _ _ Hfile)).
      * intros token.
        destruct (validateTokens_fills tokens (Range tokens) tokens tokens'
                    (Range_entries tokens) ltac:(intros; left; reflexivity) Hloop)
          as [Hinv Hdone].
        destruct (tokens !! token) as [tc|] eqn:Hfile.
        -- rewrite (Hdone token tc Hfile (or_intror (Range_visits _ _ _ Hfile))).
           reflexivity.
        -- destruct (Hinv token) as [Hraw|Hfill].
           ++ rewrite Hraw, Hfile. reflexivity.
           ++ rewrite Hfill, Hfile. reflexivity.
    + destruct (validateTokens_error _ _ _ Hloop) as (token & tc & Hin & Hbad & He).
      exists token, tc. split; [exact (Range_entries _ _ _ Hin)|]. split; assumption.
Qed.

End LoadedTokens.

Lemma LoadTokenConfigs_outcome_witness :
  (Config.LoadTokenConfigs (fun _ => "") (fun _ => false) (fun _ => inl "{}")
     (fun _ => inl Scenario.tokensFile) map_to_list None).1
    ≫= (fun tokens => tokens !! "premium")
  = Some (TokenConfig.mk "premium" 1000 "Premium token").
Proof.
  pose proof (proj2 (LoadTokenConfigs_outcome (fun _ => "") (fun _ => false)
                       (fun _ => inl "{}") (fun _ => inl Scenario.tokensFile)
                       map_to_list
                       (fun tokens token config Hlookup =>
                          proj2 (elem_of_map_to_list tokens token config) Hlookup)
                       (fun tokens token config Hin =>
                          proj1 (elem_of_map_to_list tokens token config) Hin)
                       None "{}" Scenario.tokensFile)
                eq_refl eq_refl eq_refl) as Houtcome.
  assert (Config.LoadTokenConfigs (fun _ => "") (fun _ => false) (fun _ => inl "{}")
            (fun _ => inl Scenario.tokensFile) map_to_list None
          = (Some (RateLimitConfig.TokenConfigs Scenario.config), None)) as Hrun
    by (vm_compute; reflexivity).
  rewrite Hrun in Houtcome |- *. destruct Houtcome as [_ Hentries].
  cbn [fst mbind option_bind]. rewrite (Hentries "premium"). reflexivity.
Defined.
